(** * MSVA: the workflow orchestration engine and its report synthesizer

    A shallow embedding of

    - [src/orchestration/base_orchestrator.py]: [BaseOrchestrator._save_result],
      [get_result], [run_agent], [run_tool], [execute_workflow],
      [get_human_feedback];
    - [src/orchestration/startup_validator.py]: [_calculate_validation_score],
      [_generate_error_report], [_generate_interim_report],
      [_generate_validation_report], [workflow_full_validation];

    followed by the properties of these functions.

    Python values are the JSON-like values the agents exchange; a [dict] with
    string keys is a [gmap string value].  A Python exception is a value of
    [exn]; a computation that may raise returns a [res].  Methods of the
    orchestrator thread the orchestrator's mutable fields through a state and
    error monad [M]; a state change made before an exception is raised stays. *)

From Stdlib Require Import ZArith String Ascii List Lia.
From Stdlib Require Import Floats.SpecFloat.
From stdpp Require Import base option gmap strings list.

Set Warnings "-register-all".
#[local] Open Scope string_scope.
#[local] Open Scope Z_scope.

(** ** Python values *)

(** [VFloat] carries an IEEE value in the Standard Library's [spec_float]
    (sign, mantissa, exponent; infinities and NaN).  [VBool] is kept apart from
    [VInt] although Python's [bool] is a subclass of [int]: the operations
    below treat [True] as 1 and [False] as 0 where Python does. *)
Inductive value :=
| VNone
| VBool (b : bool)
| VInt (n : Z)
| VFloat (f : spec_float)
| VStr (s : string)
| VList (l : list value)
| VDict (d : gmap string value).

(** The exception classes the embedded code can raise. *)
Inductive exn :=
| TypeError
| AttributeError
| IndexError
| EOFError
| KeyError (key : value)
| ValueError (msg : string)
| ValidationError
| OSError.

Inductive res (A : Type) :=
| Ok (a : A)
| Raise (e : exn).
Arguments Ok {A} a.
Arguments Raise {A} e.

#[global] Instance res_ret : MRet res := fun A a => Ok a.
#[global] Instance res_bind : MBind res := fun A B f m =>
  match m with
  | Ok a => f a
  | Raise e => Raise e
  end.

#[global] Instance res_fmap : FMap res := fun A B f m =>
  match m with
  | Ok a => Ok (f a)
  | Raise e => Raise e
  end.

(** *** Operators on values *)

(** [bool(v)]. *)
Definition py_truthy (v : value) : bool :=
  match v with
  | VNone => false
  | VBool b => b
  | VInt n => negb (n =? 0)
  | VFloat (S754_zero _) => false
  | VFloat _ => true
  | VStr s => negb (String.eqb s "")
  | VList l => match l with [] => false | _ => true end
  | VDict d => negb (Nat.eqb (size d) 0)
  end.

(** [v == s] for a string literal [s]: only a [str] equals a [str]. *)
Definition py_eq_str (v : value) (s : string) : bool :=
  match v with
  | VStr t => String.eqb t s
  | _ => false
  end.

(** [p in s] on two strings. *)
Fixpoint substringb (p s : string) : bool :=
  String.prefix p s ||
  match s with
  | EmptyString => false
  | String _ s' => substringb p s'
  end.

(** [k in v] for a string literal [k]: key membership in a [dict], element
    membership in a [list], substring test on a [str]; anything else is not
    iterable. *)
Definition py_contains (k : string) (v : value) : res bool :=
  match v with
  | VDict d => Ok (bool_decide (is_Some (d !! k)))
  | VList l => Ok (existsb (fun x => py_eq_str x k) l)
  | VStr s => Ok (substringb k s)
  | _ => Raise TypeError
  end.

(** [v[k]] for a string literal [k]. *)
Definition py_getitem (v : value) (k : string) : res value :=
  match v with
  | VDict d =>
      match d !! k with
      | Some x => Ok x
      | None => Raise (KeyError (VStr k))
      end
  | _ => Raise TypeError
  end.

(** [v[0]]. *)
Definition py_getitem_0 (v : value) : res value :=
  match v with
  | VList l =>
      match l with
      | x :: _ => Ok x
      | [] => Raise IndexError
      end
  | VStr s =>
      match s with
      | String c _ => Ok (VStr (String c EmptyString))
      | EmptyString => Raise IndexError
      end
  | VDict _ => Raise (KeyError (VInt 0))
  | _ => Raise TypeError
  end.

(** [v.get(k, dflt)]: only a [dict] has the method. *)
Definition py_get (v : value) (k : string) (dflt : value) : res value :=
  match v with
  | VDict d => Ok (default dflt (d !! k))
  | _ => Raise AttributeError
  end.

(** [len(v)]. *)
Definition py_len (v : value) : res Z :=
  match v with
  | VList l => Ok (Z.of_nat (length l))
  | VDict d => Ok (Z.of_nat (size d))
  | VStr s => Ok (Z.of_nat (String.length s))
  | _ => Raise TypeError
  end.

Fixpoint chars (s : string) : list value :=
  match s with
  | EmptyString => []
  | String c s' => VStr (String c EmptyString) :: chars s'
  end.

(** The elements [for c in v] visits: the items of a [list], the keys of a
    [dict], the characters of a [str]. *)
Definition py_iter (v : value) : res (list value) :=
  match v with
  | VList l => Ok l
  | VDict d => Ok (VStr <$> (map_to_list d).*1)
  | VStr s => Ok (chars s)
  | _ => Raise TypeError
  end.

(** Python compares a [float] with an [int] exactly; with NaN every ordering
    test is false ([None] here). *)
Definition float_cmp_int (f : spec_float) (c : Z) : option comparison :=
  match f with
  | S754_nan => None
  | S754_infinity s => Some (if s then Lt else Gt)
  | S754_zero _ => Some (0 ?= c)
  | S754_finite s m e =>
      let z := if s then Z.neg m else Z.pos m in
      Some (if 0 <=? e then z * 2 ^ e ?= c else z ?= c * 2 ^ (- e))
  end.

(** The ordering of a value against an [int] literal; only numbers are
    ordered against an [int]. *)
Definition num_cmp_int (v : value) (c : Z) : res (option comparison) :=
  match v with
  | VInt n => Ok (Some (n ?= c))
  | VBool b => Ok (Some (Z.b2z b ?= c))
  | VFloat f => Ok (float_cmp_int f c)
  | _ => Raise TypeError
  end.

Definition is_Gt (o : option comparison) : bool :=
  match o with Some Gt => true | _ => false end.
Definition is_Lt (o : option comparison) : bool :=
  match o with Some Lt => true | _ => false end.

(** [v > c] and [v < c]. *)
Definition py_gt (v : value) (c : Z) : res bool := is_Gt <$> num_cmp_int v c.
Definition py_lt (v : value) (c : Z) : res bool := is_Lt <$> num_cmp_int v c.

(** ** The validation score ([startup_validator.py], lines 402-497)

    The body of [_calculate_validation_score] is four commented blocks that
    update the local variable [score] in turn; each block is a function from
    the score so far to the score after it. *)

(** Lines 415-438, "Market factors". *)
Definition market_factors (market_data : gmap string value) (score : Z) : res Z :=
  match market_data !! "market_trends" with
  | None => Ok score
  | Some trends =>
      has_size ← py_contains "market_size" trends;
      score ← (if has_size : bool then
                 market_size ← py_getitem trends "market_size";
                 gt_1B ← py_gt market_size 1000000000;
                 if gt_1B : bool then Ok (score + 10) else
                 gt_100M ← py_gt market_size 100000000;
                 if gt_100M : bool then Ok (score + 5) else
                 lt_10M ← py_lt market_size 10000000;
                 if lt_10M : bool then Ok (score - 5) else Ok score
               else Ok score);
      has_growth ← py_contains "growth_rate" trends;
      if has_growth : bool then
        growth_rate ← py_getitem trends "growth_rate";
        gt_20 ← py_gt growth_rate 20;
        if gt_20 : bool then Ok (score + 10) else
        gt_10 ← py_gt growth_rate 10;
        if gt_10 : bool then Ok (score + 5) else
        lt_5 ← py_lt growth_rate 5;
        if lt_5 : bool then Ok (score - 5) else
        lt_0 ← py_lt growth_rate 0;
        if lt_0 : bool then Ok (score - 10) else Ok score
      else Ok score
  end.

(** [sum(1 for c in competitors if c.get("type") == "direct")]. *)
Fixpoint count_direct (competitors : list value) : res Z :=
  match competitors with
  | [] => Ok 0
  | c :: rest =>
      ty ← py_get c "type" VNone;
      n ← count_direct rest;
      Ok (if py_eq_str ty "direct" then 1 + n else n)
  end.

(** Lines 440-455, "Competitor factors".  The market-gap test sits inside the
    [if "competitors" in competitor_data] block. *)
Definition competitor_factors (competitor_data : gmap string value) (score : Z) : res Z :=
  match competitor_data !! "competitors" with
  | None => Ok score
  | Some competitors =>
      cs ← py_iter competitors;
      num_direct ← count_direct cs;
      let score :=
        if num_direct =? 0 then score + 5
        else if 10 <? num_direct then score - 5
        else score in
      match competitor_data !! "market_gaps" with
      | None => Ok score
      | Some market_gaps =>
          if py_truthy market_gaps then
            let score := score + 5 in
            n ← py_len market_gaps;
            if 3 <? n then Ok (score + 5) else Ok score
          else Ok score
      end
  end.

(** Lines 457-477, "Customer persona factors". *)
Definition persona_factors (persona_data : gmap string value) (score : Z) : res Z :=
  match persona_data !! "personas" with
  | None => Ok score
  | Some personas =>
      if py_truthy personas then
        first ← py_getitem_0 personas;
        has_pain ← py_contains "pain_level" first;
        score ← (if has_pain : bool then
                   pain_level ← py_getitem first "pain_level";
                   if py_eq_str pain_level "high" then Ok (score + 10)
                   else if py_eq_str pain_level "medium" then Ok (score + 5)
                   else if py_eq_str pain_level "low" then Ok (score - 5)
                   else Ok score
                 else Ok score);
        has_wtp ← py_contains "willingness_to_pay" first;
        if has_wtp : bool then
          wtp ← py_getitem first "willingness_to_pay";
          if py_eq_str wtp "high" then Ok (score + 5)
          else if py_eq_str wtp "low" then Ok (score - 5)
          else Ok score
        else Ok score
      else Ok score
  end.

(** Lines 479-494, "MVP factors". *)
Definition mvp_factors (mvp_data : gmap string value) (score : Z) : res Z :=
  score ← match mvp_data !! "development_time" with
          | None => Ok score
          | Some development_time =>
              dev_time ← py_getitem development_time "weeks";
              lt_6 ← py_lt dev_time 6;
              if lt_6 : bool then Ok (score + 5) else
              gt_12 ← py_gt dev_time 12;
              if gt_12 : bool then Ok (score - 5) else Ok score
          end;
  match mvp_data !! "cost_estimate" with
  | None => Ok score
  | Some cost_estimate =>
      min_cost ← py_get cost_estimate "min" (VInt 0);
      lt_15k ← py_lt min_cost 15000;
      if lt_15k : bool then Ok (score + 5) else
      gt_50k ← py_gt min_cost 50000;
      if gt_50k : bool then Ok (score - 5) else Ok score
  end.

(** The value of [score] when line 497 is reached. *)
Definition raw_score (market_data competitor_data persona_data mvp_data : gmap string value)
  : res Z :=
  let score := 50 in
  score ← market_factors market_data score;
  score ← competitor_factors competitor_data score;
  score ← persona_factors persona_data score;
  mvp_factors mvp_data score.

(** [max(0, min(100, score))]. *)
Definition clamp (score : Z) : Z := Z.max 0 (Z.min 100 score).

Definition _calculate_validation_score
    (market_data competitor_data persona_data mvp_data : gmap string value) : res Z :=
  clamp <$> raw_score market_data competitor_data persona_data mvp_data.

(** ** The orchestrator ([base_orchestrator.py]) *)

Record AgentOutput := {
  agent_name : string;
  message_type : string;
  content : gmap string value;
  success : bool;
  metadata : option (gmap string value);
}.

Record OrchestratorConfig := {
  debug : bool;
  log_level : string;
  output_dir : string;
  save_intermediate_results : bool;
  human_in_the_loop : bool;
  max_retries : Z;
  timeout_seconds : Z;
}.

(** The field defaults of the class. *)
Definition default_config : OrchestratorConfig := {|
  debug := false;
  log_level := "INFO";
  output_dir := "./outputs";
  save_intermediate_results := true;
  human_in_the_loop := false;
  max_retries := 3;
  timeout_seconds := 120;
|}.

(** What a collaborator hands back and what the results store holds: a plain
    mapping or an [AgentOutput] instance. *)
Inductive pyobj :=
| ObjDict (d : gmap string value)
| ObjOutput (o : AgentOutput).

(** One awaited call [asyncio.wait_for(agent.process(input_data), timeout)] or
    [asyncio.wait_for(tool.run( **kwargs), timeout)] ends in one of three ways:
    the collaborator returns; the timeout expires, and [wait_for] cancels the
    call and raises [asyncio.TimeoutError()], an exception without arguments;
    or the collaborator raises an [Exception] [e], of which the orchestrator
    only uses [str(e)]. *)
Inductive outcome :=
| Returns (result : pyobj)
| TimesOut
| Raises (msg : string).

(** A collaborator is outside the modelled code.  Its answer may differ from
    one call to the next, so it is a function of the number of collaborator
    calls made before this one and of the call's argument. *)
Definition collaborator : Type := nat → gmap string value → outcome.

(** What the orchestrator is constructed with and does not change while a
    workflow runs.  [py_int] is Python's [int(s)] on a [str] ([None] where it
    raises [ValueError]), used on console input only. *)
Record env := {
  config : OrchestratorConfig;
  agents : gmap string collaborator;
  tools : gmap string collaborator;
  py_int : string → option Z;
}.

(** The mutable fields [current_workflow] and [results_store], and the
    orchestrator's exchanges with the outside: [calls] lists every
    [process]/[run] invocation (collaborator name and argument, oldest first),
    [dumps] every [json.dump] that [_save_result] attempts (directory, file
    name, object), [ticks] counts the readings of the clock, [stdin] holds the
    console lines not yet read.  Logger calls change none of these and are
    left out. *)
Record orchestrator := {
  current_workflow : option string;
  results_store : gmap string pyobj;
  calls : list (string * gmap string value);
  dumps : list (string * string * pyobj);
  ticks : nat;
  stdin : list string;
}.

Definition set_current_workflow (w : option string) (σ : orchestrator) : orchestrator :=
  {| current_workflow := w; results_store := results_store σ; calls := calls σ;
     dumps := dumps σ; ticks := ticks σ; stdin := stdin σ |}.
Definition set_results_store (r : gmap string pyobj) (σ : orchestrator) : orchestrator :=
  {| current_workflow := current_workflow σ; results_store := r; calls := calls σ;
     dumps := dumps σ; ticks := ticks σ; stdin := stdin σ |}.
Definition set_calls (c : list (string * gmap string value)) (σ : orchestrator) : orchestrator :=
  {| current_workflow := current_workflow σ; results_store := results_store σ; calls := c;
     dumps := dumps σ; ticks := ticks σ; stdin := stdin σ |}.
Definition set_dumps (d : list (string * string * pyobj)) (σ : orchestrator) : orchestrator :=
  {| current_workflow := current_workflow σ; results_store := results_store σ; calls := calls σ;
     dumps := d; ticks := ticks σ; stdin := stdin σ |}.
Definition set_ticks (n : nat) (σ : orchestrator) : orchestrator :=
  {| current_workflow := current_workflow σ; results_store := results_store σ; calls := calls σ;
     dumps := dumps σ; ticks := n; stdin := stdin σ |}.
Definition set_stdin (l : list string) (σ : orchestrator) : orchestrator :=
  {| current_workflow := current_workflow σ; results_store := results_store σ; calls := calls σ;
     dumps := dumps σ; ticks := ticks σ; stdin := l |}.

(** The orchestrator as [__init__] leaves it. *)
Definition init : orchestrator := {|
  current_workflow := None;
  results_store := ∅;
  calls := [];
  dumps := [];
  ticks := 0;
  stdin := [];
|}.

(** *** The monad of the methods *)

Definition M (A : Type) : Type := orchestrator → res A * orchestrator.

#[global] Instance M_ret : MRet M := fun A a σ => (Ok a, σ).
#[global] Instance M_bind : MBind M := fun A B f m σ =>
  match m σ with
  | (Ok a, σ') => f a σ'
  | (Raise e, σ') => (Raise e, σ')
  end.

Definition raise {A} (e : exn) : M A := fun σ => (Raise e, σ).
Definition get : M orchestrator := fun σ => (Ok σ, σ).
Definition modify (f : orchestrator → orchestrator) : M unit := fun σ => (Ok (), f σ).
Definition lift {A} (r : res A) : M A := fun σ => (r, σ).

(** [try: body finally: cleanup], for a [cleanup] that cannot raise. *)
Definition try_finally {A} (body : M A) (cleanup : orchestrator → orchestrator) : M A :=
  fun σ => let '(r, σ') := body σ in (r, cleanup σ').

(** *** [_save_result] and [get_result] (lines 251-268) *)

(** [s.replace(a, b)] for one-character [a] and [b]. *)
Fixpoint replace_char (a b : ascii) (s : string) : string :=
  match s with
  | EmptyString => EmptyString
  | String c s' => String (if Ascii.eqb c a then b else c) (replace_char a b s')
  end.

(** The store is updated first.  The write to disk is attempted only with
    [save_intermediate_results], and an exception inside it is caught and
    logged, so the method never raises. *)
Definition _save_result (E : env) (key : string) (result : pyobj) : M unit :=
  modify (fun σ => set_results_store (<[key := result]> (results_store σ)) σ);;
  if save_intermediate_results (config E) then
    let clean_key := replace_char "\" "_" (replace_char "/" "_" key) in
    modify (fun σ =>
      set_dumps (dumps σ ++ [(output_dir (config E), clean_key ++ ".json", result)]) σ)
  else mret ().

Definition get_result (key : string) : M (option pyobj) :=
  σ ← get; mret (results_store σ !! key).

(** *** [run_agent] and [run_tool] (lines 142-249) *)

(** The awaited call itself. *)
Definition invoke (name : string) (c : collaborator) (arg : gmap string value) : M outcome :=
  fun σ => (Ok (c (length (calls σ)) arg), set_calls (calls σ ++ [(name, arg)]) σ).

(** The exception of a failed attempt, and its [str]: the exception that
    [wait_for] raises on a timeout has no arguments, so its [str] is the empty
    string. *)
Inductive failure :=
| TimedOut
| Error (msg : string).

Definition str_failure (e : failure) : string :=
  match e with
  | TimedOut => ""
  | Error msg => msg
  end.

(** How the [for attempt in range(max_retries)] loop is left: by its [return],
    by the [raise] of the last attempt, or by running out of attempts. *)
Inductive loop_exit (A : Type) :=
| Returned (a : A)
| Escaped (e : failure)
| Finished.
Arguments Returned {A} a.
Arguments Escaped {A} e.
Arguments Finished {A}.

(** [self.config.save_intermediate_results and self.current_workflow]: the
    name to checkpoint under, if any.  The empty string is falsy. *)
Definition checkpoint_workflow (E : env) (σ : orchestrator) : option string :=
  if save_intermediate_results (config E) then
    match current_workflow σ with
    | Some w => if String.eqb w "" then None else Some w
    | None => None
    end
  else None.

(** Lines 168-171 and 228-231. *)
Definition save_intermediate (E : env) (name : string) (result : pyobj) : M unit :=
  σ ← get;
  match checkpoint_workflow E σ with
  | Some w => _save_result E (w ++ "_" ++ name) result
  | None => mret ()
  end.

(** Lines 173-180. *)
Definition as_AgentOutput (name : string) (result : pyobj) : AgentOutput :=
  match result with
  | ObjOutput o => o
  | ObjDict d =>
      {| agent_name := name; message_type := "result"; content := d;
         success := true; metadata := None |}
  end.

(** Lines 161-191; [remaining] counts the iterations of [range] still to run,
    [attempt] is the loop variable. *)
Fixpoint run_agent_attempts (E : env) (agent_name : string) (agent : collaborator)
    (input_data : gmap string value) (attempt : Z) (remaining : nat)
  : M (loop_exit AgentOutput) :=
  match remaining with
  | O => mret Finished
  | S remaining' =>
      o ← invoke agent_name agent input_data;
      match o with
      | Returns result =>
          save_intermediate E agent_name result;;
          mret (Returned (as_AgentOutput agent_name result))
      | TimesOut =>
          if attempt =? max_retries (config E) - 1 then mret (Escaped TimedOut)
          else run_agent_attempts E agent_name agent input_data (attempt + 1) remaining'
      | Raises msg =>
          if attempt =? max_retries (config E) - 1 then mret (Escaped (Error msg))
          else run_agent_attempts E agent_name agent input_data (attempt + 1) remaining'
      end
  end.

(** [None] is Python's [None]: the value of the call when the loop runs out
    without a [return] or a [raise]. *)
Definition run_agent (E : env) (agent_name : string) (input_data : gmap string value)
  : M (option AgentOutput) :=
  match agents E !! agent_name with
  | None => raise (ValueError ("Agent '" ++ agent_name ++ "' not found"))
  | Some agent =>
      r ← run_agent_attempts E agent_name agent input_data 0
            (Z.to_nat (max_retries (config E)));
      match r with
      | Returned result => mret (Some result)
      | Escaped e =>
          mret (Some {| agent_name := agent_name; message_type := "error";
                        content := {[ "error" := VStr (str_failure e) ]};
                        success := false; metadata := None |})
      | Finished => mret None
      end
  end.

(** Lines 221-242. *)
Fixpoint run_tool_attempts (E : env) (tool_name : string) (tool : collaborator)
    (kwargs : gmap string value) (attempt : Z) (remaining : nat)
  : M (loop_exit pyobj) :=
  match remaining with
  | O => mret Finished
  | S remaining' =>
      o ← invoke tool_name tool kwargs;
      match o with
      | Returns result =>
          save_intermediate E tool_name result;;
          mret (Returned result)
      | TimesOut =>
          if attempt =? max_retries (config E) - 1 then mret (Escaped TimedOut)
          else run_tool_attempts E tool_name tool kwargs (attempt + 1) remaining'
      | Raises msg =>
          if attempt =? max_retries (config E) - 1 then mret (Escaped (Error msg))
          else run_tool_attempts E tool_name tool kwargs (attempt + 1) remaining'
      end
  end.

Definition run_tool (E : env) (tool_name : string) (kwargs : gmap string value)
  : M (option pyobj) :=
  match tools E !! tool_name with
  | None => raise (ValueError ("Tool '" ++ tool_name ++ "' not found"))
  | Some tool =>
      r ← run_tool_attempts E tool_name tool kwargs 0
            (Z.to_nat (max_retries (config E)));
      match r with
      | Returned result => mret (Some result)
      | Escaped e =>
          mret (Some (ObjDict {[ "status" := VStr "error";
                                 "message" := VStr ("Tool execution failed: " ++ str_failure e) ]}))
      | Finished => mret None
      end
  end.

(** *** [execute_workflow] (lines 107-140) *)

(** A registered workflow function: called as
    [workflow_function(self, input_data)], it works on the orchestrator and
    returns a mapping or raises. *)
Definition workflow : Type := gmap string value → M (gmap string value).

Definition execute_workflow (E : env) (workflows : gmap string workflow)
    (workflow_name : string) (input_data : gmap string value) : M (gmap string value) :=
  match workflows !! workflow_name with
  | None => raise (ValueError ("Workflow '" ++ workflow_name ++ "' not found"))
  | Some workflow_function =>
      modify (set_current_workflow (Some workflow_name));;
      modify (set_results_store ∅);;
      try_finally
        (result ← workflow_function input_data;
         (if save_intermediate_results (config E)
          then _save_result E "final_result" (ObjDict result)
          else mret ());;
         mret result)
        (set_current_workflow None)
  end.

(** *** [get_human_feedback] (lines 270-310) *)

(** The [while True] loop of lines 300-308 over the console lines still to be
    read: [input()] raises [EOFError] at the end of the input, [int()] raises
    [ValueError] on a line that is not a number, and only the latter is
    caught.  What is printed is not modelled. *)
Fixpoint read_choice (E : env) (options lines : list string) : res string * list string :=
  match lines with
  | [] => (Raise EOFError, [])
  | line :: rest =>
      match py_int E line with
      | Some choice =>
          if (1 <=? choice) && (choice <=? Z.of_nat (length options))
          then (Ok (nth (Z.to_nat (choice - 1)) options ""), rest)
          else read_choice E options rest
      | None => read_choice E options rest
      end
  end.

Definition get_human_feedback (E : env) (message : string) (options : option (list string))
  : M string :=
  if negb (human_in_the_loop (config E)) then
    mret match options with
         | Some (o :: _) => o
         | _ => "approved"
         end
  else
    match options with
    | Some (o :: os) =>
        fun σ => let '(r, rest) := read_choice E (o :: os) (stdin σ) in (r, set_stdin rest σ)
    | _ =>
        fun σ => match stdin σ with
                 | line :: rest => (Ok line, set_stdin rest σ)
                 | [] => (Raise EOFError, σ)
                 end
    end.

(** ** The startup validator ([startup_validator.py]) *)

Record StartupIdea := {
  name : string;
  description : string;
  target_audience : option string;
  industry : option string;
  problem_statement : option string;
  solution : option string;
  revenue_model : option string;
  initial_thoughts : option string;
}.

Definition opt_str (o : option string) : value :=
  match o with
  | Some s => VStr s
  | None => VNone
  end.

(** [idea.dict()]. *)
Definition StartupIdea_dict (idea : StartupIdea) : gmap string value :=
  {[ "name" := VStr (name idea);
     "description" := VStr (description idea);
     "target_audience" := opt_str (target_audience idea);
     "industry" := opt_str (industry idea);
     "problem_statement" := opt_str (problem_statement idea);
     "solution" := opt_str (solution idea);
     "revenue_model" := opt_str (revenue_model idea);
     "initial_thoughts" := opt_str (initial_thoughts idea) ]}.

Record StartupValidationReport := {
  idea : StartupIdea;
  market_analysis : gmap string value;
  competitor_analysis : gmap string value;
  customer_personas : list (gmap string value);
  mvp_plan : gmap string value;
  recommendations : list string;
  validation_score : option spec_float;
  timestamp : string;
}.

(** [float(n)], exact for the integers a score can be. *)
Definition float_of_int (n : Z) : spec_float :=
  match n with
  | Z0 => S754_zero false
  | Zpos p => S754_finite false p 0
  | Zneg p => S754_finite true p 0
  end.

(** [report.dict()]. *)
Definition StartupValidationReport_dict (report : StartupValidationReport)
  : gmap string value :=
  {[ "idea" := VDict (StartupIdea_dict (idea report));
     "market_analysis" := VDict (market_analysis report);
     "competitor_analysis" := VDict (competitor_analysis report);
     "customer_personas" := VList (VDict <$> customer_personas report);
     "mvp_plan" := VDict (mvp_plan report);
     "recommendations" := VList (VStr <$> recommendations report);
     "validation_score" := match validation_score report with
                           | Some f => VFloat f
                           | None => VNone
                           end;
     "timestamp" := VStr (timestamp report) ]}.

(** What the validator calls and this development leaves open: the
    validation that pydantic runs when a model is constructed
    ([StartupIdea_new] for [StartupIdea( **data)], [validate_personas] for the
    [customer_personas] field of the report, both raise on invalid data), the
    clock ([isoformat n] is [datetime.now().isoformat()] at the [n]-th
    reading), and two methods no property below depends on:
    [_generate_recommendations] (lines 339-400) and [_save_validation_report]
    (lines 550-575, file-system code). *)
Record externals := {
  StartupIdea_new : gmap string value → res StartupIdea;
  validate_personas : value → res (list (gmap string value));
  isoformat : nat → string;
  _generate_recommendations :
    gmap string value → gmap string value → gmap string value → gmap string value →
    res (list string);
  _save_validation_report : StartupValidationReport → M string;
}.

(** [datetime.now().isoformat()]. *)
Definition now (X : externals) : M string :=
  σ ← get;
  modify (set_ticks (S (ticks σ)));;
  mret (isoformat X (ticks σ)).

(** Lines 273-289.  Input data is parsed JSON, so the value under ["idea"] is
    never a [StartupIdea] instance and the branch of line 281 is not taken. *)
Definition _parse_startup_idea (X : externals) (input_data : gmap string value)
  : res StartupIdea :=
  match input_data !! "idea" with
  | Some (VDict idea_data) => StartupIdea_new X idea_data
  | _ =>
      match StartupIdea_new X input_data with
      | Ok startup_idea => Ok startup_idea
      | Raise _ => Raise (ValueError "Invalid startup idea format")
      end
  end.

(** [if data:] on an optional mapping. *)
Definition given (data : option (gmap string value)) : option (gmap string value) :=
  match data with
  | Some d => if py_truthy (VDict d) then Some d else None
  | None => None
  end.

(** Lines 499-524. *)
Definition _generate_error_report (X : externals) (error_message : string)
    (idea : StartupIdea) (market_data competitor_data persona_data : option (gmap string value))
  : M (gmap string value) :=
  ts ← now X;
  let report : gmap string value :=
    {[ "success" := VBool false;
       "error" := VStr error_message;
       "idea" := VDict (StartupIdea_dict idea);
       "timestamp" := VStr ts ]} in
  let report :=
    match given market_data with
    | Some d => <["market_analysis" := VDict d]> report
    | None => report
    end in
  let report :=
    match given competitor_data with
    | Some d => <["competitor_analysis" := VDict d]> report
    | None => report
    end in
  let report :=
    match given persona_data with
    | Some d => <["customer_personas" := default (VList []) (d !! "personas")]> report
    | None => report
    end in
  mret report.

(** Lines 526-548. *)
Definition _generate_interim_report (E : env) (X : externals) (idea : StartupIdea)
    (market_data competitor_data persona_data : gmap string value) : M (gmap string value) :=
  ts ← now X;
  let report : gmap string value :=
    {[ "success" := VBool true;
       "idea" := VDict (StartupIdea_dict idea);
       "market_analysis" := VDict market_data;
       "competitor_analysis" := VDict competitor_data;
       "customer_personas" := default (VList []) (persona_data !! "personas");
       "timestamp" := VStr ts;
       "status" := VStr "interim";
       "message" := VStr "MVP planning was skipped due to user request" ]} in
  _save_result E "interim_report" (ObjDict report);;
  mret report.

(** Lines 291-337.  The report's [timestamp] default reads the clock while
    the model is validated. *)
Definition _generate_validation_report (X : externals) (idea : StartupIdea)
    (market_data competitor_data persona_data mvp_data : gmap string value)
  : M StartupValidationReport :=
  recommendations ←
    lift (_generate_recommendations X market_data competitor_data persona_data mvp_data);
  validation_score ←
    lift (_calculate_validation_score market_data competitor_data persona_data mvp_data);
  ts ← now X;
  personas ← lift (validate_personas X (default (VList []) (persona_data !! "personas")));
  mret {| idea := idea;
          market_analysis := market_data;
          competitor_analysis := competitor_data;
          customer_personas := personas;
          mvp_plan := mvp_data;
          recommendations := recommendations;
          validation_score := Some (float_of_int validation_score);
          timestamp := ts |}.

(** [result.success] and [result.content] raise [AttributeError] when
    [run_agent] returned [None]. *)
Definition the_output (result : option AgentOutput) : M AgentOutput :=
  match result with
  | Some o => mret o
  | None => raise AttributeError
  end.

(** Lines 60-180.  Each [return] of the method ends the computation, so the
    stages nest; without the human gate the pipeline goes on as after the
    answer ["proceed"]. *)
Definition workflow_full_validation (E : env) (X : externals)
    (input_data : gmap string value) : M (gmap string value) :=
  startup_idea ← lift (_parse_startup_idea X input_data);
  let idea_dict := VDict (StartupIdea_dict startup_idea) in
  (* Stage 1: Market Research *)
  market_result ← run_agent E "market_researcher"
    {[ "idea" := idea_dict;
       "search_terms" := default (VList []) (input_data !! "search_terms") ]};
  market_result ← the_output market_result;
  if negb (success market_result) then
    _generate_error_report X "Market research failed" startup_idea None None None
  else
  let market_data := content market_result in
  _save_result E "market_research" (ObjDict market_data);;
  (* Stage 2: Competitor Analysis *)
  competitor_result ← run_agent E "competitor_analyzer"
    {[ "idea" := idea_dict; "market_data" := VDict market_data ]};
  competitor_result ← the_output competitor_result;
  if negb (success competitor_result) then
    _generate_error_report X "Competitor analysis failed" startup_idea
      (Some market_data) None None
  else
  let competitor_data := content competitor_result in
  _save_result E "competitor_analysis" (ObjDict competitor_data);;
  (* Stage 3: Customer Persona Generation *)
  persona_result ← run_agent E "customer_persona_generator"
    {[ "idea" := idea_dict; "market_data" := VDict market_data;
       "competitor_data" := VDict competitor_data ]};
  persona_result ← the_output persona_result;
  if negb (success persona_result) then
    _generate_error_report X "Customer persona generation failed" startup_idea
      (Some market_data) (Some competitor_data) None
  else
  let persona_data := content persona_result in
  _save_result E "customer_personas" (ObjDict persona_data);;
  (* Stage 4: MVP Planning, after the human gate *)
  approval ←
    (if human_in_the_loop (config E) then
       get_human_feedback E
         "Review the market research, competitor analysis, and customer personas. Proceed with MVP planning?"
         (Some ["proceed"; "stop"])
     else mret "proceed");
  if negb (String.eqb approval "proceed") then
    _generate_interim_report E X startup_idea market_data competitor_data persona_data
  else
  mvp_result ← run_agent E "mvp_planner"
    {[ "idea" := idea_dict; "market_data" := VDict market_data;
       "competitor_data" := VDict competitor_data;
       "customer_personas" := VDict persona_data ]};
  mvp_result ← the_output mvp_result;
  if negb (success mvp_result) then
    _generate_error_report X "MVP planning failed" startup_idea
      (Some market_data) (Some competitor_data) (Some persona_data)
  else
  let mvp_data := content mvp_result in
  _save_result E "mvp_plan" (ObjDict mvp_data);;
  report ← _generate_validation_report X startup_idea
             market_data competitor_data persona_data mvp_data;
  _ ← _save_validation_report X report;
  mret (StartupValidationReport_dict report).

(** ** Auxiliary definitions for the statements *)

(** The first of [remaining] successive attempts that returns, with its
    position, when the collaborator has been called [base] times before. *)
Fixpoint first_return (c : collaborator) (arg : gmap string value) (base remaining : nat)
  : option (nat * pyobj) :=
  match remaining with
  | O => None
  | S remaining' =>
      match c base arg with
      | Returns result => Some (O, result)
      | _ => prod_map S id <$> first_return c arg (S base) remaining'
      end
  end.

(** The exception of an attempt that does not return. *)
Definition failure_of (o : outcome) : failure :=
  match o with
  | Raises msg => Error msg
  | _ => TimedOut
  end.

(** The result of [run_agent] after exhaustion. *)
Definition error_output (agent_name : string) (e : failure) : AgentOutput :=
  {| agent_name := agent_name; message_type := "error";
     content := {[ "error" := VStr (str_failure e) ]};
     success := false; metadata := None |}.

(** Payloads of the shape the score computation reads them at. *)
Definition is_number (v : value) : bool :=
  match v with
  | VInt _ | VFloat _ | VBool _ => true
  | _ => false
  end.

Definition is_dict (v : value) : bool :=
  match v with
  | VDict _ => true
  | _ => false
  end.

Definition absent_or (P : value → bool) (d : gmap string value) (k : string) : bool :=
  match d !! k with
  | None => true
  | Some v => P v
  end.

(** [market_trends] is a mapping with numeric size and growth. *)
Definition market_shape (market_data : gmap string value) : bool :=
  absent_or (fun trends =>
    match trends with
    | VDict t => absent_or is_number t "market_size" && absent_or is_number t "growth_rate"
    | _ => false
    end) market_data "market_trends".

(** [competitors] is a list of mappings, [market_gaps] a list. *)
Definition competitor_shape (competitor_data : gmap string value) : bool :=
  absent_or (fun cs =>
    match cs with
    | VList l => forallb is_dict l
    | _ => false
    end) competitor_data "competitors" &&
  absent_or (fun gaps =>
    match gaps with
    | VList _ => true
    | _ => false
    end) competitor_data "market_gaps".

(** [personas] is a list whose first element, if any, is a mapping. *)
Definition persona_shape (persona_data : gmap string value) : bool :=
  absent_or (fun personas =>
    match personas with
    | VList [] => true
    | VList (VDict _ :: _) => true
    | _ => false
    end) persona_data "personas".

(** [development_time] is a mapping with a numeric ["weeks"], [cost_estimate]
    a mapping whose ["min"], if any, is numeric. *)
Definition mvp_shape (mvp_data : gmap string value) : bool :=
  absent_or (fun development_time =>
    match development_time with
    | VDict d =>
        match d !! "weeks" with
        | Some w => is_number w
        | None => false
        end
    | _ => false
    end) mvp_data "development_time" &&
  absent_or (fun cost_estimate =>
    match cost_estimate with
    | VDict d => absent_or is_number d "min"
    | _ => false
    end) mvp_data "cost_estimate".

(** ** Sample data *)

(** The payloads of the worked example: growth 25, size 2,000,000,000, the
    given competitors and one market gap, a first persona with high pain and
    high willingness to pay, five weeks and a minimum cost of 10000. *)
Definition example_market : gmap string value :=
  {[ "market_trends" :=
       VDict {[ "growth_rate" := VInt 25; "market_size" := VInt 2000000000 ]} ]}.

Definition example_competitor (competitors : list value) (gap : value) : gmap string value :=
  {[ "competitors" := VList competitors; "market_gaps" := VList [gap] ]}.

Definition example_persona (others : list value) : gmap string value :=
  {[ "personas" :=
       VList (VDict {[ "pain_level" := VStr "high"; "willingness_to_pay" := VStr "high" ]}
              :: others) ]}.

Definition example_mvp : gmap string value :=
  {[ "development_time" := VDict {[ "weeks" := VInt 5 ]};
     "cost_estimate" := VDict {[ "min" := VInt 10000 ]} ]}.

(** A market payload that holds a growth rate and nothing else. *)
Definition growth_only (growth_rate : value) : gmap string value :=
  {[ "market_trends" := VDict {[ "growth_rate" := growth_rate ]} ]}.

(** A collaborator that ends every call the same way. *)
Definition always (o : outcome) : collaborator := fun _ _ => o.

(** An orchestrator with the default configuration (three attempts,
    persistence on) whose agent ["analyst"] and tool ["search"] both behave
    as [c]. *)
Definition guard_env (c : collaborator) : env :=
  {| config := default_config;
     agents := {[ "analyst" := c ]};
     tools := {[ "search" := c ]};
     py_int := fun _ => None |}.

(** The orchestrator while the workflow [w] executes. *)
Definition running (w : string) : orchestrator := set_current_workflow (Some w) init.

(** What a failing tool returns instead of raising. *)
Definition status_error : gmap string value :=
  {[ "status" := VStr "error"; "message" := VStr "Search failed due to an exception" ]}.

(** A workflow function that checkpoints its input and returns it. *)
Definition echo_workflow (E : env) : workflow :=
  fun input_data => _save_result E "echo_report" (ObjDict input_data);; mret input_data.

(** A strict reading of the [StartupIdea] model: [name] and [description]
    must be strings, the optional fields are left unset. *)
Definition strict_StartupIdea (data : gmap string value) : res StartupIdea :=
  match data !! "name", data !! "description" with
  | Some (VStr n), Some (VStr d) =>
      Ok {| name := n; description := d; target_audience := None; industry := None;
            problem_statement := None; solution := None; revenue_model := None;
            initial_thoughts := None |}
  | _, _ => Raise ValidationError
  end.

Definition strict_personas (v : value) : res (list (gmap string value)) :=
  match v with
  | VList l =>
      foldr (fun x acc =>
               match x, acc with
               | VDict d, Ok ds => Ok (d :: ds)
               | _, _ => Raise ValidationError
               end) (Ok []) l
  | _ => Raise ValidationError
  end.

Definition sample_externals : externals :=
  {| StartupIdea_new := strict_StartupIdea;
     validate_personas := strict_personas;
     isoformat := fun _ => "2024-05-01T12:00:00";
     _generate_recommendations := fun _ _ _ _ => Ok [];
     _save_validation_report := fun _ => mret "./outputs/reports/validation_report.json" |}.

Definition sample_input : gmap string value :=
  {[ "name" := VStr "MSVA"; "description" := VStr "Validates startup ideas" ]}.

Definition sample_idea : StartupIdea :=
  {| name := "MSVA"; description := "Validates startup ideas"; target_audience := None;
     industry := None; problem_statement := None; solution := None;
     revenue_model := None; initial_thoughts := None |}.

(** An orchestrator whose market researcher returns [market] and whose
    competitor analyzer times out on every attempt. *)
Definition competitor_fails_env (market : gmap string value) : env :=
  {| config := default_config;
     agents := {[ "market_researcher" := always (Returns (ObjDict market));
                  "competitor_analyzer" := always TimesOut ]};
     tools := ∅;
     py_int := fun _ => None |}.

(** ** The rest of the two orchestration modules

    A [str] is a Rocq string read as one character per code point below 256,
    so that lengths, slices and [join] agree with Python's on such strings. *)

(** *** Registration ([base_orchestrator.py], lines 74-105) *)

(** [self.agents[agent_name] = agent_instance]. *)
Definition register_agent (agent_name : string) (agent_instance : collaborator) (E : env)
  : env :=
  {| config := config E;
     agents := <[agent_name := agent_instance]> (agents E);
     tools := tools E;
     py_int := py_int E |}.

(** [self.tools[tool_name] = tool_instance]. *)
Definition register_tool (tool_name : string) (tool_instance : collaborator) (E : env) : env :=
  {| config := config E;
     agents := agents E;
     tools := <[tool_name := tool_instance]> (tools E);
     py_int := py_int E |}.

(** [self.workflows[workflow_name] = workflow_function]. *)
Definition register_workflow (workflow_name : string) (workflow_function : workflow)
    (workflows : gmap string workflow) : gmap string workflow :=
  <[workflow_name := workflow_function]> workflows.

(** *** The partial workflows ([startup_validator.py], lines 182-271) *)

(** [sep.join(l)]. *)
Fixpoint str_join (sep : string) (l : list string) : string :=
  match l with
  | [] => ""
  | [x] => x
  | x :: rest => x ++ sep ++ str_join sep rest
  end.

(** Lines 182-220. *)
Definition workflow_market_only (E : env) (X : externals) (input_data : gmap string value)
  : M (gmap string value) :=
  startup_idea ← lift (_parse_startup_idea X input_data);
  market_result ← run_agent E "market_researcher"
    {[ "idea" := VDict (StartupIdea_dict startup_idea);
       "search_terms" := default (VList []) (input_data !! "search_terms") ]};
  market_result ← the_output market_result;
  if negb (success market_result) then
    _generate_error_report X "Market research failed" startup_idea None None None
  else
  let market_data := content market_result in
  ts ← now X;
  let report : gmap string value :=
    {[ "idea" := VDict (StartupIdea_dict startup_idea);
       "market_analysis" := VDict market_data;
       "timestamp" := VStr ts ]} in
  _save_result E "market_only_report" (ObjDict report);;
  mret report.

(** Line 239. *)
Definition required_keys : list string := ["market_data"; "competitor_data"; "customer_personas"].

(** Line 240: [[key for key in required_keys if key not in input_data]]. *)
Definition missing_keys (input_data : gmap string value) : list string :=
  List.filter (fun key => negb (bool_decide (is_Some (input_data !! key)))) required_keys.

(** Lines 222-271.  When no key is missing the three subscripts of lines
    250-252 find their keys. *)
Definition workflow_mvp_only (E : env) (X : externals) (input_data : gmap string value)
  : M (gmap string value) :=
  startup_idea ← lift (_parse_startup_idea X input_data);
  match missing_keys input_data with
  | _ :: _ =>
      let error_msg := "Missing required data: " ++ str_join ", " (missing_keys input_data) in
      mret {[ "error" := VStr error_msg; "success" := VBool false ]}
  | [] =>
      market_data ← lift (py_getitem (VDict input_data) "market_data");
      competitor_data ← lift (py_getitem (VDict input_data) "competitor_data");
      customer_personas ← lift (py_getitem (VDict input_data) "customer_personas");
      mvp_result ← run_agent E "mvp_planner"
        {[ "idea" := VDict (StartupIdea_dict startup_idea);
           "market_data" := market_data;
           "competitor_data" := competitor_data;
           "customer_personas" := customer_personas ]};
      mvp_result ← the_output mvp_result;
      if negb (success mvp_result) then
        mret {[ "error" := VStr "MVP planning failed"; "success" := VBool false ]}
      else
      let mvp_data := content mvp_result in
      ts ← now X;
      let report : gmap string value :=
        {[ "idea" := VDict (StartupIdea_dict startup_idea);
           "mvp_plan" := VDict mvp_data;
           "timestamp" := VStr ts ]} in
      _save_result E "mvp_only_report" (ObjDict report);;
      mret report
  end.

(** *** Calling what is registered (line 128)

    What [register_workflow] stores is a Python callable: a plain function, or
    a bound method [obj.f].  A function declared with positional parameters
    only, as every workflow method is, binds its arguments when it is called,
    and a call with another number of arguments than it has parameters raises
    [TypeError] before the body runs (for an [async def], too: the arguments
    are bound when the coroutine is created).  Calling a bound method calls
    its function with the object put before the arguments. *)
Inductive argument :=
| Self
| Data (input_data : gmap string value).

Record function := {
  parameters : list string;
  body : list argument → M (gmap string value);
}.

Definition call (f : function) (arguments : list argument) : M (gmap string value) :=
  if (length arguments =? length (parameters f))%nat then body f arguments
  else raise TypeError.

Inductive callable :=
| PlainFunction (f : function)
| BoundMethod (f : function).

Definition call_callable (c : callable) (arguments : list argument)
  : M (gmap string value) :=
  match c with
  | PlainFunction f => call f arguments
  | BoundMethod f => call f (Self :: arguments)
  end.

(** A method [async def workflow_...(self, input_data)] of the validator,
    with [steps] for what it does on the orchestrator and a mapping (lines 60,
    182 and 222).  Each of the three begins with [self.logger.info(...)] and
    [self._parse_startup_idea(input_data)]: on a mapping as [self] the first
    raises [AttributeError], and on the orchestrator as [input_data] the test
    ["idea" in input_data] of line 275 raises [TypeError]. *)
Definition method (steps : workflow) : function :=
  {| parameters := ["self"; "input_data"];
     body := fun arguments =>
       match arguments with
       | [Self; Data input_data] => steps input_data
       | Self :: _ => raise TypeError
       | _ => raise AttributeError
       end |}.

(** Line 128 of [base_orchestrator.py]:
    [workflow_function(self, input_data)]. *)
Definition as_workflow (workflow_function : callable) : workflow :=
  fun input_data => call_callable workflow_function [Self; Data input_data].

(** *** The workflows as [__init__] registers them (lines 46-58)

    [__init__] registers the bound methods [self.workflow_full_validation],
    [self.workflow_market_only] and [self.workflow_mvp_only]. *)
Definition StartupValidatorOrchestrator_workflows (E : env) (X : externals)
  : gmap string workflow :=
  register_workflow "mvp_only"
    (as_workflow (BoundMethod (method (workflow_mvp_only E X))))
    (register_workflow "market_only"
       (as_workflow (BoundMethod (method (workflow_market_only E X))))
       (register_workflow "full_validation"
          (as_workflow (BoundMethod (method (workflow_full_validation E X))))
          ∅)).

(** *** [_generate_recommendations] (lines 339-400) *)

(** Two things the method does depend on the interpreter: the exception of a
    slice subscript on a [dict] ([TypeError] before Python 3.12, [KeyError]
    from 3.12 on), and the text an f-string gives a value that is not a
    [str]. *)
Record python := {
  dict_slice_error : exn;
  py_str : value → string;
}.

(** The items [sep.join(v[:3])] joins: the first three items of a list or the
    first three characters of a string. *)
Definition first_3 (P : python) (v : value) : res (list value) :=
  match v with
  | VList l => Ok (take 3 l)
  | VStr s => Ok (take 3 (chars s))
  | VDict _ => Raise (dict_slice_error P)
  | _ => Raise TypeError
  end.

(** [join] accepts only [str] items. *)
Fixpoint strs (items : list value) : res (list string) :=
  match items with
  | [] => Ok []
  | VStr s :: rest => (fun l => s :: l) <$> strs rest
  | _ :: _ => Raise TypeError
  end.

(** [', '.join(v[:3])]. *)
Definition join_first_3 (P : python) (v : value) : res string :=
  items ← first_3 P v;
  str_join ", " <$> strs items.

(** The text of [{v}] in an f-string. *)
Definition format_value (P : python) (v : value) : string :=
  match v with
  | VStr s => s
  | _ => py_str P v
  end.

(** [["growth_rate" in trends and trends["growth_rate"] < 5]] and the same
    with [> 20]. *)
Definition growth_below (trends : value) (c : Z) : res bool :=
  has_growth ← py_contains "growth_rate" trends;
  if has_growth : bool then
    growth_rate ← py_getitem trends "growth_rate";
    py_lt growth_rate c
  else Ok false.

Definition growth_above (trends : value) (c : Z) : res bool :=
  has_growth ← py_contains "growth_rate" trends;
  if has_growth : bool then
    growth_rate ← py_getitem trends "growth_rate";
    py_gt growth_rate c
  else Ok false.

(** Lines 349-359. *)
Definition market_recommendations (market_data : gmap string value) : res (list string) :=
  match market_data !! "market_trends" with
  | None => Ok []
  | Some trends =>
      low ← growth_below trends 5;
      if low : bool then
        Ok ["Consider pivoting to a higher-growth market segment as the current market shows low growth."]
      else
        high ← growth_above trends 20;
        if high : bool then
          Ok ["The market is growing rapidly. Consider securing funding quickly to capitalize on growth opportunities."]
        else Ok []
  end.

(** Lines 361-367. *)
Definition competitor_recommendations (P : python) (competitor_data : gmap string value)
  : res (list string) :=
  match competitor_data !! "market_gaps" with
  | None => Ok []
  | Some gaps =>
      if py_truthy gaps then
        joined ← join_first_3 P gaps;
        Ok ["Focus on these identified gaps in the market: " ++ joined]
      else Ok []
  end.

(** Lines 369-376. *)
Definition persona_recommendations (P : python) (persona_data : gmap string value)
  : res (list string) :=
  match persona_data !! "personas" with
  | None => Ok []
  | Some personas =>
      if py_truthy personas then
        primary_persona ← py_getitem_0 personas;
        has_pain_points ← py_contains "pain_points" primary_persona;
        if has_pain_points : bool then
          pain_points ← py_getitem primary_persona "pain_points";
          joined ← join_first_3 P pain_points;
          Ok ["Prioritize addressing these customer pain points: " ++ joined]
        else Ok []
      else Ok []
  end.

(** Line 385: [[item for item in ... if item["type"] == "risk"]]. *)
Fixpoint risk_items (items : list value) : res (list value) :=
  match items with
  | [] => Ok []
  | item :: rest =>
      ty ← py_getitem item "type";
      risks ← risk_items rest;
      Ok (if py_eq_str ty "risk" then item :: risks else risks)
  end.

(** Lines 378-389. *)
Definition mvp_recommendations (P : python) (mvp_data : gmap string value)
  : res (list string) :=
  let features :=
    match mvp_data !! "features" with
    | Some features =>
        if py_truthy features then
          ["Focus on building and validating the core MVP features before expanding scope."]
        else []
    | None => []
    end in
  match mvp_data !! "assumptions_and_risks" with
  | None => Ok features
  | Some assumptions_and_risks =>
      items ← py_iter assumptions_and_risks;
      risks ← risk_items items;
      match risks with
      | [] => Ok features
      | first_risk :: _ =>
          description ← py_getitem first_risk "description";
          let text := "Mitigate key risks early: " ++ format_value P description in
          Ok (features ++ [text])%list
      end
  end.

(** The two general recommendations of lines 393-398. *)
Definition general_recommendations : list string :=
  ["Validate your assumptions with real customer interviews before building the MVP.";
   "Consider running small experiments to test key hypotheses about your target market."].

(** The method, under another name than the field of [externals] that stands
    for it in [workflow_full_validation]. *)
Definition generate_recommendations (P : python)
    (market_data competitor_data persona_data mvp_data : gmap string value)
  : res (list string) :=
  r1 ← market_recommendations market_data;
  r2 ← competitor_recommendations P competitor_data;
  r3 ← persona_recommendations P persona_data;
  r4 ← mvp_recommendations P mvp_data;
  let recommendations := (r1 ++ r2 ++ r3 ++ r4)%list in
  Ok (if Z.of_nat (length recommendations) <? 3
      then (recommendations ++ general_recommendations)%list
      else recommendations).

(** *** What the agents of the repository return

    Every [return] of [process] in [market_researcher_agent.py] (lines 51,
    82), [competitor_analyzer_agent.py] (lines 69, 96),
    [customer_persona_agent.py] (lines 73, 111) and [mvp_planner_agent.py]
    (lines 87, 139) is a mapping with the three keys below. *)
Definition agent_result (status message : string) (data : value) : gmap string value :=
  {[ "status" := VStr status; "message" := VStr message; "data" := data ]}.

(** *** The score, adjustment by adjustment

    The score as a sum: the baseline 50 plus one adjustment for every field
    that a rule of [_calculate_validation_score] reads, where a field that is
    absent adds nothing.  The points of a field that is present are those of
    the [if]/[elif] chain of the rule, on the value at the type the rule reads
    it at; the score computation itself is [_calculate_validation_score]
    above, which the sum is compared with. *)

(** The outcome of a test that does not raise. *)
Definition holds (test : res bool) : bool :=
  match test with
  | Ok b => b
  | Raise _ => false
  end.

(** Lines 422-427. *)
Definition market_size_points (market_size : value) : Z :=
  if holds (py_gt market_size 1000000000) then 10
  else if holds (py_gt market_size 100000000) then 5
  else if holds (py_lt market_size 10000000) then -5
  else 0.

(** Lines 431-438. *)
Definition growth_rate_points (growth_rate : value) : Z :=
  if holds (py_gt growth_rate 20) then 10
  else if holds (py_gt growth_rate 10) then 5
  else if holds (py_lt growth_rate 5) then -5
  else if holds (py_lt growth_rate 0) then -10
  else 0.

(** Lines 445-449. *)
Definition direct_competitor_points (competitors : list value) : Z :=
  match count_direct competitors with
  | Ok num_direct =>
      if num_direct =? 0 then 5 else if 10 <? num_direct then -5 else 0
  | Raise _ => 0
  end.

(** Lines 452-455. *)
Definition market_gap_points (market_gaps : value) : Z :=
  if py_truthy market_gaps then
    match py_len market_gaps with
    | Ok n => if 3 <? n then 10 else 5
    | Raise _ => 5
    end
  else 0.

(** Lines 462-467. *)
Definition pain_level_points (pain_level : value) : Z :=
  if py_eq_str pain_level "high" then 10
  else if py_eq_str pain_level "medium" then 5
  else if py_eq_str pain_level "low" then -5
  else 0.

(** Lines 472-475. *)
Definition willingness_to_pay_points (wtp : value) : Z :=
  if py_eq_str wtp "high" then 5
  else if py_eq_str wtp "low" then -5
  else 0.

(** Lines 483-486. *)
Definition development_weeks_points (dev_time : value) : Z :=
  if holds (py_lt dev_time 6) then 5
  else if holds (py_gt dev_time 12) then -5
  else 0.

(** Lines 491-494. *)
Definition min_cost_points (min_cost : value) : Z :=
  if holds (py_lt min_cost 15000) then 5
  else if holds (py_gt min_cost 50000) then -5
  else 0.

(** An absent field adds nothing. *)
Definition adjustment (points : value → Z) (field : option value) : Z :=
  match field with
  | Some x => points x
  | None => 0
  end.

(** The field [inner] of the mapping under [outer], when both are there. *)
Definition nested (payload : gmap string value) (outer inner : string) : option value :=
  match payload !! outer with
  | Some (VDict fields) => fields !! inner
  | _ => None
  end.

(** A field of the first persona, when there is one. *)
Definition first_persona (persona_data : gmap string value) (field : string)
  : option value :=
  match persona_data !! "personas" with
  | Some (VList (VDict first :: _)) => first !! field
  | _ => None
  end.

(** The market gaps count next to a ["competitors"] entry only, and a
    [cost_estimate] mapping without ["min"] is read as one with [min] 0. *)
Definition score_by_adjustment
    (market_data competitor_data persona_data mvp_data : gmap string value) : Z :=
  50
  + adjustment market_size_points (nested market_data "market_trends" "market_size")
  + adjustment growth_rate_points (nested market_data "market_trends" "growth_rate")
  + match competitor_data !! "competitors" with
    | Some (VList competitors) =>
        direct_competitor_points competitors
        + adjustment market_gap_points (competitor_data !! "market_gaps")
    | _ => 0
    end
  + adjustment pain_level_points (first_persona persona_data "pain_level")
  + adjustment willingness_to_pay_points (first_persona persona_data "willingness_to_pay")
  + adjustment development_weeks_points (nested mvp_data "development_time" "weeks")
  + match mvp_data !! "cost_estimate" with
    | Some (VDict cost_estimate) =>
        min_cost_points (default (VInt 0) (cost_estimate !! "min"))
    | _ => 0
    end.

(** Payloads in which one field of each pair is absent: a market size
    without a growth rate, competitors without market gaps, a first persona
    with a pain level and no willingness to pay, a cost estimate without a
    development time. *)
Definition lone_market : gmap string value :=
  {[ "market_trends" := VDict {[ "market_size" := VInt 2000000000 ]} ]}.
Definition lone_competitor : gmap string value :=
  {[ "competitors" := VList [] ]}.
Definition lone_persona : gmap string value :=
  {[ "personas" := VList [VDict {[ "pain_level" := VStr "high" ]}] ]}.
Definition lone_mvp : gmap string value :=
  {[ "cost_estimate" := VDict {[ "min" := VInt 20000 ]} ]}.

(** ** More sample data *)

(** Payloads on which every adjustment is the lowest it can be. *)
Definition worst_market : gmap string value :=
  {[ "market_trends" := VDict {[ "market_size" := VInt 5000000; "growth_rate" := VInt 2 ]} ]}.

Definition worst_competitor : gmap string value :=
  {[ "competitors" := VList (replicate 11 (VDict {[ "type" := VStr "direct" ]})) ]}.

Definition worst_persona : gmap string value :=
  {[ "personas" :=
       VList [VDict {[ "pain_level" := VStr "low"; "willingness_to_pay" := VStr "low" ]}] ]}.

Definition worst_mvp : gmap string value :=
  {[ "development_time" := VDict {[ "weeks" := VInt 20 ]};
     "cost_estimate" := VDict {[ "min" := VInt 60000 ]} ]}.

(** The interpreter before Python 3.12, with a [str] that this development
    never looks at. *)
Definition python_3_11 : python :=
  {| dict_slice_error := TypeError; py_str := fun _ => "" |}.

(** Whether the character [c] occurs in [s]. *)
Fixpoint contains_char (c : ascii) (s : string) : bool :=
  match s with
  | EmptyString => false
  | String c' s' => Ascii.eqb c' c || contains_char c s'
  end.

(** What makes [get_human_feedback] ask again: a line that is no number, or a
    number that is not the position of an option. *)
Definition invalid_choice (E : env) (options : list string) (line : string) : Prop :=
  match py_int E line with
  | Some choice => ¬ (1 ≤ choice ≤ Z.of_nat (length options))
  | None => True
  end.

(** An interactive orchestrator whose [int] reads the one-digit numbers 0
    to 3. *)
Definition console_env : env :=
  {| config := {| debug := false; log_level := "INFO"; output_dir := "./outputs";
                  save_intermediate_results := true; human_in_the_loop := true;
                  max_retries := 3; timeout_seconds := 120 |};
     agents := ∅;
     tools := ∅;
     py_int := fun s => if String.eqb s "0" then Some 0
                        else if String.eqb s "1" then Some 1
                        else if String.eqb s "2" then Some 2
                        else if String.eqb s "3" then Some 3
                        else None |}.

(** The default orchestrator with no attempt configured. *)
Definition no_retry_env (c : collaborator) : env :=
  {| config := {| debug := false; log_level := "INFO"; output_dir := "./outputs";
                  save_intermediate_results := true; human_in_the_loop := false;
                  max_retries := 0; timeout_seconds := 120 |};
     agents := {[ "market_researcher" := c; "mvp_planner" := c ]};
     tools := {[ "search" := c ]};
     py_int := fun _ => None |}.

(** A collaborator that raises with the number of the call in its text, for
    the calls 0, 1 and 2. *)
Definition numbered_failures : collaborator :=
  fun k _ =>
    match k with
    | O => Raises "first"
    | S O => TimesOut
    | _ => Raises "last"
    end.

(** An orchestrator whose four agents all return [result] on every call. *)
Definition pipeline_env (result : pyobj) : env :=
  {| config := default_config;
     agents := {[ "market_researcher" := always (Returns result);
                  "competitor_analyzer" := always (Returns result);
                  "customer_persona_generator" := always (Returns result);
                  "mvp_planner" := always (Returns result) ]};
     tools := ∅;
     py_int := fun _ => None |}.

(** Input for the mvp-only workflow that lacks the competitor data. *)
Definition mvp_input_without_competitors : gmap string value :=
  {[ "name" := VStr "MSVA"; "description" := VStr "Validates startup ideas";
     "market_data" := VDict ∅; "customer_personas" := VDict ∅ ]}.

(** Input for the mvp-only workflow with the three payloads. *)
Definition mvp_input : gmap string value :=
  {[ "name" := VStr "MSVA"; "description" := VStr "Validates startup ideas";
     "market_data" := VDict ∅; "competitor_data" := VDict ∅;
     "customer_personas" := VDict ∅ ]}.

(** The four error texts of [workflow_full_validation], in stage order
    (lines 84, 99, 116 and 155). *)
Definition stage_errors : list string :=
  [ "Market research failed"; "Competitor analysis failed";
    "Customer persona generation failed"; "MVP planning failed" ].

(** The reports of three sample runs. *)
Definition market_only_sample_report : gmap string value :=
  {[ "idea" := VDict (StartupIdea_dict sample_idea);
     "market_analysis" := VDict example_market;
     "timestamp" := VStr "2024-05-01T12:00:00" ]}.

Definition mvp_only_sample_report : gmap string value :=
  {[ "idea" := VDict (StartupIdea_dict sample_idea);
     "mvp_plan" := VDict example_mvp;
     "timestamp" := VStr "2024-05-01T12:00:00" ]}.

Definition competitor_failed_sample_report : gmap string value :=
  {[ "success" := VBool false;
     "error" := VStr "Competitor analysis failed";
     "idea" := VDict (StartupIdea_dict sample_idea);
     "timestamp" := VStr "2024-05-01T12:00:00";
     "market_analysis" := VDict example_market ]}.

(** A collaborator that answers as the agents of the repository do: every
    call returns a mapping with the keys ["status"], ["message"] and
    ["data"]. *)
Definition answers_like_an_agent (a : collaborator) : Prop :=
  ∀ n input_data, ∃ status message data,
    a n input_data = Returns (ObjDict (agent_result status message data)).

(** The externals of a run with the recommendations of the repository. *)
Definition repository_externals (P : python) : externals :=
  {| StartupIdea_new := strict_StartupIdea;
     validate_personas := strict_personas;
     isoformat := fun _ => "2024-05-01T12:00:00";
     _generate_recommendations := generate_recommendations P;
     _save_validation_report := fun _ => mret "./outputs/reports/validation_report.json" |}.

(** The stage that is fed a payload got it from the agent before it: the
    agent registered under [name] answered the invocation numbered [n] (the
    count of invocations made since the orchestrator was created), on
    [input_data], with a result that [run_agent] turns into a successful
    output with content [payload]. *)
Definition returned_by (E : env) (name : string) (n : nat)
    (input_data payload : gmap string value) : Prop :=
  ∃ (agent : collaborator) (result : pyobj),
    agents E !! name = Some agent ∧
    agent n input_data = Returns result ∧
    success (as_AgentOutput name result) = true ∧
    content (as_AgentOutput name result) = payload.

(** * Properties *)

(** ** The validation score *)

Lemma clamp_range (score : Z) : 0 ≤ clamp score ≤ 100.
Proof. unfold clamp. lia. Qed.

Lemma fmap_Ok_inv {A B} (f : A → B) (r : res A) (b : B) :
  f <$> r = Ok b → ∃ a, r = Ok a ∧ b = f a.
Proof. destruct r as [a|e]; simpl; [intros [= <-]; eauto | discriminate]. Qed.

(** The report built from four payloads carries the score of these
    payloads. *)
Lemma _generate_validation_report_score X i m c p v σ report σ' :
  _generate_validation_report X i m c p v σ = (Ok report, σ') →
  ∃ s, _calculate_validation_score m c p v = Ok s ∧
       validation_score report = Some (float_of_int s).
Proof.
  unfold _generate_validation_report, mbind, M_bind, lift, now, get, modify, mret, M_ret.
  destruct (_generate_recommendations X m c p v) as [recs|]; [|discriminate].
  destruct (_calculate_validation_score m c p v) as [s|]; [|discriminate].
  simpl. destruct (validate_personas X _) as [ps|]; [|discriminate].
  intros [= <- <-]. eauto.
Qed.

Lemma _calculate_validation_score_range m c p v s :
  _calculate_validation_score m c p v = Ok s → 0 ≤ s ≤ 100.
Proof.
  unfold _calculate_validation_score. intros (raw & _ & ->)%fmap_Ok_inv.
  apply clamp_range.
Qed.

Lemma StartupValidationReport_dict_score (report : StartupValidationReport) (f : spec_float) :
  validation_score report = Some f →
  StartupValidationReport_dict report !! "validation_score" = Some (VFloat f).
Proof.
  intros H.
  replace (StartupValidationReport_dict report !! "validation_score")
    with (Some (match validation_score report with
                | Some f => VFloat f
                | None => VNone
                end)) by (by vm_compute).
  by rewrite H.
Qed.

(** C1: whenever [_calculate_validation_score] returns a value, that value
    lies in the closed interval from 0 to 100, and it is the value that a
    completed validation report built from the same payloads carries, as a
    float, under ["validation_score"]. *)
Theorem validation_score_in_range
    (market_data competitor_data persona_data mvp_data : gmap string value) (score : Z) :
  _calculate_validation_score market_data competitor_data persona_data mvp_data = Ok score →
  0 ≤ score ≤ 100 ∧
  ∀ X startup_idea σ report σ',
    _generate_validation_report X startup_idea
      market_data competitor_data persona_data mvp_data σ = (Ok report, σ') →
    StartupValidationReport_dict report !! "validation_score"
    = Some (VFloat (float_of_int score)).
Proof.
  intros Hscore. split.
  - by apply (_calculate_validation_score_range _ _ _ _ _ Hscore).
  - intros X i σ report σ' Hreport.
    apply _generate_validation_report_score in Hreport as (s & Hs & Hv).
    apply StartupValidationReport_dict_score. congruence.
Qed.

Lemma validation_score_in_range_witness :
  0 ≤ 100 ≤ 100 ∧
  ∀ X startup_idea σ report σ',
    _generate_validation_report X startup_idea
      example_market (example_competitor [] (VStr "gap")) (example_persona []) example_mvp σ
      = (Ok report, σ') →
    StartupValidationReport_dict report !! "validation_score"
    = Some (VFloat (float_of_int 100)).
Proof.
  apply (validation_score_in_range
           example_market (example_competitor [] (VStr "gap")) (example_persona [])
           example_mvp 100).
  vm_compute. reflexivity.
Defined.

Lemma example_competitor_factors (competitors : list value) (gap : value) (score : Z) :
  count_direct competitors = Ok 0 →
  competitor_factors (example_competitor competitors gap) score = Ok (score + 5 + 5).
Proof.
  intros Hdirect. unfold competitor_factors, example_competitor.
  rewrite lookup_insert_eq. simpl. rewrite Hdirect. simpl.
  rewrite lookup_insert_ne by done. rewrite lookup_singleton_eq. reflexivity.
Qed.

Lemma example_persona_factors (others : list value) (score : Z) :
  persona_factors (example_persona others) score = Ok (score + 10 + 5).
Proof.
  unfold persona_factors, example_persona. rewrite lookup_singleton_eq. reflexivity.
Qed.

(** C2: on the worked example (growth rate 25, market size 2,000,000,000, a
    competitor list without direct competitors, one market gap, a first
    persona with high pain level and high willingness to pay, 5 weeks and a
    minimum cost of 10000) the raw sum is 105 and
    [_calculate_validation_score] returns exactly 100. *)
Theorem example_score_is_100 (competitors others : list value) (gap : value) :
  count_direct competitors = Ok 0 →
  raw_score example_market (example_competitor competitors gap)
            (example_persona others) example_mvp = Ok 105 ∧
  _calculate_validation_score example_market (example_competitor competitors gap)
            (example_persona others) example_mvp = Ok 100.
Proof.
  intros Hdirect.
  assert (Hraw : raw_score example_market (example_competitor competitors gap)
                   (example_persona others) example_mvp = Ok 105).
  { unfold raw_score.
    replace (market_factors example_market 50) with (Ok 70 : res Z)
      by (vm_compute; reflexivity).
    simpl. rewrite (example_competitor_factors _ _ _ Hdirect). simpl.
    rewrite example_persona_factors. simpl. vm_compute. reflexivity. }
  split; [exact Hraw|].
  unfold _calculate_validation_score. rewrite Hraw. reflexivity.
Qed.

Lemma example_score_is_100_witness :
  raw_score example_market
    (example_competitor [VDict {[ "type" := VStr "indirect" ]}] (VStr "no mobile app"))
    (example_persona []) example_mvp = Ok 105 ∧
  _calculate_validation_score example_market
    (example_competitor [VDict {[ "type" := VStr "indirect" ]}] (VStr "no mobile app"))
    (example_persona []) example_mvp = Ok 100.
Proof.
  apply (example_score_is_100 [VDict {[ "type" := VStr "indirect" ]}] []
           (VStr "no mobile app")).
  vm_compute. reflexivity.
Defined.

(** Goals on [?=] are settled through [Z.compare_spec]. *)
Ltac by_compare :=
  repeat match goal with
         | H : context [?x ?= ?y] |- _ =>
             destruct (Z.compare_spec x y); try discriminate H
         | |- context [?x ?= ?y] => destruct (Z.compare_spec x y)
         end;
  try reflexivity; try (exfalso; nia).

Lemma float_cmp_int_Lt_mono (f : spec_float) (a b : Z) :
  a ≤ b → float_cmp_int f a = Some Lt → float_cmp_int f b = Some Lt.
Proof.
  intros Hab.
  destruct f as [s|s| |s m e]; cbv beta iota zeta delta [float_cmp_int]; try discriminate.
  - intros H. by_compare.
  - destruct s; [reflexivity | discriminate].
  - assert (0 < 2 ^ (- e) ∨ 0 ≤ e) by (destruct (Z_lt_le_dec e 0); [left; apply Z.pow_pos_nonneg; lia | lia]).
    intros H'. destruct (Z.leb_spec 0 e); by_compare.
Qed.

Lemma num_cmp_int_Lt_mono (v : value) (a b : Z) :
  a ≤ b → num_cmp_int v a = Ok (Some Lt) → num_cmp_int v b = Ok (Some Lt).
Proof.
  intros Hab. destruct v; cbv beta iota delta [num_cmp_int]; try discriminate.
  - intros H. by_compare.
  - intros H. by_compare.
  - intros H. assert (H' : float_cmp_int f a = Some Lt) by congruence. f_equal.
    eauto using float_cmp_int_Lt_mono.
Qed.

Lemma py_lt_true_inv (v : value) (c : Z) :
  py_lt v c = Ok true → num_cmp_int v c = Ok (Some Lt).
Proof.
  unfold py_lt. destruct (num_cmp_int v c) as [[[]|]|]; simpl; congruence.
Qed.

Lemma py_lt_mono (v : value) (a b : Z) :
  a ≤ b → py_lt v a = Ok true → py_lt v b = Ok true.
Proof.
  intros Hab H%py_lt_true_inv. unfold py_lt.
  rewrite (num_cmp_int_Lt_mono v a b Hab H). reflexivity.
Qed.

Lemma py_lt_not_gt (v : value) (c : Z) :
  py_lt v c = Ok true → py_gt v c = Ok false.
Proof. intros H%py_lt_true_inv. unfold py_gt. rewrite H. reflexivity. Qed.

(** C3 (the code departs from it): a growth rate below 0, with nothing else
    in the payloads, is caught by the [growth_rate < 5] branch, which comes
    first, so the score is 45; the branch that subtracts 10 is never
    reached and the score is not 40. *)
Theorem negative_growth_scores_45 (growth_rate : value) :
  py_lt growth_rate 0 = Ok true →
  _calculate_validation_score (growth_only growth_rate) ∅ ∅ ∅ = Ok 45.
Proof.
  intros Hneg.
  assert (H5 : py_lt growth_rate 5 = Ok true) by (apply (py_lt_mono _ 0); [lia|done]).
  assert (H10 : py_gt growth_rate 10 = Ok false)
    by (apply py_lt_not_gt, (py_lt_mono _ 0); [lia|done]).
  assert (H20 : py_gt growth_rate 20 = Ok false)
    by (apply py_lt_not_gt, (py_lt_mono _ 0); [lia|done]).
  unfold _calculate_validation_score, raw_score, market_factors, growth_only.
  rewrite lookup_singleton_eq.
  replace (py_contains "market_size" (VDict {["growth_rate" := growth_rate]}))
    with (Ok false : res bool)
    by (simpl; rewrite bool_decide_eq_false_2; [done | rewrite lookup_singleton_ne; [by intros [? [=]] | done]]).
  replace (py_contains "growth_rate" (VDict {["growth_rate" := growth_rate]}))
    with (Ok true : res bool)
    by (simpl; rewrite bool_decide_eq_true_2; [done | rewrite lookup_singleton_eq; eauto]).
  simpl. rewrite lookup_singleton_eq. simpl.
  rewrite H20. simpl. rewrite H10. simpl. rewrite H5. reflexivity.
Qed.

Lemma negative_growth_scores_45_witness :
  _calculate_validation_score (growth_only (VInt (-1))) ∅ ∅ ∅ = Ok 45.
Proof. apply (negative_growth_scores_45 (VInt (-1))). reflexivity. Defined.

(** *** Absent fields *)

Lemma py_contains_dict_Some (k : string) (d : gmap string value) (x : value) :
  d !! k = Some x → py_contains k (VDict d) = Ok true.
Proof. intros H. simpl. rewrite bool_decide_eq_true_2; eauto. Qed.

Lemma py_contains_dict_None (k : string) (d : gmap string value) :
  d !! k = None → py_contains k (VDict d) = Ok false.
Proof.
  intros H. simpl. rewrite bool_decide_eq_false_2; [done|].
  rewrite H. by intros [? [=]].
Qed.

Lemma py_gt_number (v : value) (c : Z) :
  is_number v = true → ∃ b, py_gt v c = Ok b.
Proof. destruct v; try discriminate; intros _; unfold py_gt; simpl; eauto. Qed.

Lemma py_lt_number (v : value) (c : Z) :
  is_number v = true → ∃ b, py_lt v c = Ok b.
Proof. destruct v; try discriminate; intros _; unfold py_lt; simpl; eauto. Qed.

(** Membership test and subscript on a mapping, by cases on the lookup. *)
Ltac lookup_field t k :=
  let x := fresh "x" in
  let Hx := fresh "Hx" in
  destruct (t !! k) as [x|] eqn:Hx;
  [ rewrite (py_contains_dict_Some k t x Hx)
  | rewrite (py_contains_dict_None k t Hx) ];
  cbn [mbind res_bind py_getitem]; rewrite ?Hx; cbn [mbind res_bind].

Lemma count_direct_total (competitors : list value) :
  forallb is_dict competitors = true → ∃ n, count_direct competitors = Ok n.
Proof.
  induction competitors as [|c rest IH]; simpl; [eauto|].
  intros [Hc Hrest]%andb_true_iff. destruct c; try discriminate. simpl.
  destruct (IH Hrest) as [n ->]. simpl. eauto.
Qed.

(** The slip next to the design choice of C4: a [development_time] mapping
    without ["weeks"] makes line 482 raise. *)
Lemma missing_weeks_raises :
  _calculate_validation_score ∅ ∅ ∅ {[ "development_time" := VDict ∅ ]}
  = Raise (KeyError (VStr "weeks")).
Proof. vm_compute. reflexivity. Qed.

(** C4, as stated, fails: a [cost_estimate] mapping without ["min"] is read
    with the default 0 of line 490 and scores 55, whereas the same payload
    with the cost adjustment skipped scores 50. *)
Lemma absent_min_cost_adds_5 :
  _calculate_validation_score ∅ ∅ ∅ {[ "cost_estimate" := VDict ∅ ]} = Ok 55 ∧
  _calculate_validation_score ∅ ∅ ∅ (delete "cost_estimate" {[ "cost_estimate" := VDict ∅ ]})
  = Ok 50.
Proof. split; vm_compute; reflexivity. Qed.

(** One comparison of a rule, in the score computation and in the points
    of its field alike. *)
Ltac compare_points :=
  match goal with
  | H : is_number ?v = true |- context [py_gt ?v ?c] =>
      let b := fresh "b" in
      destruct (py_gt_number v c H) as [b ->]; cbn [mbind res_bind holds]; destruct b
  | H : is_number ?v = true |- context [py_lt ?v ?c] =>
      let b := fresh "b" in
      destruct (py_lt_number v c H) as [b ->]; cbn [mbind res_bind holds]; destruct b
  end.

Lemma market_factors_points (market_data : gmap string value) (score : Z) :
  market_shape market_data = true →
  market_factors market_data score
  = Ok (score
        + adjustment market_size_points (nested market_data "market_trends" "market_size")
        + adjustment growth_rate_points (nested market_data "market_trends" "growth_rate")).
Proof.
  unfold market_shape, absent_or, market_factors, nested.
  destruct (market_data !! "market_trends") as [[| | | | | |t]|]; try discriminate;
    [|intros _; cbn [adjustment]; f_equal; lia].
  intros [Hsize Hgrowth]%andb_true_iff.
  unfold market_size_points, growth_rate_points.
  lookup_field t "market_size"; lookup_field t "growth_rate"; cbn [adjustment];
    repeat compare_points; cbn [mbind res_bind]; f_equal; lia.
Qed.

Lemma competitor_factors_points (competitor_data : gmap string value) (score : Z) :
  competitor_shape competitor_data = true →
  competitor_factors competitor_data score
  = Ok (score
        + match competitor_data !! "competitors" with
          | Some (VList competitors) =>
              direct_competitor_points competitors
              + adjustment market_gap_points (competitor_data !! "market_gaps")
          | _ => 0
          end).
Proof.
  unfold competitor_shape, absent_or, competitor_factors.
  intros [Hcs Hgaps]%andb_true_iff.
  destruct (competitor_data !! "competitors") as [[| | | | |l|]|]; try discriminate;
    [|f_equal; lia].
  unfold direct_competitor_points. cbn [py_iter mbind res_bind].
  destruct (count_direct_total l Hcs) as [n ->]. cbn [mbind res_bind].
  destruct (competitor_data !! "market_gaps") as [[| | | | |gaps|]|]; try discriminate;
    cbn [adjustment]; unfold market_gap_points;
    [|destruct (n =? 0), (10 <? n); f_equal; lia].
  destruct (py_truthy (VList gaps)); cbn [py_len mbind res_bind];
    destruct (n =? 0), (10 <? n), (3 <? Z.of_nat (length gaps)); f_equal; lia.
Qed.

Lemma persona_factors_points (persona_data : gmap string value) (score : Z) :
  persona_shape persona_data = true →
  persona_factors persona_data score
  = Ok (score
        + adjustment pain_level_points (first_persona persona_data "pain_level")
        + adjustment willingness_to_pay_points
            (first_persona persona_data "willingness_to_pay")).
Proof.
  unfold persona_shape, absent_or, persona_factors, first_persona.
  destruct (persona_data !! "personas") as [[| | | | |[|[| | | | | |d] rest]|]|];
    try discriminate; intros _; cbn [py_truthy py_getitem_0 mbind res_bind adjustment];
    try (f_equal; lia).
  unfold pain_level_points, willingness_to_pay_points.
  lookup_field d "pain_level"; lookup_field d "willingness_to_pay"; cbn [adjustment];
    repeat (match goal with |- context [if ?b then _ else _] => destruct b end;
            cbn [mbind res_bind]);
    cbn [mbind res_bind]; f_equal; lia.
Qed.

Lemma mvp_factors_points (mvp_data : gmap string value) (score : Z) :
  mvp_shape mvp_data = true →
  mvp_factors mvp_data score
  = Ok (score
        + adjustment development_weeks_points (nested mvp_data "development_time" "weeks")
        + match mvp_data !! "cost_estimate" with
          | Some (VDict cost_estimate) =>
              min_cost_points (default (VInt 0) (cost_estimate !! "min"))
          | _ => 0
          end).
Proof.
  unfold mvp_shape, absent_or, mvp_factors, nested.
  intros [Htime Hcost]%andb_true_iff.
  unfold development_weeks_points, min_cost_points.
  destruct (mvp_data !! "development_time") as [[| | | | | |d]|]; try discriminate;
    destruct (mvp_data !! "cost_estimate") as [[| | | | | |ce]|]; try discriminate;
    cbn [py_getitem py_get mbind res_bind adjustment];
    try (destruct (d !! "weeks") as [w|]; [|discriminate]);
    try (destruct (ce !! "min") as [x|]);
    cbn [default from_option id mbind res_bind adjustment];
    try (assert (Hzero : is_number (VInt 0) = true) by reflexivity);
    repeat compare_points; cbn [mbind res_bind]; f_equal; lia.
Qed.

(** C4, amended: on payloads of the expected shape (each field that is
    present has the type the code reads it at, and a [development_time]
    mapping has a ["weeks"] key) the score computation returns, and what it
    returns is the baseline 50 plus the adjustments of the fields that are
    present, clamped: every absent field adds nothing, be it alone or with
    the field next to it, with the one exception of a [cost_estimate] mapping
    without ["min"], which is read as one with [min] 0.  For all payloads,
    also ill-shaped ones, a [market_trends] mapping with neither size nor
    growth scores as the payload without [market_trends], a first persona
    with neither pain level nor willingness to pay scores as the payload
    without [personas], and a [cost_estimate] mapping without ["min"] scores
    as the same mapping with ["min"] set to 0. *)
Theorem score_on_absent_fields
    (market_data competitor_data persona_data mvp_data : gmap string value) :
  (market_shape market_data = true → competitor_shape competitor_data = true →
   persona_shape persona_data = true → mvp_shape mvp_data = true →
   _calculate_validation_score market_data competitor_data persona_data mvp_data
   = Ok (clamp (score_by_adjustment market_data competitor_data persona_data mvp_data))) ∧
  (∀ points : value → Z, adjustment points None = 0) ∧
  (∀ trends : gmap string value,
     trends !! "market_size" = None → trends !! "growth_rate" = None →
     _calculate_validation_score (<["market_trends" := VDict trends]> market_data)
       competitor_data persona_data mvp_data
     = _calculate_validation_score (delete "market_trends" market_data)
         competitor_data persona_data mvp_data) ∧
  (∀ (first : gmap string value) (others : list value),
     first !! "pain_level" = None → first !! "willingness_to_pay" = None →
     _calculate_validation_score market_data competitor_data
       (<["personas" := VList (VDict first :: others)]> persona_data) mvp_data
     = _calculate_validation_score market_data competitor_data
         (delete "personas" persona_data) mvp_data) ∧
  (∀ cost_estimate : gmap string value,
     cost_estimate !! "min" = None →
     _calculate_validation_score market_data competitor_data persona_data
       (<["cost_estimate" := VDict cost_estimate]> mvp_data)
     = _calculate_validation_score market_data competitor_data persona_data
         (<["cost_estimate" := VDict (<["min" := VInt 0]> cost_estimate)]> mvp_data)).
Proof.
  split; [|split; [done|repeat split]].
  - intros Hm Hc Hp Hv. unfold _calculate_validation_score, raw_score.
    rewrite (market_factors_points market_data 50 Hm). cbn [mbind res_bind].
    rewrite (competitor_factors_points competitor_data _ Hc). cbn [mbind res_bind].
    rewrite (persona_factors_points persona_data _ Hp). cbn [mbind res_bind].
    rewrite (mvp_factors_points mvp_data _ Hv). cbn [fmap res_fmap].
    unfold score_by_adjustment. do 2 f_equal; lia.
  - intros trends Hsize Hgrowth. unfold _calculate_validation_score, raw_score.
    assert (∀ s, market_factors (<["market_trends" := VDict trends]> market_data) s
                 = market_factors (delete "market_trends" market_data) s) as Heq;
      [|by rewrite Heq].
    intros s. unfold market_factors. rewrite lookup_insert_eq, lookup_delete_eq.
    rewrite !py_contains_dict_None by done. reflexivity.
  - intros first others Hpain Hwtp. unfold _calculate_validation_score, raw_score.
    assert (∀ s, persona_factors (<["personas" := VList (VDict first :: others)]> persona_data) s
                 = persona_factors (delete "personas" persona_data) s) as Heq.
    { intros s. unfold persona_factors. rewrite lookup_insert_eq, lookup_delete_eq.
      cbn [py_truthy py_getitem_0]. cbn [mbind res_bind].
      rewrite !py_contains_dict_None by done. reflexivity. }
    destruct (market_factors market_data 50) as [s1|]; [|done]. simpl.
    destruct (competitor_factors competitor_data s1) as [s2|]; [|done]. simpl.
    by rewrite Heq.
  - intros cost_estimate Hmin. unfold _calculate_validation_score, raw_score.
    assert (∀ s, mvp_factors (<["cost_estimate" := VDict cost_estimate]> mvp_data) s
                 = mvp_factors
                     (<["cost_estimate" := VDict (<["min" := VInt 0]> cost_estimate)]> mvp_data) s)
      as Heq.
    { intros s. unfold mvp_factors.
      rewrite !(lookup_insert_ne _ "cost_estimate" "development_time") by done.
      rewrite !lookup_insert_eq. cbn [py_get]. rewrite Hmin, lookup_insert_eq. reflexivity. }
    destruct (market_factors market_data 50) as [s1|]; [|done]. simpl.
    destruct (competitor_factors competitor_data s1) as [s2|]; [|done]. simpl.
    destruct (persona_factors persona_data s2) as [s3|]; [|done]. simpl.
    by rewrite Heq.
Qed.

Lemma score_on_absent_fields_witness :
  _calculate_validation_score lone_market lone_competitor lone_persona lone_mvp
  = Ok (clamp (score_by_adjustment lone_market lone_competitor lone_persona lone_mvp)) ∧
  score_by_adjustment lone_market lone_competitor lone_persona lone_mvp
  = 50 + 10 + 0 + (5 + 0) + 10 + 0 + 0 + 0.
Proof.
  split.
  - apply (score_on_absent_fields lone_market lone_competitor lone_persona lone_mvp);
      vm_compute; reflexivity.
  - vm_compute. reflexivity.
Defined.

(** ** The execution guard *)

Section guard.

Variable E : env.

Lemma _save_result_spec (key : string) (result : pyobj) (σ : orchestrator) :
  ∃ σ', _save_result E key result σ = (Ok (), σ') ∧
        results_store σ' = <[key := result]> (results_store σ) ∧
        current_workflow σ' = current_workflow σ ∧
        calls σ' = calls σ ∧ ticks σ' = ticks σ ∧ stdin σ' = stdin σ.
Proof.
  unfold _save_result, mbind, M_bind, modify, mret, M_ret.
  destruct (save_intermediate_results (config E)); eexists; split; try reflexivity; done.
Qed.

Lemma save_intermediate_spec (name : string) (result : pyobj) (σ : orchestrator) :
  ∃ σ', save_intermediate E name result σ = (Ok (), σ') ∧
        results_store σ' =
          match checkpoint_workflow E σ with
          | Some w => <[w ++ "_" ++ name := result]> (results_store σ)
          | None => results_store σ
          end ∧
        current_workflow σ' = current_workflow σ ∧
        calls σ' = calls σ ∧ ticks σ' = ticks σ ∧ stdin σ' = stdin σ.
Proof.
  unfold save_intermediate, mbind, M_bind, get.
  destruct (checkpoint_workflow E σ) as [w|].
  - apply _save_result_spec.
  - eexists; split; [reflexivity | done].
Qed.

Lemma set_calls_set_calls (c c' : list (string * gmap string value)) (σ : orchestrator) :
  set_calls c (set_calls c' σ) = set_calls c σ.
Proof. reflexivity. Qed.

Lemma set_calls_id (σ : orchestrator) : set_calls (calls σ) σ = σ.
Proof. by destruct σ. Qed.

(** What the retry loop of [run_agent] computes, when entered with [attempt]
    and the number of remaining iterations adding up to [max_retries]: it
    stops at the first attempt that returns; otherwise every attempt is made
    and the exception of the last one escapes. *)
Lemma run_agent_attempts_spec (n : string) (a : collaborator)
    (i : gmap string value) (remaining : nat) :
  ∀ (attempt : Z) (σ : orchestrator),
    attempt + Z.of_nat remaining = max_retries (config E) →
    run_agent_attempts E n a i attempt remaining σ =
      match first_return a i (length (calls σ)) remaining with
      | Some (k, result) =>
          (Ok (Returned (as_AgentOutput n result)),
           (save_intermediate E n result
              (set_calls (calls σ ++ replicate (S k) (n, i)) σ)).2)
      | None =>
          (Ok match remaining with
              | O => Finished
              | S r => Escaped (failure_of (a (length (calls σ) + r)%nat i))
              end,
           set_calls (calls σ ++ replicate remaining (n, i)) σ)
      end.
Proof.
  induction remaining as [|r IH]; intros attempt σ Hsum.
  - cbn. by rewrite app_nil_r, set_calls_id.
  - cbn [run_agent_attempts first_return].
    unfold mbind at 1. unfold M_bind, invoke.
    set (σ1 := set_calls (calls σ ++ [(n, i)]) σ).
    assert (Hlen : length (calls σ1) = S (length (calls σ)))
      by (unfold σ1; cbn; rewrite length_app; cbn; lia).
    assert (Hnext : (attempt =? max_retries (config E) - 1) = false →
              run_agent_attempts E n a i (attempt + 1) r σ1 =
              match prod_map S id <$> first_return a i (S (length (calls σ))) r with
              | Some (k, result) =>
                  (Ok (Returned (as_AgentOutput n result)),
                   (save_intermediate E n result
                      (set_calls (calls σ ++ replicate (S k) (n, i)) σ)).2)
              | None =>
                  (Ok (Escaped (failure_of (a (length (calls σ) + r)%nat i))),
                   set_calls (calls σ ++ replicate (S r) (n, i)) σ)
              end).
    { intros Hne%Z.eqb_neq. rewrite IH by lia. rewrite Hlen.
      destruct (first_return a i (S (length (calls σ))) r) as [[k result]|]; cbn.
      - unfold σ1. cbn [calls set_calls]. by rewrite set_calls_set_calls, <- app_assoc.
      - destruct r as [|r']; [lia|].
        unfold σ1. cbn [calls set_calls]. rewrite set_calls_set_calls, <- app_assoc.
        by replace (length (calls σ) + S r')%nat with (S (length (calls σ) + r')) by lia. }
    assert (Hlast : (attempt =? max_retries (config E) - 1) = true → r = O)
      by (intros ?%Z.eqb_eq; lia).
    destruct (a (length (calls σ)) i) as [result| |msg] eqn:Ho.
    + destruct (save_intermediate_spec n result σ1) as (σ2 & Hsave & _).
      unfold mbind, M_bind.
      change (set_calls (calls σ ++ replicate 1 (n, i)) σ) with σ1.
      rewrite Hsave. reflexivity.
    + destruct (attempt =? max_retries (config E) - 1) eqn:Hlast'.
      * rewrite (Hlast eq_refl). cbn. by rewrite Nat.add_0_r, Ho.
      * by apply Hnext.
    + destruct (attempt =? max_retries (config E) - 1) eqn:Hlast'.
      * rewrite (Hlast eq_refl). cbn. by rewrite Nat.add_0_r, Ho.
      * by apply Hnext.
Qed.

(** The retry loop of [run_tool], as [run_agent_attempts_spec]. *)
Lemma run_tool_attempts_spec (n : string) (a : collaborator)
    (i : gmap string value) (remaining : nat) :
  ∀ (attempt : Z) (σ : orchestrator),
    attempt + Z.of_nat remaining = max_retries (config E) →
    run_tool_attempts E n a i attempt remaining σ =
      match first_return a i (length (calls σ)) remaining with
      | Some (k, result) =>
          (Ok (Returned result),
           (save_intermediate E n result
              (set_calls (calls σ ++ replicate (S k) (n, i)) σ)).2)
      | None =>
          (Ok match remaining with
              | O => Finished
              | S r => Escaped (failure_of (a (length (calls σ) + r)%nat i))
              end,
           set_calls (calls σ ++ replicate remaining (n, i)) σ)
      end.
Proof.
  induction remaining as [|r IH]; intros attempt σ Hsum.
  - cbn. by rewrite app_nil_r, set_calls_id.
  - cbn [run_tool_attempts first_return].
    unfold mbind at 1. unfold M_bind, invoke.
    set (σ1 := set_calls (calls σ ++ [(n, i)]) σ).
    assert (Hlen : length (calls σ1) = S (length (calls σ)))
      by (unfold σ1; cbn; rewrite length_app; cbn; lia).
    assert (Hnext : (attempt =? max_retries (config E) - 1) = false →
              run_tool_attempts E n a i (attempt + 1) r σ1 =
              match prod_map S id <$> first_return a i (S (length (calls σ))) r with
              | Some (k, result) =>
                  (Ok (Returned result),
                   (save_intermediate E n result
                      (set_calls (calls σ ++ replicate (S k) (n, i)) σ)).2)
              | None =>
                  (Ok (Escaped (failure_of (a (length (calls σ) + r)%nat i))),
                   set_calls (calls σ ++ replicate (S r) (n, i)) σ)
              end).
    { intros Hne%Z.eqb_neq. rewrite IH by lia. rewrite Hlen.
      destruct (first_return a i (S (length (calls σ))) r) as [[k result]|]; cbn.
      - unfold σ1. cbn [calls set_calls]. by rewrite set_calls_set_calls, <- app_assoc.
      - destruct r as [|r']; [lia|].
        unfold σ1. cbn [calls set_calls]. rewrite set_calls_set_calls, <- app_assoc.
        by replace (length (calls σ) + S r')%nat with (S (length (calls σ) + r')) by lia. }
    assert (Hlast : (attempt =? max_retries (config E) - 1) = true → r = O)
      by (intros ?%Z.eqb_eq; lia).
    destruct (a (length (calls σ)) i) as [result| |msg] eqn:Ho.
    + destruct (save_intermediate_spec n result σ1) as (σ2 & Hsave & _).
      unfold mbind, M_bind.
      change (set_calls (calls σ ++ replicate 1 (n, i)) σ) with σ1.
      rewrite Hsave. reflexivity.
    + destruct (attempt =? max_retries (config E) - 1) eqn:Hlast'.
      * rewrite (Hlast eq_refl). cbn. by rewrite Nat.add_0_r, Ho.
      * by apply Hnext.
    + destruct (attempt =? max_retries (config E) - 1) eqn:Hlast'.
      * rewrite (Hlast eq_refl). cbn. by rewrite Nat.add_0_r, Ho.
      * by apply Hnext.
Qed.

Lemma first_return_Some (c : collaborator) (arg : gmap string value) (remaining : nat) :
  ∀ (base k : nat) (result : pyobj),
    first_return c arg base remaining = Some (k, result) →
    (k < remaining)%nat ∧ c (base + k)%nat arg = Returns result ∧
    ∀ j, (j < k)%nat → ∀ r, c (base + j)%nat arg ≠ Returns r.
Proof.
  induction remaining as [|r IH]; intros base k result; cbn; [discriminate|].
  destruct (c base arg) as [res| |msg] eqn:Hc.
  - intros [= <- <-]. rewrite Nat.add_0_r. repeat split; [lia | done | lia].
  - destruct (first_return c arg (S base) r) as [[k' res]|] eqn:Hrec; [|discriminate].
    cbn. intros [= <- <-]. destruct (IH _ _ _ Hrec) as (Hlt & Hk & Hbefore).
    repeat split; [lia | by rewrite <- Nat.add_succ_comm |].
    intros [|j] Hj res'; [rewrite Nat.add_0_r; congruence|].
    rewrite <- Nat.add_succ_comm. apply Hbefore. lia.
  - destruct (first_return c arg (S base) r) as [[k' res]|] eqn:Hrec; [|discriminate].
    cbn. intros [= <- <-]. destruct (IH _ _ _ Hrec) as (Hlt & Hk & Hbefore).
    repeat split; [lia | by rewrite <- Nat.add_succ_comm |].
    intros [|j] Hj res'; [rewrite Nat.add_0_r; congruence|].
    rewrite <- Nat.add_succ_comm. apply Hbefore. lia.
Qed.

Lemma first_return_None (c : collaborator) (arg : gmap string value) (remaining : nat) :
  ∀ base : nat,
    (∀ j, (j < remaining)%nat → ∀ r, c (base + j)%nat arg ≠ Returns r) →
    first_return c arg base remaining = None.
Proof.
  induction remaining as [|r IH]; intros base Hfail; cbn; [done|].
  assert (H0 := Hfail O ltac:(lia)). rewrite Nat.add_0_r in H0.
  assert (Hrec : first_return c arg (S base) r = None).
  { apply IH. intros j Hj. rewrite Nat.add_succ_comm. apply Hfail. lia. }
  destruct (c base arg); [by destruct (H0 result) | by rewrite Hrec..].
Qed.

Lemma first_return_at (c : collaborator) (arg : gmap string value) (remaining : nat) :
  ∀ (base k : nat) (result : pyobj),
    (k < remaining)%nat →
    (∀ j, (j < k)%nat → ∀ r, c (base + j)%nat arg ≠ Returns r) →
    c (base + k)%nat arg = Returns result →
    first_return c arg base remaining = Some (k, result).
Proof.
  induction remaining as [|r IH]; intros base k result Hk Hbefore Hat; [lia|].
  cbn. destruct k as [|k'].
  - rewrite Nat.add_0_r in Hat. by rewrite Hat.
  - assert (H0 := Hbefore O ltac:(lia)). rewrite Nat.add_0_r in H0.
    rewrite (IH (S base) k' result); [| lia | | by rewrite Nat.add_succ_comm].
    + destruct (c base arg); [by destruct (H0 result0) | done..].
    + intros j Hj. rewrite Nat.add_succ_comm. apply Hbefore. lia.
Qed.

(** [run_agent] and [run_tool] on a registered collaborator, with at least
    one attempt configured. *)
Lemma run_agent_spec (n : string) (a : collaborator) (i : gmap string value)
    (σ : orchestrator) :
  agents E !! n = Some a → 1 ≤ max_retries (config E) →
  run_agent E n i σ =
    match first_return a i (length (calls σ)) (Z.to_nat (max_retries (config E))) with
    | Some (k, result) =>
        (Ok (Some (as_AgentOutput n result)),
         (save_intermediate E n result
            (set_calls (calls σ ++ replicate (S k) (n, i)) σ)).2)
    | None =>
        (Ok (Some (error_output n
               (failure_of (a (length (calls σ)
                               + Nat.pred (Z.to_nat (max_retries (config E))))%nat i)))),
         set_calls (calls σ ++ replicate (Z.to_nat (max_retries (config E))) (n, i)) σ)
    end.
Proof.
  intros Ha Hmax. unfold run_agent. rewrite Ha. unfold mbind, M_bind.
  rewrite run_agent_attempts_spec by lia.
  destruct (first_return a i _ _) as [[k result]|]; [reflexivity|].
  destruct (Z.to_nat (max_retries (config E))) eqn:Hn; [lia | reflexivity].
Qed.

Lemma run_tool_spec (n : string) (a : collaborator) (i : gmap string value)
    (σ : orchestrator) :
  tools E !! n = Some a → 1 ≤ max_retries (config E) →
  run_tool E n i σ =
    match first_return a i (length (calls σ)) (Z.to_nat (max_retries (config E))) with
    | Some (k, result) =>
        (Ok (Some result),
         (save_intermediate E n result
            (set_calls (calls σ ++ replicate (S k) (n, i)) σ)).2)
    | None =>
        (Ok (Some (ObjDict
               {[ "status" := VStr "error";
                  "message" :=
                    VStr ("Tool execution failed: " ++
                          str_failure
                            (failure_of (a (length (calls σ)
                               + Nat.pred (Z.to_nat (max_retries (config E))))%nat i))) ]})),
         set_calls (calls σ ++ replicate (Z.to_nat (max_retries (config E))) (n, i)) σ)
    end.
Proof.
  intros Ha Hmax. unfold run_tool. rewrite Ha. unfold mbind, M_bind.
  rewrite run_tool_attempts_spec by lia.
  destruct (first_return a i _ _) as [[k result]|]; [reflexivity|].
  destruct (Z.to_nat (max_retries (config E))) eqn:Hn; [lia | reflexivity].
Qed.

End guard.

(** C5: with [max_retries >= 1], a call of [run_agent] invokes [process] of
    the named agent [k] times, every time with the given input, where [k] is at
    most [max_retries]; when the agent is registered [k] is at least 1 and the
    call returns a result; and a result with [success = True] is only
    returned after at least one invocation. *)
Theorem run_agent_invocation_count (E : env) (agent_name : string)
    (input_data : gmap string value) (σ : orchestrator) :
  1 ≤ max_retries (config E) →
  ∃ k : nat,
    calls (run_agent E agent_name input_data σ).2
      = (calls σ ++ replicate k (agent_name, input_data))%list ∧
    Z.of_nat k ≤ max_retries (config E) ∧
    (is_Some (agents E !! agent_name) →
       (1 ≤ k)%nat ∧ ∃ out, (run_agent E agent_name input_data σ).1 = Ok (Some out)) ∧
    (∀ out, (run_agent E agent_name input_data σ).1 = Ok (Some out) →
            success out = true → (1 ≤ k)%nat).
Proof.
  intros Hmax. destruct (agents E !! agent_name) as [a|] eqn:Ha.
  - rewrite (run_agent_spec E agent_name a input_data σ Ha Hmax).
    destruct (first_return a input_data _ _) as [[k result]|] eqn:Hfirst.
    + apply first_return_Some in Hfirst as (Hlt & _ & _).
      destruct (save_intermediate_spec E agent_name result
                  (set_calls (calls σ ++ replicate (S k) (agent_name, input_data)) σ))
        as (σ' & Hsave & _ & _ & Hcalls & _).
      exists (S k). rewrite Hsave. cbn [fst snd]. rewrite Hcalls.
      split; [done|]. split; [lia|]. split; [|intros; lia].
      intros _. split; [lia | eauto].
    + exists (Z.to_nat (max_retries (config E))). cbn [fst snd calls set_calls].
      split; [done|]. split; [lia|]. split; [|intros; lia].
      intros _. split; [lia | eauto].
  - exists O. unfold run_agent. rewrite Ha. cbn [raise fst snd replicate].
    rewrite app_nil_r.
    split; [done|]. split; [lia|]. split; [|discriminate].
    by intros [? [=]].
Qed.

Lemma run_agent_invocation_count_witness :
  ∃ k : nat,
    calls (run_agent (guard_env (always TimesOut)) "analyst" ∅ init).2
      = (calls init ++ replicate k ("analyst", ∅))%list ∧
    Z.of_nat k ≤ 3 ∧
    (is_Some (agents (guard_env (always TimesOut)) !! "analyst") →
       (1 ≤ k)%nat ∧
       ∃ out, (run_agent (guard_env (always TimesOut)) "analyst" ∅ init).1 = Ok (Some out)) ∧
    (∀ out, (run_agent (guard_env (always TimesOut)) "analyst" ∅ init).1 = Ok (Some out) →
            success out = true → (1 ≤ k)%nat).
Proof.
  apply (run_agent_invocation_count (guard_env (always TimesOut)) "analyst" ∅ init).
  vm_compute. discriminate.
Defined.

(** C6, as stated, fails: when every attempt times out the error message of
    the result is the empty string, and the whole result is the one returned
    when every attempt raises an exception whose text is empty. *)
Lemma timeout_not_told_from_exception :
  (run_agent (guard_env (always TimesOut)) "analyst" ∅ init).1
  = Ok (Some {| agent_name := "analyst"; message_type := "error";
                content := {[ "error" := VStr "" ]};
                success := false; metadata := None |}) ∧
  run_agent (guard_env (always TimesOut)) "analyst" ∅ init
  = run_agent (guard_env (always (Raises ""))) "analyst" ∅ init.
Proof. split; vm_compute; reflexivity. Qed.

(** C6, amended: with [max_retries >= 1], when every attempt of a call of
    [run_agent] times out, the call raises nothing and returns a result with
    [success = False], message type ["error"] and the text of the timeout
    exception, which is empty, as its error message; [process] has been invoked
    [max_retries] times and nothing else of the orchestrator has changed. *)
Theorem run_agent_all_timeouts (E : env) (agent_name : string) (agent : collaborator)
    (input_data : gmap string value) (σ : orchestrator) :
  1 ≤ max_retries (config E) →
  agents E !! agent_name = Some agent →
  (∀ j, (j < Z.to_nat (max_retries (config E)))%nat →
        agent (length (calls σ) + j)%nat input_data = TimesOut) →
  run_agent E agent_name input_data σ
  = (Ok (Some {| agent_name := agent_name; message_type := "error";
                 content := {[ "error" := VStr "" ]};
                 success := false; metadata := None |}),
     set_calls (calls σ ++ replicate (Z.to_nat (max_retries (config E)))
                             (agent_name, input_data)) σ).
Proof.
  intros Hmax Ha Htimeout.
  rewrite (run_agent_spec E agent_name agent input_data σ Ha Hmax).
  rewrite first_return_None
    by (intros j Hj r; rewrite (Htimeout j Hj); discriminate).
  rewrite Htimeout by lia. reflexivity.
Qed.

Lemma run_agent_all_timeouts_witness :
  run_agent (guard_env (always TimesOut)) "analyst" ∅ init
  = (Ok (Some {| agent_name := "analyst"; message_type := "error";
                 content := {[ "error" := VStr "" ]};
                 success := false; metadata := None |}),
     set_calls (calls init ++ replicate (Z.to_nat 3) ("analyst", ∅)) init).
Proof.
  apply (run_agent_all_timeouts (guard_env (always TimesOut)) "analyst" (always TimesOut)
           ∅ init).
  - vm_compute. discriminate.
  - vm_compute. reflexivity.
  - intros j _. reflexivity.
Defined.

Lemma checkpoint_workflow_running (E : env) (w : string) (σ : orchestrator)
    (l : list (string * gmap string value)) :
  save_intermediate_results (config E) = true → current_workflow σ = Some w → w ≠ "" →
  checkpoint_workflow E (set_calls l σ) = Some w.
Proof.
  intros Hsave Hw Hne. unfold checkpoint_workflow. rewrite Hsave. cbn. rewrite Hw.
  by apply String.eqb_neq in Hne as ->.
Qed.

(** C7, as stated, fails: with persistence enabled and a workflow executing,
    a call that fails because every attempt times out leaves nothing in the
    checkpoint store under the key of the call, for an agent as for a tool. *)
Lemma failed_call_is_not_checkpointed :
  (∃ out, (run_agent (guard_env (always TimesOut)) "analyst" ∅
                     (running "full_validation")).1 = Ok (Some out) ∧
          success out = false) ∧
  results_store (run_agent (guard_env (always TimesOut)) "analyst" ∅
                           (running "full_validation")).2
    !! "full_validation_analyst" = None ∧
  results_store (run_tool (guard_env (always TimesOut)) "search" ∅
                          (running "full_validation")).2
    !! "full_validation_search" = None.
Proof.
  split; [eexists; split; vm_compute; reflexivity|].
  split; vm_compute; reflexivity.
Qed.

(** C7, amended: with persistence enabled and a workflow [w] executing, a
    call of [run_agent] or [run_tool] in which an attempt returns stores the
    value that attempt returned under the key [w_name] and changes no other
    key; a call whose attempts all fail leaves the checkpoint store as it
    was. *)
Theorem guard_checkpoints_returned_value (E : env) (w name : string) (c : collaborator)
    (arg : gmap string value) (σ : orchestrator) :
  save_intermediate_results (config E) = true →
  current_workflow σ = Some w → w ≠ "" →
  1 ≤ max_retries (config E) →
  (agents E !! name = Some c →
   match first_return c arg (length (calls σ)) (Z.to_nat (max_retries (config E))) with
   | Some (_, result) =>
       (run_agent E name arg σ).1 = Ok (Some (as_AgentOutput name result)) ∧
       results_store (run_agent E name arg σ).2
         = <[w ++ "_" ++ name := result]> (results_store σ)
   | None =>
       (∃ out, (run_agent E name arg σ).1 = Ok (Some out) ∧ success out = false) ∧
       results_store (run_agent E name arg σ).2 = results_store σ
   end) ∧
  (tools E !! name = Some c →
   match first_return c arg (length (calls σ)) (Z.to_nat (max_retries (config E))) with
   | Some (_, result) =>
       (run_tool E name arg σ).1 = Ok (Some result) ∧
       results_store (run_tool E name arg σ).2
         = <[w ++ "_" ++ name := result]> (results_store σ)
   | None =>
       (∃ e, (run_tool E name arg σ).1
             = Ok (Some (ObjDict {[ "status" := VStr "error";
                                    "message" :=
                                      VStr ("Tool execution failed: " ++ str_failure e) ]}))) ∧
       results_store (run_tool E name arg σ).2 = results_store σ
   end).
Proof.
  intros Hsave Hw Hne Hmax. split; intros Hc.
  - rewrite (run_agent_spec E name c arg σ Hc Hmax).
    destruct (first_return c arg _ _) as [[k result]|].
    + destruct (save_intermediate_spec E name result
                  (set_calls (calls σ ++ replicate (S k) (name, arg)) σ))
        as (σ' & -> & Hstore & _).
      rewrite (checkpoint_workflow_running E w σ _ Hsave Hw Hne) in Hstore. done.
    + split; [eexists; split; reflexivity | reflexivity].
  - rewrite (run_tool_spec E name c arg σ Hc Hmax).
    destruct (first_return c arg _ _) as [[k result]|].
    + destruct (save_intermediate_spec E name result
                  (set_calls (calls σ ++ replicate (S k) (name, arg)) σ))
        as (σ' & -> & Hstore & _).
      rewrite (checkpoint_workflow_running E w σ _ Hsave Hw Hne) in Hstore. done.
    + split; [eexists; reflexivity | reflexivity].
Qed.

Lemma guard_checkpoints_returned_value_witness :
  (run_agent (guard_env (always (Returns (ObjDict status_error)))) "analyst" ∅
             (running "full_validation")).1
    = Ok (Some (as_AgentOutput "analyst" (ObjDict status_error))) ∧
  results_store (run_agent (guard_env (always (Returns (ObjDict status_error)))) "analyst" ∅
                           (running "full_validation")).2
    = <["full_validation" ++ "_" ++ "analyst" := ObjDict status_error]>
        (results_store (running "full_validation")).
Proof.
  apply (guard_checkpoints_returned_value
           (guard_env (always (Returns (ObjDict status_error)))) "full_validation" "analyst"
           (always (Returns (ObjDict status_error))) ∅ (running "full_validation")).
  - reflexivity.
  - reflexivity.
  - discriminate.
  - vm_compute. discriminate.
  - vm_compute. reflexivity.
Defined.

(** C8, as stated, fails: a tool that returns a mapping with status
    ["error"] is called once although three attempts are configured, and
    [run_tool] returns that mapping to its caller as the result of the call. *)
Lemma status_error_payload_is_not_retried :
  run_tool (guard_env (always (Returns (ObjDict status_error)))) "search" ∅ init
  = (Ok (Some (ObjDict status_error)), set_calls [("search", ∅)] init) ∧
  max_retries (config (guard_env (always (Returns (ObjDict status_error))))) = 3.
Proof. split; vm_compute; reflexivity. Qed.

(** C8, amended: a tool invocation that returns a mapping with status
    ["error"] counts as a returned attempt, not as a failed one: after the
    attempts before it have failed, [run_tool] makes no further attempt and
    returns that mapping unchanged to its caller. *)
Theorem run_tool_returns_status_error_payload (E : env) (tool_name : string)
    (tool : collaborator) (kwargs payload : gmap string value) (σ : orchestrator)
    (k : nat) :
  tools E !! tool_name = Some tool →
  (k < Z.to_nat (max_retries (config E)))%nat →
  (∀ j, (j < k)%nat → ∀ r, tool (length (calls σ) + j)%nat kwargs ≠ Returns r) →
  tool (length (calls σ) + k)%nat kwargs = Returns (ObjDict payload) →
  payload !! "status" = Some (VStr "error") →
  (run_tool E tool_name kwargs σ).1 = Ok (Some (ObjDict payload)) ∧
  calls (run_tool E tool_name kwargs σ).2
    = (calls σ ++ replicate (S k) (tool_name, kwargs))%list.
Proof.
  intros Htool Hk Hbefore Hreturns _.
  rewrite (run_tool_spec E tool_name tool kwargs σ Htool) by lia.
  rewrite (first_return_at _ _ _ _ k (ObjDict payload) Hk Hbefore Hreturns).
  destruct (save_intermediate_spec E tool_name (ObjDict payload)
              (set_calls (calls σ ++ replicate (S k) (tool_name, kwargs)) σ))
    as (σ' & -> & _ & _ & Hcalls & _).
  done.
Qed.

Lemma run_tool_returns_status_error_payload_witness :
  (run_tool (guard_env (always (Returns (ObjDict status_error)))) "search" ∅ init).1
    = Ok (Some (ObjDict status_error)) ∧
  calls (run_tool (guard_env (always (Returns (ObjDict status_error)))) "search" ∅ init).2
    = (calls init ++ replicate 1 ("search", ∅))%list.
Proof.
  apply (run_tool_returns_status_error_payload
           (guard_env (always (Returns (ObjDict status_error)))) "search"
           (always (Returns (ObjDict status_error))) ∅ status_error init 0).
  - vm_compute. reflexivity.
  - vm_compute. lia.
  - intros j Hj. lia.
  - reflexivity.
  - vm_compute. reflexivity.
Defined.

(** ** The workflow engine *)

(** C10, as stated, fails: after [execute_workflow] has returned, the results
    mapping is not empty: it still holds what the run checkpointed, here the
    workflow's own checkpoint and the final result, and [get_result] reads
    them. *)
Lemma results_store_kept_after_workflow :
  let σ' := (execute_workflow (guard_env (always TimesOut))
               {[ "echo" := echo_workflow (guard_env (always TimesOut)) ]}
               "echo" sample_input init).2 in
  current_workflow σ' = None ∧
  results_store σ' ≠ ∅ ∧
  (get_result "final_result" σ').1 = Ok (Some (ObjDict sample_input)) ∧
  (get_result "echo_report" σ').1 = Ok (Some (ObjDict sample_input)).
Proof.
  repeat split; try (vm_compute; reflexivity).
  intros Hempty.
  assert (Hlookup : results_store
            (execute_workflow (guard_env (always TimesOut))
               {[ "echo" := echo_workflow (guard_env (always TimesOut)) ]}
               "echo" sample_input init).2 !! "final_result" = None)
    by (rewrite Hempty; apply lookup_empty).
  vm_compute in Hlookup. discriminate.
Qed.

(** C10, amended: [execute_workflow] runs the registered workflow function
    from a context reset to the given workflow name and an empty results
    mapping, and returns or raises what that function returns or raises; when
    it ends, in both cases, the engine holds no workflow name.  The results
    mapping is not cleared at the end: it is the mapping the workflow function
    left, with the returned value under ["final_result"] when the function
    returned and persistence is enabled. *)
Theorem execute_workflow_context (E : env) (workflows : gmap string workflow)
    (workflow_name : string) (workflow_function : workflow)
    (input_data : gmap string value) (σ σ1 : orchestrator) (r : res (gmap string value)) :
  workflows !! workflow_name = Some workflow_function →
  workflow_function input_data
    (set_results_store ∅ (set_current_workflow (Some workflow_name) σ)) = (r, σ1) →
  (execute_workflow E workflows workflow_name input_data σ).1 = r ∧
  current_workflow (execute_workflow E workflows workflow_name input_data σ).2 = None ∧
  results_store (execute_workflow E workflows workflow_name input_data σ).2
  = match r with
    | Ok result =>
        if save_intermediate_results (config E)
        then <["final_result" := ObjDict result]> (results_store σ1)
        else results_store σ1
    | Raise _ => results_store σ1
    end.
Proof.
  intros Hwf Hrun. unfold execute_workflow, workflow in *. rewrite Hwf.
  unfold mbind, M_bind, modify, try_finally. rewrite Hrun.
  destruct r as [result|e]; [|done].
  destruct (save_intermediate_results (config E)) eqn:Hsave; [|done].
  destruct (_save_result_spec E "final_result" (ObjDict result) σ1)
    as (σ2 & -> & Hstore & _).
  done.
Qed.

Lemma execute_workflow_context_witness :
  (execute_workflow (guard_env (always TimesOut))
     {[ "echo" := echo_workflow (guard_env (always TimesOut)) ]}
     "echo" sample_input init).1 = Ok sample_input ∧
  current_workflow
    (execute_workflow (guard_env (always TimesOut))
       {[ "echo" := echo_workflow (guard_env (always TimesOut)) ]}
       "echo" sample_input init).2 = None ∧
  results_store
    (execute_workflow (guard_env (always TimesOut))
       {[ "echo" := echo_workflow (guard_env (always TimesOut)) ]}
       "echo" sample_input init).2
  = <["final_result" := ObjDict sample_input]> {[ "echo_report" := ObjDict sample_input ]}.
Proof.
  apply (execute_workflow_context (guard_env (always TimesOut))
           {[ "echo" := echo_workflow (guard_env (always TimesOut)) ]}
           "echo" (echo_workflow (guard_env (always TimesOut))) sample_input init
           (echo_workflow (guard_env (always TimesOut)) sample_input
              (set_results_store ∅ (set_current_workflow (Some "echo") init))).2
           (Ok sample_input)).
  - vm_compute. reflexivity.
  - vm_compute. reflexivity.
Defined.

(** ** The full-validation pipeline *)

Lemma dict_truthy (d : gmap string value) : py_truthy (VDict d) = true ↔ d ≠ ∅.
Proof.
  cbn. rewrite negb_true_iff, Nat.eqb_neq. by rewrite map_size_empty_iff.
Qed.

(** C9, as stated, fails: the market stage succeeds with an empty payload,
    the competitor stage fails, and the error report has no
    ["market_analysis"] key. *)
Lemma empty_market_payload_is_dropped :
  (run_agent (competitor_fails_env ∅) "market_researcher"
     {[ "idea" := VDict (StartupIdea_dict sample_idea); "search_terms" := VList [] ]} init).1
  = Ok (Some {| agent_name := "market_researcher"; message_type := "result";
                content := ∅; success := true; metadata := None |}) ∧
  ∃ report,
    (workflow_full_validation (competitor_fails_env ∅) sample_externals sample_input init).1
    = Ok report ∧
    report !! "success" = Some (VBool false) ∧
    report !! "error" = Some (VStr "Competitor analysis failed") ∧
    report !! "market_analysis" = None.
Proof.
  split; [vm_compute; reflexivity|].
  eexists. split; [vm_compute; reflexivity|].
  repeat split; vm_compute; reflexivity.
Qed.

(** C9, amended: in the full-validation pipeline, when the market-research
    stage succeeds and the competitor-analysis stage reports failure, the
    returned report has [success = False], the idea, no competitor, persona
    or mvp key, and the market payload under ["market_analysis"] when that
    payload is not empty; an empty market payload is left out. *)
Theorem competitor_failure_report (E : env) (X : externals)
    (input_data : gmap string value) (startup_idea : StartupIdea)
    (market_result competitor_result : AgentOutput) (σ σ1 σ2 : orchestrator) :
  _parse_startup_idea X input_data = Ok startup_idea →
  run_agent E "market_researcher"
    {[ "idea" := VDict (StartupIdea_dict startup_idea);
       "search_terms" := default (VList []) (input_data !! "search_terms") ]} σ
  = (Ok (Some market_result), σ1) →
  success market_result = true →
  run_agent E "competitor_analyzer"
    {[ "idea" := VDict (StartupIdea_dict startup_idea);
       "market_data" := VDict (content market_result) ]}
    (_save_result E "market_research" (ObjDict (content market_result)) σ1).2
  = (Ok (Some competitor_result), σ2) →
  success competitor_result = false →
  ∃ report,
    (workflow_full_validation E X input_data σ).1 = Ok report ∧
    report !! "success" = Some (VBool false) ∧
    report !! "error" = Some (VStr "Competitor analysis failed") ∧
    report !! "idea" = Some (VDict (StartupIdea_dict startup_idea)) ∧
    (content market_result ≠ ∅ →
     report !! "market_analysis" = Some (VDict (content market_result))) ∧
    (content market_result = ∅ → report !! "market_analysis" = None) ∧
    report !! "competitor_analysis" = None ∧
    report !! "customer_personas" = None ∧
    report !! "mvp_plan" = None.
Proof.
  intros Hparse Hmarket Hmok Hcompetitor Hcfail.
  unfold workflow_full_validation.
  unfold mbind at 1. unfold M_bind at 1. unfold lift at 1. rewrite Hparse.
  unfold mbind at 1. unfold M_bind at 1. rewrite Hmarket.
  unfold mbind at 1. unfold M_bind at 1. cbn [the_output mret M_ret].
  rewrite Hmok. cbn [negb].
  destruct (_save_result_spec E "market_research" (ObjDict (content market_result)) σ1)
    as (σ1' & Hsave & _).
  rewrite Hsave in Hcompetitor. cbn [snd] in Hcompetitor.
  unfold mbind at 1. unfold M_bind at 1. rewrite Hsave.
  unfold mbind at 1. unfold M_bind at 1. rewrite Hcompetitor.
  unfold mbind at 1. unfold M_bind at 1. cbn [the_output mret M_ret].
  rewrite Hcfail. cbn [negb].
  unfold _generate_error_report, now, mbind, M_bind, get, modify, mret, M_ret.
  cbn [fst given].
  eexists. split; [reflexivity|].
  destruct (py_truthy (VDict (content market_result))) eqn:Htruthy.
  - apply dict_truthy in Htruthy.
    rewrite !lookup_insert_ne by done.
    rewrite lookup_insert_eq.
    repeat split; try done; try (by vm_compute).
  - repeat split; try (by vm_compute).
    intros Hne%dict_truthy. congruence.
Qed.

Lemma competitor_failure_report_witness :
  ∃ report,
    (workflow_full_validation (competitor_fails_env example_market) sample_externals
       sample_input init).1 = Ok report ∧
    report !! "success" = Some (VBool false) ∧
    report !! "error" = Some (VStr "Competitor analysis failed") ∧
    report !! "idea" = Some (VDict (StartupIdea_dict sample_idea)) ∧
    (example_market ≠ ∅ → report !! "market_analysis" = Some (VDict example_market)) ∧
    (example_market = ∅ → report !! "market_analysis" = None) ∧
    report !! "competitor_analysis" = None ∧
    report !! "customer_personas" = None ∧
    report !! "mvp_plan" = None.
Proof.
  apply (competitor_failure_report (competitor_fails_env example_market) sample_externals
           sample_input sample_idea
           {| agent_name := "market_researcher"; message_type := "result";
              content := example_market; success := true; metadata := None |}
           (error_output "competitor_analyzer" TimedOut)
           init
           (run_agent (competitor_fails_env example_market) "market_researcher"
              {[ "idea" := VDict (StartupIdea_dict sample_idea);
                 "search_terms" := VList [] ]} init).2
           (run_agent (competitor_fails_env example_market) "competitor_analyzer"
              {[ "idea" := VDict (StartupIdea_dict sample_idea);
                 "market_data" := VDict example_market ]}
              (_save_result (competitor_fails_env example_market) "market_research"
                 (ObjDict example_market)
                 (run_agent (competitor_fails_env example_market) "market_researcher"
                    {[ "idea" := VDict (StartupIdea_dict sample_idea);
                       "search_terms" := VList [] ]} init).2).2).2).
  - vm_compute. reflexivity.
  - vm_compute. reflexivity.
  - reflexivity.
  - vm_compute. reflexivity.
  - reflexivity.
Defined.


(** The reports of an aborted or halted pipeline carry no score. *)
Lemma _generate_error_report_no_score X msg i m c p σ report σ' :
  _generate_error_report X msg i m c p σ = (Ok report, σ') →
  report !! "validation_score" = None.
Proof.
  unfold _generate_error_report, now, mbind, M_bind, get, modify, mret, M_ret.
  intros [= <- _].
  destruct (given m), (given c), (given p);
    rewrite ?lookup_insert_ne by done; by vm_compute.
Qed.

Lemma _generate_interim_report_no_score E X i m c p σ report σ' :
  _generate_interim_report E X i m c p σ = (Ok report, σ') →
  report !! "validation_score" = None.
Proof.
  unfold _generate_interim_report, now.
  unfold mbind, M_bind, get, modify, mret, M_ret.
  match goal with
  | |- context [_save_result E ?k ?r ?s] =>
      destruct (_save_result_spec E k r s) as (σ2 & -> & _)
  end.
  intros [= <- _]. by vm_compute.
Qed.

(** One step of a method body: the step returns, or the method raises. *)
Ltac step x σx :=
  unfold mbind at 1; unfold M_bind at 1;
  match goal with
  | |- match ?m ?s with _ => _ end = _ → _ =>
      destruct (m s) as [[x|?] σx] eqn:?; [|discriminate]
  end.

(** The score of a completed full-validation report: whenever
    [workflow_full_validation] returns a report with a ["validation_score"]
    key, the value under it is a score between 0 and 100. *)
Lemma full_validation_score_in_range E X input_data σ report σ' v :
  workflow_full_validation E X input_data σ = (Ok report, σ') →
  report !! "validation_score" = Some v →
  ∃ score, v = VFloat (float_of_int score) ∧ 0 ≤ score ≤ 100.
Proof.
  unfold workflow_full_validation.
  step startup_idea σ0. step market_result σ1. step market_output σ1'.
  destruct (success market_output);
    [|cbn [negb]; intros H; apply _generate_error_report_no_score in H; congruence].
  cbn [negb]. step u1 σ2. step competitor_result σ3. step competitor_output σ3'.
  destruct (success competitor_output);
    [|cbn [negb]; intros H; apply _generate_error_report_no_score in H; congruence].
  cbn [negb]. step u2 σ4. step persona_result σ5. step persona_output σ5'.
  destruct (success persona_output);
    [|cbn [negb]; intros H; apply _generate_error_report_no_score in H; congruence].
  cbn [negb]. step u3 σ6. step approval σ7.
  destruct (String.eqb approval "proceed");
    [|cbn [negb]; intros H; apply _generate_interim_report_no_score in H; congruence].
  cbn [negb]. step mvp_result σ8. step mvp_output σ8'.
  destruct (success mvp_output);
    [|cbn [negb]; intros H; apply _generate_error_report_no_score in H; congruence].
  cbn [negb]. step u4 σ9. step final σ10. step path σ11.
  intros [= <- _].
  match goal with
  | H : _generate_validation_report _ _ _ _ _ _ _ = _ |- _ =>
      apply _generate_validation_report_score in H as (s & Hs & Hv)
  end.
  rewrite (StartupValidationReport_dict_score final _ Hv).
  intros [= <-]. exists s. split; [done|].
  by apply (_calculate_validation_score_range _ _ _ _ _ Hs).
Qed.

(** * Further properties *)

(** ** More on the validation score *)

(** Case analysis on a computation in [res] that is known to return. *)
Ltac invert_Ok :=
  repeat first
    [ discriminate
    | match goal with
      | H : Ok _ = Ok _ |- _ => injection H as H; try subst
      | H : context [mbind _ ?r] |- _ =>
          match type of r with
          | res _ => destruct r eqn:?; cbn [mbind res_bind] in H
          end
      | H : context [match ?x with _ => _ end] |- _ =>
          destruct x eqn:?; cbn [mbind res_bind] in H
      end ].

Lemma market_factors_bounds (market_data : gmap string value) (score score' : Z) :
  market_factors market_data score = Ok score' → score - 10 ≤ score' ≤ score + 20.
Proof.
  unfold market_factors. intros H. invert_Ok; try lia.
  all: match goal with
       | H5 : py_lt ?g 5 = Ok false, H0 : py_lt ?g 0 = Ok true |- _ =>
           apply (py_lt_mono g 0 5) in H0; [congruence | lia]
       end.
Qed.

Lemma competitor_factors_bounds (competitor_data : gmap string value) (score score' : Z) :
  competitor_factors competitor_data score = Ok score' → score - 5 ≤ score' ≤ score + 15.
Proof.
  unfold competitor_factors. intros H. invert_Ok.
  all: repeat match goal with |- context [if ?b then _ else _] => destruct b end; lia.
Qed.

Lemma persona_factors_bounds (persona_data : gmap string value) (score score' : Z) :
  persona_factors persona_data score = Ok score' → score - 10 ≤ score' ≤ score + 15.
Proof. unfold persona_factors. intros H. invert_Ok; lia. Qed.

Lemma mvp_factors_bounds (mvp_data : gmap string value) (score score' : Z) :
  mvp_factors mvp_data score = Ok score' → score - 10 ≤ score' ≤ score + 10.
Proof. unfold mvp_factors. intros H. invert_Ok; lia. Qed.

(** X1: the sum before clamping lies between 15 and 110, so the lower bound
    of the clamp never applies: a returned score is the smaller of 100 and the
    sum, and it is at least 15. *)
Theorem score_at_least_15
    (market_data competitor_data persona_data mvp_data : gmap string value) (score : Z) :
  _calculate_validation_score market_data competitor_data persona_data mvp_data = Ok score →
  ∃ raw, raw_score market_data competitor_data persona_data mvp_data = Ok raw ∧
         15 ≤ raw ≤ 110 ∧ score = Z.min 100 raw ∧ 15 ≤ score.
Proof.
  unfold _calculate_validation_score. intros (raw & Hraw & ->)%fmap_Ok_inv.
  exists raw. split; [done|].
  assert (15 ≤ raw ≤ 110).
  { unfold raw_score in Hraw.
    destruct (market_factors market_data 50) as [s1|] eqn:H1; [|discriminate].
    cbn [mbind res_bind] in Hraw.
    destruct (competitor_factors competitor_data s1) as [s2|] eqn:H2; [|discriminate].
    cbn [mbind res_bind] in Hraw.
    destruct (persona_factors persona_data s2) as [s3|] eqn:H3; [|discriminate].
    cbn [mbind res_bind] in Hraw.
    apply market_factors_bounds in H1. apply competitor_factors_bounds in H2.
    apply persona_factors_bounds in H3. apply mvp_factors_bounds in Hraw. lia. }
  unfold clamp. lia.
Qed.

Lemma score_at_least_15_witness :
  ∃ raw, raw_score worst_market worst_competitor worst_persona worst_mvp = Ok raw ∧
         15 ≤ raw ≤ 110 ∧ 15 = Z.min 100 raw ∧ 15 ≤ 15.
Proof.
  apply (score_at_least_15 worst_market worst_competitor worst_persona worst_mvp 15).
  vm_compute. reflexivity.
Defined.

Lemma competitor_factors_without_competitors (competitor_data : gmap string value)
    (score : Z) :
  competitor_data !! "competitors" = None →
  competitor_factors competitor_data score = Ok score.
Proof. intros H. unfold competitor_factors. by rewrite H. Qed.

(** X2: market gaps only count next to a ["competitors"] key: a competitor
    payload without that key scores as the same payload without its
    ["market_gaps"], whatever the gaps are. *)
Theorem market_gaps_need_competitors
    (market_data competitor_data persona_data mvp_data : gmap string value) :
  competitor_data !! "competitors" = None →
  _calculate_validation_score market_data competitor_data persona_data mvp_data
  = _calculate_validation_score market_data (delete "market_gaps" competitor_data)
      persona_data mvp_data.
Proof.
  intros Hnone. unfold _calculate_validation_score, raw_score.
  destruct (market_factors market_data 50) as [s1|]; [|done]. cbn [mbind res_bind].
  rewrite !competitor_factors_without_competitors; [done | | done].
  by rewrite lookup_delete_ne.
Qed.

Lemma market_gaps_need_competitors_witness :
  _calculate_validation_score ∅ {[ "market_gaps" := VList [VStr "a"; VStr "b"] ]} ∅ ∅
  = _calculate_validation_score ∅
      (delete "market_gaps" {[ "market_gaps" := VList [VStr "a"; VStr "b"] ]}) ∅ ∅.
Proof.
  apply (market_gaps_need_competitors ∅ {[ "market_gaps" := VList [VStr "a"; VStr "b"] ]} ∅ ∅).
  vm_compute. reflexivity.
Defined.

(** ** Recommendations *)

Lemma market_recommendations_length (market_data : gmap string value) (l : list string) :
  market_recommendations market_data = Ok l → (length l ≤ 1)%nat.
Proof.
  unfold market_recommendations. intros H. invert_Ok; cbn; lia.
Qed.

Lemma competitor_recommendations_length P (competitor_data : gmap string value)
    (l : list string) :
  competitor_recommendations P competitor_data = Ok l → (length l ≤ 1)%nat.
Proof.
  unfold competitor_recommendations. intros H. invert_Ok; cbn; lia.
Qed.

Lemma persona_recommendations_length P (persona_data : gmap string value)
    (l : list string) :
  persona_recommendations P persona_data = Ok l → (length l ≤ 1)%nat.
Proof.
  unfold persona_recommendations. intros H. invert_Ok; cbn; lia.
Qed.

Lemma mvp_recommendations_length P (mvp_data : gmap string value) (l : list string) :
  mvp_recommendations P mvp_data = Ok l → (length l ≤ 2)%nat.
Proof.
  unfold mvp_recommendations. intros H. cbv zeta in H. invert_Ok.
  all: rewrite ?length_app.
  all: destruct (mvp_data !! "features") as [features|];
    [destruct (py_truthy features)|]; cbn; lia.
Qed.

(** X3: whenever [_generate_recommendations] returns, its list consists of
    at most five specific recommendations, followed by the two general ones
    exactly when there are fewer than three specific ones; so it has between
    two and five entries, and taking the first five, as the caller in
    [app.py] does, drops nothing. *)
Theorem recommendations_between_2_and_5 (P : python)
    (market_data competitor_data persona_data mvp_data : gmap string value)
    (recommendations : list string) :
  generate_recommendations P market_data competitor_data persona_data mvp_data
  = Ok recommendations →
  (∃ specific : list string,
     (length specific ≤ 5)%nat ∧
     recommendations
     = if (length specific <? 3)%nat
       then (specific ++ general_recommendations)%list
       else specific) ∧
  (2 ≤ length recommendations ≤ 5)%nat ∧
  take 5 recommendations = recommendations.
Proof.
  unfold generate_recommendations. intros H.
  destruct (market_recommendations market_data) as [r1|] eqn:H1; [|discriminate].
  cbn [mbind res_bind] in H.
  destruct (competitor_recommendations P competitor_data) as [r2|] eqn:H2; [|discriminate].
  cbn [mbind res_bind] in H.
  destruct (persona_recommendations P persona_data) as [r3|] eqn:H3; [|discriminate].
  cbn [mbind res_bind] in H.
  destruct (mvp_recommendations P mvp_data) as [r4|] eqn:H4; [|discriminate].
  cbn [mbind res_bind] in H. injection H as <-.
  apply market_recommendations_length in H1.
  apply competitor_recommendations_length in H2.
  apply persona_recommendations_length in H3.
  apply mvp_recommendations_length in H4.
  set (specific := (r1 ++ r2 ++ r3 ++ r4)%list).
  assert (Hlen : (length specific ≤ 5)%nat)
    by (unfold specific; rewrite !length_app; lia).
  assert (Hif : (Z.of_nat (length specific) <? 3) = (length specific <? 3)%nat).
  { destruct (Nat.ltb_spec (length specific) 3), (Z.ltb_spec (Z.of_nat (length specific)) 3);
      (done || lia). }
  rewrite Hif.
  assert (Hrange : (2 ≤ length (if (length specific <? 3)%nat
                                then (specific ++ general_recommendations)%list
                                else specific) ≤ 5)%nat).
  { destruct (Nat.ltb_spec (length specific) 3); [rewrite length_app; cbn|]; lia. }
  split; [eauto|]. split; [done|]. apply firstn_all2. lia.
Qed.

Lemma recommendations_between_2_and_5_witness :
  (∃ specific : list string,
     (length specific ≤ 5)%nat ∧
     general_recommendations
     = if (length specific <? 3)%nat
       then (specific ++ general_recommendations)%list
       else specific) ∧
  (2 ≤ length general_recommendations ≤ 5)%nat ∧
  take 5 general_recommendations = general_recommendations.
Proof.
  apply (recommendations_between_2_and_5 python_3_11 ∅ ∅ ∅ ∅ general_recommendations).
  vm_compute. reflexivity.
Defined.

(** ** The result shape of the repository's agents *)

Lemma agent_result_lookup (status message : string) (data : value) (k : string) :
  k ≠ "status" → k ≠ "message" → k ≠ "data" →
  agent_result status message data !! k = None.
Proof.
  intros H1 H2 H3. unfold agent_result.
  rewrite !lookup_insert_ne by done. by rewrite lookup_singleton_ne.
Qed.

Lemma agent_result_score (s1 m1 s2 m2 s3 m3 s4 m4 : string) (d1 d2 d3 d4 : value) :
  _calculate_validation_score (agent_result s1 m1 d1) (agent_result s2 m2 d2)
    (agent_result s3 m3 d3) (agent_result s4 m4 d4) = Ok 50.
Proof.
  unfold _calculate_validation_score, raw_score, market_factors, competitor_factors,
    persona_factors, mvp_factors.
  by rewrite !agent_result_lookup.
Qed.

Lemma agent_result_recommendations P (s1 m1 s2 m2 s3 m3 s4 m4 : string)
    (d1 d2 d3 d4 : value) :
  generate_recommendations P (agent_result s1 m1 d1) (agent_result s2 m2 d2)
    (agent_result s3 m3 d3) (agent_result s4 m4 d4) = Ok general_recommendations.
Proof.
  unfold generate_recommendations, market_recommendations, competitor_recommendations,
    persona_recommendations, mvp_recommendations.
  by rewrite !agent_result_lookup.
Qed.

(** X4: on payloads of the shape that every agent of the repository
    returns, a mapping with the keys ["status"], ["message"] and ["data"], no
    adjustment applies whatever the data is: the score is the baseline 50 and
    the recommendations are the two general ones. *)
Theorem agent_results_score_50 (P : python) (s1 m1 s2 m2 s3 m3 s4 m4 : string)
    (d1 d2 d3 d4 : value) :
  _calculate_validation_score (agent_result s1 m1 d1) (agent_result s2 m2 d2)
    (agent_result s3 m3 d3) (agent_result s4 m4 d4) = Ok 50 ∧
  generate_recommendations P (agent_result s1 m1 d1) (agent_result s2 m2 d2)
    (agent_result s3 m3 d3) (agent_result s4 m4 d4) = Ok general_recommendations.
Proof. split; [apply agent_result_score | apply agent_result_recommendations]. Qed.

(** ** The registry *)

Lemma save_intermediate_config (E E' : env) (name : string) (result : pyobj) :
  config E = config E' → save_intermediate E name result = save_intermediate E' name result.
Proof.
  intros Hc. unfold save_intermediate, checkpoint_workflow, _save_result. by rewrite Hc.
Qed.

Lemma run_agent_attempts_config (E E' : env) (n : string) (a : collaborator)
    (i : gmap string value) (remaining : nat) :
  config E = config E' →
  ∀ attempt σ, run_agent_attempts E n a i attempt remaining σ
               = run_agent_attempts E' n a i attempt remaining σ.
Proof.
  intros Hc. induction remaining as [|r IH]; intros attempt σ; [done|].
  cbn [run_agent_attempts]. unfold mbind at 1 3. unfold M_bind, invoke.
  destruct (a (length (calls σ)) i) as [result| |msg].
  - by rewrite (save_intermediate_config E E').
  - rewrite Hc. destruct (attempt =? max_retries (config E') - 1); [done | apply IH].
  - rewrite Hc. destruct (attempt =? max_retries (config E') - 1); [done | apply IH].
Qed.

Lemma run_tool_attempts_config (E E' : env) (n : string) (a : collaborator)
    (i : gmap string value) (remaining : nat) :
  config E = config E' →
  ∀ attempt σ, run_tool_attempts E n a i attempt remaining σ
               = run_tool_attempts E' n a i attempt remaining σ.
Proof.
  intros Hc. induction remaining as [|r IH]; intros attempt σ; [done|].
  cbn [run_tool_attempts]. unfold mbind at 1 3. unfold M_bind, invoke.
  destruct (a (length (calls σ)) i) as [result| |msg].
  - by rewrite (save_intermediate_config E E').
  - rewrite Hc. destruct (attempt =? max_retries (config E') - 1); [done | apply IH].
  - rewrite Hc. destruct (attempt =? max_retries (config E') - 1); [done | apply IH].
Qed.

(** [run_agent] and [run_tool] read the environment through the
    configuration and one lookup only. *)
Lemma run_agent_env (E E' : env) (n : string) (i : gmap string value) (σ : orchestrator) :
  config E = config E' → agents E !! n = agents E' !! n →
  run_agent E n i σ = run_agent E' n i σ.
Proof.
  intros Hc Ha. unfold run_agent. rewrite Ha, Hc.
  destruct (agents E' !! n) as [a|]; [|done].
  unfold mbind, M_bind. by rewrite (run_agent_attempts_config E E').
Qed.

Lemma run_tool_env (E E' : env) (n : string) (i : gmap string value) (σ : orchestrator) :
  config E = config E' → tools E !! n = tools E' !! n →
  run_tool E n i σ = run_tool E' n i σ.
Proof.
  intros Hc Ha. unfold run_tool. rewrite Ha, Hc.
  destruct (tools E' !! n) as [a|]; [|done].
  unfold mbind, M_bind. by rewrite (run_tool_attempts_config E E').
Qed.

Lemma run_agent_attempts_returns (E : env) (n : string) (a : collaborator)
    (i : gmap string value) (remaining : nat) :
  ∀ attempt σ, ∃ x σ', run_agent_attempts E n a i attempt remaining σ = (Ok x, σ').
Proof.
  induction remaining as [|r IH]; intros attempt σ; [cbn; eauto|].
  cbn [run_agent_attempts]. unfold mbind at 1. unfold M_bind, invoke.
  destruct (a (length (calls σ)) i) as [result| |msg].
  - destruct (save_intermediate_spec E n result (set_calls (calls σ ++ [(n, i)]) σ))
      as (σ2 & Hsave & _).
    unfold mbind, M_bind. rewrite Hsave. cbn. eauto.
  - destruct (attempt =? max_retries (config E) - 1); [cbn; eauto | apply IH].
  - destruct (attempt =? max_retries (config E) - 1); [cbn; eauto | apply IH].
Qed.

Lemma run_tool_attempts_returns (E : env) (n : string) (a : collaborator)
    (i : gmap string value) (remaining : nat) :
  ∀ attempt σ, ∃ x σ', run_tool_attempts E n a i attempt remaining σ = (Ok x, σ').
Proof.
  induction remaining as [|r IH]; intros attempt σ; [cbn; eauto|].
  cbn [run_tool_attempts]. unfold mbind at 1. unfold M_bind, invoke.
  destruct (a (length (calls σ)) i) as [result| |msg].
  - destruct (save_intermediate_spec E n result (set_calls (calls σ ++ [(n, i)]) σ))
      as (σ2 & Hsave & _).
    unfold mbind, M_bind. rewrite Hsave. cbn. eauto.
  - destruct (attempt =? max_retries (config E) - 1); [cbn; eauto | apply IH].
  - destruct (attempt =? max_retries (config E) - 1); [cbn; eauto | apply IH].
Qed.

(** X5: registration overwrites without complaint and the last registration
    wins.  After [register_agent n a], [run_agent n] never raises and behaves
    as if [a] were the only agent ever registered under [n]; [run_agent] on
    another name and [run_tool] on any name are unaffected.  The same holds
    for [register_tool] with the two roles exchanged. *)
Theorem registration_last_wins (E : env) (n m : string) (a b : collaborator)
    (i : gmap string value) (σ : orchestrator) :
  (run_agent (register_agent n a (register_agent n b E)) n i σ
   = run_agent (register_agent n a E) n i σ ∧
   (∃ r σ', run_agent (register_agent n a E) n i σ = (Ok r, σ')) ∧
   (m ≠ n → run_agent (register_agent n a E) m i σ = run_agent E m i σ) ∧
   run_tool (register_agent n a E) m i σ = run_tool E m i σ) ∧
  (run_tool (register_tool n a (register_tool n b E)) n i σ
   = run_tool (register_tool n a E) n i σ ∧
   (∃ r σ', run_tool (register_tool n a E) n i σ = (Ok r, σ')) ∧
   (m ≠ n → run_tool (register_tool n a E) m i σ = run_tool E m i σ) ∧
   run_agent (register_tool n a E) m i σ = run_agent E m i σ).
Proof.
  split; (split; [|split; [|split]]).
  - rewrite (run_agent_env (register_agent n a (register_agent n b E))
               (register_agent n a E)); [done..|].
    cbn. by rewrite !lookup_insert_eq.
  - unfold run_agent. cbn [agents register_agent]. rewrite lookup_insert_eq.
    unfold mbind, M_bind.
    destruct (run_agent_attempts_returns (register_agent n a E) n a i
                (Z.to_nat (max_retries (config (register_agent n a E)))) 0 σ)
      as (x & σ' & ->).
    destruct x; cbn; eauto.
  - intros Hne. rewrite (run_agent_env (register_agent n a E) E); [done..|].
    cbn. by rewrite lookup_insert_ne.
  - by rewrite (run_tool_env (register_agent n a E) E).
  - rewrite (run_tool_env (register_tool n a (register_tool n b E))
               (register_tool n a E)); [done..|].
    cbn. by rewrite !lookup_insert_eq.
  - unfold run_tool. cbn [tools register_tool]. rewrite lookup_insert_eq.
    unfold mbind, M_bind.
    destruct (run_tool_attempts_returns (register_tool n a E) n a i
                (Z.to_nat (max_retries (config (register_tool n a E)))) 0 σ)
      as (x & σ' & ->).
    destruct x; cbn; eauto.
  - intros Hne. rewrite (run_tool_env (register_tool n a E) E); [done..|].
    cbn. by rewrite lookup_insert_ne.
  - by rewrite (run_agent_env (register_tool n a E) E).
Qed.

(** ** The workflows of the validator *)

(** A bound method of two parameters, called with two arguments, receives
    three. *)
Lemma bound_method_called_with_self (steps : workflow) (input_data : gmap string value) :
  as_workflow (BoundMethod (method steps)) input_data = raise TypeError.
Proof. reflexivity. Qed.

(** X6: through [execute_workflow], each of the three workflows that
    [StartupValidatorOrchestrator.__init__] registers raises [TypeError]: what
    is registered is a bound method of two parameters, and line 128 calls it
    with the orchestrator and the input, so that it receives three arguments.
    No stage runs, no collaborator is invoked, the results mapping has been
    emptied and the workflow name is cleared again.  Any other name raises
    [ValueError] and leaves the orchestrator untouched.  The call of line 128
    fits the plain function of a workflow method: registered under a name in
    place of the bound method, it makes [execute_workflow] under that name do
    what it does with the method's steps themselves. *)
Theorem registered_workflows_raise_TypeError (E : env) (X : externals)
    (workflow_name : string) (input_data : gmap string value) (σ : orchestrator) :
  execute_workflow E (StartupValidatorOrchestrator_workflows E X) workflow_name input_data σ
  = (if bool_decide (workflow_name ∈ ["full_validation"; "market_only"; "mvp_only"])
     then (Raise TypeError, set_current_workflow None (set_results_store ∅ σ))
     else (Raise (ValueError ("Workflow '" ++ workflow_name ++ "' not found")), σ)) ∧
  ∀ (steps : workflow) (workflows : gmap string workflow),
    execute_workflow E
      (register_workflow workflow_name (as_workflow (PlainFunction (method steps))) workflows)
      workflow_name input_data σ
    = execute_workflow E (register_workflow workflow_name steps workflows)
        workflow_name input_data σ.
Proof.
  split.
  - unfold execute_workflow, StartupValidatorOrchestrator_workflows, register_workflow.
    destruct (decide (workflow_name = "mvp_only")) as [->|H1].
    { rewrite lookup_insert_eq, bound_method_called_with_self.
      by rewrite bool_decide_eq_true_2 by (rewrite !elem_of_cons; tauto). }
    rewrite lookup_insert_ne by done.
    destruct (decide (workflow_name = "market_only")) as [->|H2].
    { rewrite lookup_insert_eq, bound_method_called_with_self.
      by rewrite bool_decide_eq_true_2 by (rewrite !elem_of_cons; tauto). }
    rewrite lookup_insert_ne by done.
    destruct (decide (workflow_name = "full_validation")) as [->|H3].
    { rewrite lookup_insert_eq, bound_method_called_with_self.
      by rewrite bool_decide_eq_true_2 by (rewrite !elem_of_cons; tauto). }
    rewrite lookup_insert_ne, lookup_empty by done.
    by rewrite bool_decide_eq_false_2 by (rewrite !elem_of_cons, elem_of_nil; tauto).
  - intros steps workflows. unfold execute_workflow, register_workflow.
    by rewrite !lookup_insert_eq.
Qed.

(** ** The checkpoint store *)

(** X7: [_save_result] never raises and updates the results mapping
    whether or not persistence is enabled: [get_result] on the saved key then
    returns the saved value, and on every other key what it returned before.
    Without persistence nothing is written to disk. *)
Theorem save_then_get_result (E : env) (key : string) (result : pyobj) (σ : orchestrator) :
  (_save_result E key result σ).1 = Ok () ∧
  (get_result key (_save_result E key result σ).2).1 = Ok (Some result) ∧
  (∀ other, other ≠ key →
     (get_result other (_save_result E key result σ).2).1 = (get_result other σ).1) ∧
  (save_intermediate_results (config E) = false →
     dumps (_save_result E key result σ).2 = dumps σ).
Proof.
  unfold _save_result, get_result, mbind, M_bind, modify, get, mret, M_ret.
  destruct (save_intermediate_results (config E)); cbn.
  all: rewrite lookup_insert_eq.
  all: repeat split; try done.
  all: intros other Hne; by rewrite lookup_insert_ne.
Qed.

Lemma contains_char_replace (a b : ascii) (s : string) :
  a ≠ b → contains_char a (replace_char a b s) = false.
Proof.
  intros Hne. induction s as [|c s IH]; [done|]. cbn.
  destruct (Ascii.eqb_spec c a) as [->|Hc]; rewrite IH, orb_false_r.
  - by apply Ascii.eqb_neq.
  - by apply Ascii.eqb_neq.
Qed.

Lemma contains_char_replace_other (a b c : ascii) (s : string) :
  c ≠ b → contains_char c s = false → contains_char c (replace_char a b s) = false.
Proof.
  intros Hne. induction s as [|d s IH]; [done|]. cbn.
  intros [Hd Hs]%orb_false_iff. rewrite (IH Hs), orb_false_r.
  destruct (Ascii.eqb d a); [by apply Ascii.eqb_neq | done].
Qed.

Lemma contains_char_app (c : ascii) (s t : string) :
  contains_char c (s ++ t)%string = contains_char c s || contains_char c t.
Proof.
  induction s as [|d s IH]; [done|].
  simpl. by rewrite IH, orb_assoc.
Qed.

Lemma replace_char_idem (a b : ascii) (s : string) :
  a ≠ b → replace_char a b (replace_char a b s) = replace_char a b s.
Proof.
  intros Hne. induction s as [|c s IH]; [done|]. cbn. rewrite IH. f_equal.
  destruct (Ascii.eqb_spec c a) as [->|Hc].
  - by apply not_eq_sym, Ascii.eqb_neq in Hne as ->.
  - by apply Ascii.eqb_neq in Hc as ->.
Qed.

(** X8: with persistence enabled, the name of the file [_save_result]
    writes holds no slash and no backslash, whatever the key.  It is also the
    file name of the key with its slashes replaced by underscores: a key with
    a slash and that key are written to one file. *)
Theorem checkpoint_file_name (E : env) (key : string) (result : pyobj) (σ : orchestrator) :
  save_intermediate_results (config E) = true →
  ∃ file : string,
    dumps (_save_result E key result σ).2
      = (dumps σ ++ [(output_dir (config E), file, result)])%list ∧
    contains_char "/" file = false ∧
    contains_char "\" file = false ∧
    ∀ result' σ',
      dumps (_save_result E (replace_char "/" "_" key) result' σ').2
        = (dumps σ' ++ [(output_dir (config E), file, result')])%list.
Proof.
  intros Hsave.
  exists (replace_char "\" "_" (replace_char "/" "_" key) ++ ".json")%string.
  unfold _save_result, mbind, M_bind, modify, mret, M_ret. rewrite Hsave. cbn [snd dumps set_dumps set_results_store].
  split; [done|]. split; [|split].
  - rewrite contains_char_app, orb_false_iff. split; [|done].
    apply contains_char_replace_other; [done|]. by apply contains_char_replace.
  - rewrite contains_char_app, orb_false_iff. split; [|done].
    by apply contains_char_replace.
  - intros result' σ'. by rewrite replace_char_idem.
Qed.

Lemma checkpoint_file_name_witness :
  ∃ file : string,
    dumps (_save_result (guard_env (always TimesOut)) "run/market" (ObjDict ∅) init).2
      = (dumps init ++ [(output_dir (config (guard_env (always TimesOut))), file, ObjDict ∅)])%list ∧
    contains_char "/" file = false ∧
    contains_char "\" file = false ∧
    ∀ result' σ',
      dumps (_save_result (guard_env (always TimesOut)) (replace_char "/" "_" "run/market")
               result' σ').2
        = (dumps σ' ++ [(output_dir (config (guard_env (always TimesOut))), file, result')])%list.
Proof.
  apply (checkpoint_file_name (guard_env (always TimesOut)) "run/market" (ObjDict ∅) init).
  reflexivity.
Defined.

(** ** The human feedback gate *)

Lemma read_choice_returns (E : env) (options : list string) (lines : list string) :
  ∀ answer rest,
    read_choice E options lines = (Ok answer, rest) →
    ∃ skipped line choice,
      lines = (skipped ++ line :: rest)%list ∧
      Forall (invalid_choice E options) skipped ∧
      py_int E line = Some choice ∧
      1 ≤ choice ≤ Z.of_nat (length options) ∧
      options !! Z.to_nat (choice - 1) = Some answer.
Proof.
  induction lines as [|line lines IH]; intros answer rest; cbn; [discriminate|].
  assert (Hskip : invalid_choice E options line →
            read_choice E options lines = (Ok answer, rest) →
            ∃ skipped line' choice,
              line :: lines = (skipped ++ line' :: rest)%list ∧
              Forall (invalid_choice E options) skipped ∧
              py_int E line' = Some choice ∧
              1 ≤ choice ≤ Z.of_nat (length options) ∧
              options !! Z.to_nat (choice - 1) = Some answer).
  { intros Hinv (skipped & line' & choice & -> & Hall & Hint & Hrange & Hopt)%IH.
    exists (line :: skipped), line', choice. repeat split; try done; try lia.
    by constructor. }
  destruct (py_int E line) as [choice|] eqn:Hint.
  - destruct (Z.leb_spec 1 choice) as [H1|H1], (Z.leb_spec choice (Z.of_nat (length options)))
      as [H2|H2]; cbn [andb].
    + intros [= <- <-]. exists [], line, choice. repeat split; try done; try lia.
      destruct (lookup_lt_is_Some_2 options (Z.to_nat (choice - 1))) as [x Hx]; [lia|].
      rewrite Hx. f_equal. symmetry. by apply nth_lookup_Some.
    + apply Hskip. unfold invalid_choice. rewrite Hint. lia.
    + apply Hskip. unfold invalid_choice. rewrite Hint. lia.
    + apply Hskip. unfold invalid_choice. rewrite Hint. lia.
  - apply Hskip. unfold invalid_choice. by rewrite Hint.
Qed.

Lemma read_choice_exhausted (E : env) (options : list string) (lines : list string) :
  Forall (invalid_choice E options) lines →
  read_choice E options lines = (Raise EOFError, []).
Proof.
  induction 1 as [|line lines Hinv _ IH]; [done|]. cbn.
  unfold invalid_choice in Hinv. destruct (py_int E line) as [choice|]; [|done].
  destruct (Z.leb_spec 1 choice), (Z.leb_spec choice (Z.of_nat (length options)));
    cbn [andb]; (done || lia).
Qed.

(** X9: with the human in the loop and at least one option, an answer that
    [get_human_feedback] returns is one of the options: the one whose number
    is on the first console line that holds a number between 1 and the number
    of options, the option at that number counted from 1.  The lines before
    it, each invalid (not a number, or a number below 1 or above the number of
    options), have been read and dropped; the lines after it are still to be
    read; nothing else has changed. *)
Theorem human_answer_is_an_option (E : env) (message : string) (options : list string)
    (σ σ' : orchestrator) (answer : string) :
  human_in_the_loop (config E) = true →
  options ≠ [] →
  get_human_feedback E message (Some options) σ = (Ok answer, σ') →
  answer ∈ options ∧
  σ' = set_stdin (stdin σ') σ ∧
  ∃ skipped line choice,
    stdin σ = (skipped ++ line :: stdin σ')%list ∧
    Forall (invalid_choice E options) skipped ∧
    py_int E line = Some choice ∧
    1 ≤ choice ≤ Z.of_nat (length options) ∧
    options !! Z.to_nat (choice - 1) = Some answer.
Proof.
  intros Hloop Hne. unfold get_human_feedback. rewrite Hloop. cbn [negb].
  destruct options as [|o os]; [done|].
  destruct (read_choice E (o :: os) (stdin σ)) as [r rest] eqn:Hread.
  intros [= -> <-]. cbn [stdin set_stdin].
  apply read_choice_returns in Hread
    as (skipped & line & choice & Hlines & Hall & Hint & Hrange & Hopt).
  split; [by eapply list_elem_of_lookup_2|]. split; [done|]. eauto 10.
Qed.

Lemma human_answer_is_an_option_witness :
  "stop" ∈ ["proceed"; "stop"] ∧
  set_stdin ["1"] (set_stdin ["yes"; "0"; "3"; "2"; "1"] init)
  = set_stdin (stdin (set_stdin ["1"] (set_stdin ["yes"; "0"; "3"; "2"; "1"] init)))
      (set_stdin ["yes"; "0"; "3"; "2"; "1"] init) ∧
  ∃ skipped line choice,
    stdin (set_stdin ["yes"; "0"; "3"; "2"; "1"] init)
    = (skipped ++ line :: stdin (set_stdin ["1"] (set_stdin ["yes"; "0"; "3"; "2"; "1"] init)))%list ∧
    Forall (invalid_choice console_env ["proceed"; "stop"]) skipped ∧
    py_int console_env line = Some choice ∧
    1 ≤ choice ≤ Z.of_nat (length ["proceed"; "stop"]) ∧
    ["proceed"; "stop"] !! Z.to_nat (choice - 1) = Some "stop".
Proof.
  apply (human_answer_is_an_option console_env "Proceed?" ["proceed"; "stop"]
           (set_stdin ["yes"; "0"; "3"; "2"; "1"] init)
           (set_stdin ["1"] (set_stdin ["yes"; "0"; "3"; "2"; "1"] init)) "stop").
  - reflexivity.
  - discriminate.
  - vm_compute. reflexivity.
Defined.

(** X10: with the human in the loop and at least one option, when no
    console line holds the number of an option, and so also when there is no
    line at all, [get_human_feedback] reads every line and raises [EOFError];
    it does not return a default answer. *)
Theorem human_feedback_end_of_input (E : env) (message : string) (options : list string)
    (σ : orchestrator) :
  human_in_the_loop (config E) = true →
  options ≠ [] →
  Forall (invalid_choice E options) (stdin σ) →
  get_human_feedback E message (Some options) σ = (Raise EOFError, set_stdin [] σ).
Proof.
  intros Hloop Hne Hall. unfold get_human_feedback. rewrite Hloop. cbn [negb].
  destruct options as [|o os]; [done|].
  by rewrite (read_choice_exhausted E (o :: os) (stdin σ) Hall).
Qed.

Lemma human_feedback_end_of_input_witness :
  get_human_feedback console_env "Proceed?" (Some ["proceed"; "stop"])
    (set_stdin ["yes"; "3"] init)
  = (Raise EOFError, set_stdin [] (set_stdin ["yes"; "3"] init)).
Proof.
  apply (human_feedback_end_of_input console_env "Proceed?" ["proceed"; "stop"]
           (set_stdin ["yes"; "3"] init)).
  - reflexivity.
  - discriminate.
  - repeat constructor. vm_compute. intros [_ H]. by apply H.
Defined.

(** ** More on the execution guard *)

Lemma run_agent_no_attempt (E : env) (n : string) (a : collaborator)
    (i : gmap string value) (σ : orchestrator) :
  max_retries (config E) ≤ 0 → agents E !! n = Some a →
  run_agent E n i σ = (Ok None, σ).
Proof.
  intros Hmax Ha. unfold run_agent. rewrite Ha.
  by replace (Z.to_nat (max_retries (config E))) with O by lia.
Qed.

(** X11: with [max_retries] at 0 or below the loop body never runs:
    [run_agent] on a registered agent and [run_tool] on a registered tool
    invoke nothing and return [None], neither a result nor a failure; the
    full-validation and the market-only workflow then raise [AttributeError]
    on [market_result.success] instead of returning a report. *)
Theorem no_attempt_configured (E : env) (X : externals) (name : string) (c : collaborator)
    (arg input_data : gmap string value) (startup_idea : StartupIdea) (σ : orchestrator) :
  max_retries (config E) ≤ 0 →
  (agents E !! name = Some c → run_agent E name arg σ = (Ok None, σ)) ∧
  (tools E !! name = Some c → run_tool E name arg σ = (Ok None, σ)) ∧
  (agents E !! "market_researcher" = Some c →
   _parse_startup_idea X input_data = Ok startup_idea →
   workflow_full_validation E X input_data σ = (Raise AttributeError, σ) ∧
   workflow_market_only E X input_data σ = (Raise AttributeError, σ)).
Proof.
  intros Hmax. split; [|split].
  - by apply run_agent_no_attempt.
  - intros Ha. unfold run_tool. rewrite Ha.
    by replace (Z.to_nat (max_retries (config E))) with O by lia.
  - intros Ha Hparse.
    unfold workflow_full_validation, workflow_market_only.
    unfold mbind, M_bind, lift. rewrite Hparse.
    by rewrite (run_agent_no_attempt E _ c _ σ Hmax Ha).
Qed.

Lemma no_attempt_configured_witness :
  (agents (no_retry_env (always (Returns (ObjDict ∅)))) !! "mvp_planner"
     = Some (always (Returns (ObjDict ∅))) →
   run_agent (no_retry_env (always (Returns (ObjDict ∅)))) "mvp_planner" ∅ init
   = (Ok None, init)) ∧
  (tools (no_retry_env (always (Returns (ObjDict ∅)))) !! "mvp_planner"
     = Some (always (Returns (ObjDict ∅))) →
   run_tool (no_retry_env (always (Returns (ObjDict ∅)))) "mvp_planner" ∅ init
   = (Ok None, init)) ∧
  (agents (no_retry_env (always (Returns (ObjDict ∅)))) !! "market_researcher"
     = Some (always (Returns (ObjDict ∅))) →
   _parse_startup_idea sample_externals sample_input = Ok sample_idea →
   workflow_full_validation (no_retry_env (always (Returns (ObjDict ∅)))) sample_externals
     sample_input init = (Raise AttributeError, init) ∧
   workflow_market_only (no_retry_env (always (Returns (ObjDict ∅)))) sample_externals
     sample_input init = (Raise AttributeError, init)).
Proof.
  apply (no_attempt_configured (no_retry_env (always (Returns (ObjDict ∅)))) sample_externals
           "mvp_planner" (always (Returns (ObjDict ∅))) ∅ sample_input sample_idea init).
  vm_compute. discriminate.
Defined.

(** X12: after exhaustion the failure reported is that of the last
    attempt: when no attempt returns and the last one raises an exception with
    text [msg], [run_agent] returns [{"error": msg}] with [success = False]
    and [run_tool] returns [{"status": "error", "message": "Tool execution
    failed: msg"}], whatever the earlier attempts failed with. *)
Theorem exhaustion_reports_last_failure (E : env) (name : string) (c : collaborator)
    (arg : gmap string value) (msg : string) (σ : orchestrator) :
  1 ≤ max_retries (config E) →
  (∀ j, (j < Z.to_nat (max_retries (config E)))%nat →
        ∀ r, c (length (calls σ) + j)%nat arg ≠ Returns r) →
  c (length (calls σ) + Nat.pred (Z.to_nat (max_retries (config E))))%nat arg = Raises msg →
  (agents E !! name = Some c →
   (run_agent E name arg σ).1
   = Ok (Some {| agent_name := name; message_type := "error";
                 content := {[ "error" := VStr msg ]};
                 success := false; metadata := None |})) ∧
  (tools E !! name = Some c →
   (run_tool E name arg σ).1
   = Ok (Some (ObjDict {[ "status" := VStr "error";
                          "message" := VStr ("Tool execution failed: " ++ msg) ]}))).
Proof.
  intros Hmax Hfail Hlast. split; intros Hc.
  - rewrite (run_agent_spec E name c arg σ Hc Hmax).
    rewrite (first_return_None _ _ _ _ Hfail). by rewrite Hlast.
  - rewrite (run_tool_spec E name c arg σ Hc Hmax).
    rewrite (first_return_None _ _ _ _ Hfail). by rewrite Hlast.
Qed.

Lemma exhaustion_reports_last_failure_witness :
  (agents (guard_env numbered_failures) !! "analyst" = Some numbered_failures →
   (run_agent (guard_env numbered_failures) "analyst" ∅ init).1
   = Ok (Some {| agent_name := "analyst"; message_type := "error";
                 content := {[ "error" := VStr "last" ]};
                 success := false; metadata := None |})) ∧
  (tools (guard_env numbered_failures) !! "analyst" = Some numbered_failures →
   (run_tool (guard_env numbered_failures) "analyst" ∅ init).1
   = Ok (Some (ObjDict {[ "status" := VStr "error";
                          "message" := VStr ("Tool execution failed: " ++ "last") ]}))).
Proof.
  apply (exhaustion_reports_last_failure (guard_env numbered_failures) "analyst"
           numbered_failures ∅ "last" init).
  - vm_compute. discriminate.
  - intros [|[|j]] _ r; discriminate.
  - reflexivity.
Defined.

Lemma run_agent_attempts_frame (E : env) (n : string) (a : collaborator)
    (i : gmap string value) (remaining : nat) :
  ∀ attempt σ,
    let σ' := (run_agent_attempts E n a i attempt remaining σ).2 in
    current_workflow σ' = current_workflow σ ∧ ticks σ' = ticks σ ∧ stdin σ' = stdin σ ∧
    (results_store σ' = results_store σ ∨
     ∃ w result, checkpoint_workflow E σ = Some w ∧
                 results_store σ' = <[w ++ "_" ++ n := result]> (results_store σ)).
Proof.
  induction remaining as [|r IH]; intros attempt σ; [cbn; auto|].
  cbn [run_agent_attempts]. unfold mbind, M_bind, invoke.
  set (σ1 := set_calls (calls σ ++ [(n, i)]) σ).
  assert (Hσ1 : let σ' := (run_agent_attempts E n a i (attempt + 1) r σ1).2 in
            current_workflow σ' = current_workflow σ ∧ ticks σ' = ticks σ ∧
            stdin σ' = stdin σ ∧
            (results_store σ' = results_store σ ∨
             ∃ w result, checkpoint_workflow E σ = Some w ∧
                         results_store σ' = <[w ++ "_" ++ n := result]> (results_store σ)))
    by apply (IH (attempt + 1) σ1).
  destruct (a (length (calls σ)) i) as [result| |msg].
  - destruct (save_intermediate_spec E n result σ1) as (σ2 & Hsave & Hstore & Hw & _ & Ht & Hs).
    rewrite Hsave. cbn [snd mret M_ret].
    split; [by rewrite Hw|]. split; [by rewrite Ht|]. split; [by rewrite Hs|].
    change (checkpoint_workflow E σ1) with (checkpoint_workflow E σ) in Hstore.
    destruct (checkpoint_workflow E σ) as [w|]; [right; eauto | by left].
  - destruct (attempt =? max_retries (config E) - 1); [cbn; auto | apply Hσ1].
  - destruct (attempt =? max_retries (config E) - 1); [cbn; auto | apply Hσ1].
Qed.

Lemma run_tool_attempts_frame (E : env) (n : string) (a : collaborator)
    (i : gmap string value) (remaining : nat) :
  ∀ attempt σ,
    let σ' := (run_tool_attempts E n a i attempt remaining σ).2 in
    current_workflow σ' = current_workflow σ ∧ ticks σ' = ticks σ ∧ stdin σ' = stdin σ ∧
    (results_store σ' = results_store σ ∨
     ∃ w result, checkpoint_workflow E σ = Some w ∧
                 results_store σ' = <[w ++ "_" ++ n := result]> (results_store σ)).
Proof.
  induction remaining as [|r IH]; intros attempt σ; [cbn; auto|].
  cbn [run_tool_attempts]. unfold mbind, M_bind, invoke.
  set (σ1 := set_calls (calls σ ++ [(n, i)]) σ).
  assert (Hσ1 : let σ' := (run_tool_attempts E n a i (attempt + 1) r σ1).2 in
            current_workflow σ' = current_workflow σ ∧ ticks σ' = ticks σ ∧
            stdin σ' = stdin σ ∧
            (results_store σ' = results_store σ ∨
             ∃ w result, checkpoint_workflow E σ = Some w ∧
                         results_store σ' = <[w ++ "_" ++ n := result]> (results_store σ)))
    by apply (IH (attempt + 1) σ1).
  destruct (a (length (calls σ)) i) as [result| |msg].
  - destruct (save_intermediate_spec E n result σ1) as (σ2 & Hsave & Hstore & Hw & _ & Ht & Hs).
    rewrite Hsave. cbn [snd mret M_ret].
    split; [by rewrite Hw|]. split; [by rewrite Ht|]. split; [by rewrite Hs|].
    change (checkpoint_workflow E σ1) with (checkpoint_workflow E σ) in Hstore.
    destruct (checkpoint_workflow E σ) as [w|]; [right; eauto | by left].
  - destruct (attempt =? max_retries (config E) - 1); [cbn; auto | apply Hσ1].
  - destruct (attempt =? max_retries (config E) - 1); [cbn; auto | apply Hσ1].
Qed.

(** X13: whatever the collaborators do and however the call ends,
    [run_agent] and [run_tool] never change the current workflow name, the
    clock or the console input, and they change the results mapping at most
    at the one key [w_name] of the executing workflow [w]: outside a workflow,
    or with persistence disabled, the mapping stays as it was. *)
Theorem guard_frame (E : env) (name : string) (arg : gmap string value) (σ : orchestrator) :
  (let σ' := (run_agent E name arg σ).2 in
   current_workflow σ' = current_workflow σ ∧ ticks σ' = ticks σ ∧ stdin σ' = stdin σ ∧
   (∀ key, (∀ w, current_workflow σ = Some w → key ≠ (w ++ "_" ++ name)%string) →
           results_store σ' !! key = results_store σ !! key) ∧
   (current_workflow σ = None ∨ save_intermediate_results (config E) = false →
    results_store σ' = results_store σ)) ∧
  (let σ' := (run_tool E name arg σ).2 in
   current_workflow σ' = current_workflow σ ∧ ticks σ' = ticks σ ∧ stdin σ' = stdin σ ∧
   (∀ key, (∀ w, current_workflow σ = Some w → key ≠ (w ++ "_" ++ name)%string) →
           results_store σ' !! key = results_store σ !! key) ∧
   (current_workflow σ = None ∨ save_intermediate_results (config E) = false →
    results_store σ' = results_store σ)).
Proof.
  assert (Hkey : ∀ σ' : orchestrator,
            (results_store σ' = results_store σ ∨
             ∃ w result, checkpoint_workflow E σ = Some w ∧
                         results_store σ' = <[w ++ "_" ++ name := result]> (results_store σ)) →
            (∀ key, (∀ w, current_workflow σ = Some w → key ≠ (w ++ "_" ++ name)%string) →
                    results_store σ' !! key = results_store σ !! key) ∧
            (current_workflow σ = None ∨ save_intermediate_results (config E) = false →
             results_store σ' = results_store σ)).
  { intros σ' [->|(w & result & Hw & ->)]; [done|].
    unfold checkpoint_workflow in Hw.
    destruct (save_intermediate_results (config E)); [|done].
    destruct (current_workflow σ) as [w'|]; [|done].
    destruct (String.eqb w' ""); [done|]. injection Hw as ->.
    split; [|by intros [|]].
    intros key Hne. rewrite lookup_insert_ne; [done|]. intros <-. by apply (Hne w). }
  split; cbv zeta.
  - unfold run_agent. destruct (agents E !! name) as [a|];
      [|cbn [raise snd]; do 3 (split; [done|]); apply (Hkey σ); by left].
    unfold mbind, M_bind.
    destruct (run_agent_attempts_frame E name a arg
                (Z.to_nat (max_retries (config E))) 0 σ) as (Hw & Ht & Hs & Hstore).
    destruct (run_agent_attempts_returns E name a arg
                (Z.to_nat (max_retries (config E))) 0 σ) as (x & σ' & Hrun).
    rewrite Hrun in *. cbn [snd] in *.
    destruct x; cbn [snd mret M_ret]; do 3 (split; [done|]); by apply Hkey.
  - unfold run_tool. destruct (tools E !! name) as [a|];
      [|cbn [raise snd]; do 3 (split; [done|]); apply (Hkey σ); by left].
    unfold mbind, M_bind.
    destruct (run_tool_attempts_frame E name a arg
                (Z.to_nat (max_retries (config E))) 0 σ) as (Hw & Ht & Hs & Hstore).
    destruct (run_tool_attempts_returns E name a arg
                (Z.to_nat (max_retries (config E))) 0 σ) as (x & σ' & Hrun).
    rewrite Hrun in *. cbn [snd] in *.
    destruct x; cbn [snd mret M_ret]; do 3 (split; [done|]); by apply Hkey.
Qed.

(** ** The partial workflows *)

Lemma run_agent_attempts_calls (E : env) (n : string) (a : collaborator)
    (i : gmap string value) (remaining : nat) :
  ∀ attempt σ, ∃ k : nat,
    (k ≤ remaining)%nat ∧
    calls (run_agent_attempts E n a i attempt remaining σ).2
    = (calls σ ++ replicate k (n, i))%list.
Proof.
  induction remaining as [|r IH]; intros attempt σ.
  { exists O. cbn. by rewrite app_nil_r. }
  cbn [run_agent_attempts]. unfold mbind, M_bind, invoke.
  set (σ1 := set_calls (calls σ ++ [(n, i)]) σ).
  assert (Hσ1 : ∃ k : nat, (k ≤ S r)%nat ∧
            calls (run_agent_attempts E n a i (attempt + 1) r σ1).2
            = (calls σ ++ replicate k (n, i))%list).
  { destruct (IH (attempt + 1) σ1) as (k & Hk & ->). exists (S k).
    split; [lia|]. unfold σ1. cbn [calls set_calls]. by rewrite <- app_assoc. }
  destruct (a (length (calls σ)) i) as [result| |msg].
  - destruct (save_intermediate_spec E n result σ1) as (σ2 & -> & _ & _ & Hcalls & _).
    exists 1%nat. split; [lia|]. cbn [snd mret M_ret]. by rewrite Hcalls.
  - destruct (attempt =? max_retries (config E) - 1); [|done].
    exists 1%nat. split; [lia | done].
  - destruct (attempt =? max_retries (config E) - 1); [|done].
    exists 1%nat. split; [lia | done].
Qed.

(** The calls that a call of [run_agent] adds. *)
Lemma run_agent_calls (E : env) (n : string) (i : gmap string value)
    (σ σ' : orchestrator) (r : res (option AgentOutput)) :
  run_agent E n i σ = (r, σ') →
  ∃ k : nat, Z.of_nat k ≤ Z.max 0 (max_retries (config E)) ∧
             calls σ' = (calls σ ++ replicate k (n, i))%list.
Proof.
  unfold run_agent. destruct (agents E !! n) as [a|].
  - unfold mbind, M_bind.
    destruct (run_agent_attempts_calls E n a i (Z.to_nat (max_retries (config E))) 0 σ)
      as (k & Hk & Hcalls).
    destruct (run_agent_attempts_returns E n a i (Z.to_nat (max_retries (config E))) 0 σ)
      as (x & σ1 & Hrun).
    rewrite Hrun in *. cbn [snd] in Hcalls.
    destruct x; intros [= _ <-]; exists k; (split; [lia | done]).
  - intros [= _ <-]. exists O. split; [lia|]. by rewrite app_nil_r.
Qed.

Lemma _generate_error_report_spec X msg i m c p σ :
  ∃ report,
    _generate_error_report X msg i m c p σ = (Ok report, set_ticks (S (ticks σ)) σ) ∧
    report !! "success" = Some (VBool false) ∧
    report !! "error" = Some (VStr msg) ∧
    report !! "idea" = Some (VDict (StartupIdea_dict i)) ∧
    report !! "timestamp" = Some (VStr (isoformat X (ticks σ))) ∧
    report !! "market_analysis" = VDict <$> given m ∧
    report !! "competitor_analysis" = VDict <$> given c ∧
    report !! "mvp_plan" = None ∧
    report !! "validation_score" = None ∧
    report !! "recommendations" = None ∧
    report !! "status" = None.
Proof.
  unfold _generate_error_report, now, mbind, M_bind, get, modify, mret, M_ret.
  eexists. split; [reflexivity|].
  destruct (given m), (given c), (given p); cbn [fmap option_fmap option_map];
    rewrite ?lookup_insert_eq, ?lookup_insert_ne by done;
    repeat split; by vm_compute.
Qed.

(** X14: whenever [workflow_market_only] returns a report, the idea was
    parsed and the only collaborator invoked is the market researcher, at most
    [max_retries] times and always with the idea and the search terms.  The
    report is either the error report of a failed stage, without market data,
    or exactly the idea, the market payload (also an empty one) and a
    timestamp, checkpointed under ["market_only_report"]; it never carries a
    score or recommendations. *)
Theorem market_only_outcomes (E : env) (X : externals) (input_data report : gmap string value)
    (σ σ' : orchestrator) :
  workflow_market_only E X input_data σ = (Ok report, σ') →
  ∃ (startup_idea : StartupIdea) (k : nat),
    _parse_startup_idea X input_data = Ok startup_idea ∧
    calls σ'
    = (calls σ ++ replicate k
         ("market_researcher",
          {[ "idea" := VDict (StartupIdea_dict startup_idea);
             "search_terms" := default (VList []) (input_data !! "search_terms") ]}))%list ∧
    Z.of_nat k ≤ Z.max 0 (max_retries (config E)) ∧
    report !! "validation_score" = None ∧
    report !! "recommendations" = None ∧
    ((report !! "success" = Some (VBool false) ∧
      report !! "error" = Some (VStr "Market research failed") ∧
      report !! "idea" = Some (VDict (StartupIdea_dict startup_idea)) ∧
      report !! "market_analysis" = None) ∨
     (∃ (market_data : gmap string value) (ts : string),
        report = {[ "idea" := VDict (StartupIdea_dict startup_idea);
                    "market_analysis" := VDict market_data;
                    "timestamp" := VStr ts ]} ∧
        results_store σ' !! "market_only_report" = Some (ObjDict report))).
Proof.
  unfold workflow_market_only.
  step startup_idea σ0. step market_result σ1. step market_output σ1'.
  match goal with
  | H : lift _ _ = _ |- _ => unfold lift in H; injection H as Hparse <-
  end.
  match goal with
  | H : run_agent _ _ _ _ = _ |- _ => apply run_agent_calls in H as (k & Hk & Hcalls)
  end.
  match goal with
  | H : the_output _ _ = _ |- _ =>
      unfold the_output in H; destruct market_result; [|discriminate];
      injection H as -> ->
  end.
  intros Hrest. exists startup_idea, k. split; [done|]. revert Hrest.
  destruct (success market_output); cbn [negb].
  - step ts σ2. step u σ3. intros [= <- <-].
    match goal with
    | H : now _ _ = _ |- _ =>
        unfold now, mbind, M_bind, get, modify, mret, M_ret in H; injection H as <- <-
    end.
    match goal with
    | H : _save_result E ?key ?r ?s = _ |- _ =>
        destruct (_save_result_spec E key r s) as (σ4 & Hsave & Hstore & _ & Hc & _);
        rewrite Hsave in H; injection H as _ <-
    end.
    rewrite Hc. cbn [calls set_ticks]. split; [done|]. split; [done|].
    split; [by vm_compute|]. split; [by vm_compute|].
    right. eexists _, _. split; [reflexivity|]. rewrite Hstore. by rewrite lookup_insert_eq.
  - intros Hreport.
    destruct (_generate_error_report_spec X "Market research failed" startup_idea
                None None None σ1') as (rep & Hrep & Hs & He & Hi & _ & Hm & _ & _ & Hv & Hr & _).
    rewrite Hrep in Hreport. injection Hreport as <- <-.
    cbn [calls set_ticks]. split; [done|]. split; [done|].
    split; [done|]. split; [done|]. left. by rewrite Hm.
Qed.

Lemma market_only_outcomes_witness :
  ∃ (startup_idea : StartupIdea) (k : nat),
    _parse_startup_idea sample_externals sample_input = Ok startup_idea ∧
    calls (workflow_market_only (pipeline_env (ObjDict example_market)) sample_externals
             sample_input init).2
    = (calls init ++ replicate k
         ("market_researcher",
          {[ "idea" := VDict (StartupIdea_dict startup_idea);
             "search_terms" := default (VList []) (sample_input !! "search_terms") ]}))%list ∧
    Z.of_nat k ≤ Z.max 0 (max_retries (config (pipeline_env (ObjDict example_market)))) ∧
    market_only_sample_report !! "validation_score" = None ∧
    market_only_sample_report !! "recommendations" = None ∧
    ((market_only_sample_report !! "success" = Some (VBool false) ∧
      market_only_sample_report !! "error" = Some (VStr "Market research failed") ∧
      market_only_sample_report !! "idea" = Some (VDict (StartupIdea_dict startup_idea)) ∧
      market_only_sample_report !! "market_analysis" = None) ∨
     (∃ (market_data : gmap string value) (ts : string),
        market_only_sample_report = {[ "idea" := VDict (StartupIdea_dict startup_idea);
             "market_analysis" := VDict market_data;
             "timestamp" := VStr ts ]} ∧
        results_store (workflow_market_only (pipeline_env (ObjDict example_market))
                         sample_externals sample_input init).2 !! "market_only_report"
        = Some (ObjDict market_only_sample_report))).
Proof.
  apply (market_only_outcomes (pipeline_env (ObjDict example_market)) sample_externals
           sample_input
           market_only_sample_report
           init
           (workflow_market_only (pipeline_env (ObjDict example_market)) sample_externals
              sample_input init).2).
  vm_compute. reflexivity.
Defined.

Lemma missing_keys_cases (input_data : gmap string value) :
  missing_keys input_data
  = ((if input_data !! "market_data" is Some _ then [] else ["market_data"]) ++
     (if input_data !! "competitor_data" is Some _ then [] else ["competitor_data"]) ++
     (if input_data !! "customer_personas" is Some _ then [] else ["customer_personas"]))%list.
Proof.
  unfold missing_keys, required_keys. cbn [List.filter].
  destruct (input_data !! "market_data"), (input_data !! "competitor_data"),
    (input_data !! "customer_personas"); reflexivity.
Qed.

(** X15: when one of the three required payloads is absent from the
    input of [workflow_mvp_only], and the idea parses, the workflow returns
    [{"error": ..., "success": False}] with an error text that starts with
    ["Missing required data: "] and names the absent key; the orchestrator is
    left exactly as it was: no collaborator is invoked, nothing is
    checkpointed and the clock is not read. *)
Theorem mvp_only_missing_data (E : env) (X : externals) (input_data : gmap string value)
    (startup_idea : StartupIdea) (key : string) (σ : orchestrator) :
  _parse_startup_idea X input_data = Ok startup_idea →
  key ∈ required_keys →
  input_data !! key = None →
  ∃ error_msg,
    workflow_mvp_only E X input_data σ
    = (Ok {[ "error" := VStr error_msg; "success" := VBool false ]}, σ) ∧
    error_msg = ("Missing required data: " ++ str_join ", " (missing_keys input_data))%string ∧
    key ∈ missing_keys input_data ∧
    substringb key error_msg = true.
Proof.
  intros Hparse Hkey Hnone.
  assert (Hin : key ∈ missing_keys input_data).
  { unfold missing_keys. apply list_elem_of_In, filter_In. split; [by apply list_elem_of_In|].
    rewrite Hnone. reflexivity. }
  eexists. split; [|split; [reflexivity|split; [done|]]].
  - unfold workflow_mvp_only, mbind, M_bind, lift. rewrite Hparse.
    destruct (missing_keys input_data); [by apply elem_of_nil in Hin | reflexivity].
  - clear Hin. unfold required_keys in Hkey.
    rewrite missing_keys_cases.
    repeat (apply elem_of_cons in Hkey as [->|Hkey]); [| | |by apply elem_of_nil in Hkey];
      rewrite Hnone;
      destruct (input_data !! "market_data"), (input_data !! "competitor_data"),
        (input_data !! "customer_personas"); try discriminate; reflexivity.
Qed.

Lemma mvp_only_missing_data_witness :
  ∃ error_msg,
    workflow_mvp_only (pipeline_env (ObjDict ∅)) sample_externals
      mvp_input_without_competitors init
    = (Ok {[ "error" := VStr error_msg; "success" := VBool false ]}, init) ∧
    error_msg = ("Missing required data: "
                 ++ str_join ", " (missing_keys mvp_input_without_competitors))%string ∧
    "competitor_data" ∈ missing_keys mvp_input_without_competitors ∧
    substringb "competitor_data" error_msg = true.
Proof.
  apply (mvp_only_missing_data (pipeline_env (ObjDict ∅)) sample_externals
           mvp_input_without_competitors sample_idea "competitor_data" init).
  - vm_compute. reflexivity.
  - unfold required_keys. rewrite !elem_of_cons. tauto.
  - vm_compute. reflexivity.
Defined.

(** ** What a guarded call leaves behind *)

Lemma run_agent_attempts_trace (E : env) (n : string) (a : collaborator)
    (i : gmap string value) (remaining : nat) :
  ∀ attempt σ, ∃ k : nat,
    (k ≤ remaining)%nat ∧
    calls (run_agent_attempts E n a i attempt remaining σ).2
    = (calls σ ++ replicate k (n, i))%list ∧
    ((run_agent_attempts E n a i attempt remaining σ).1 = Ok Finished ∨ (1 ≤ k)%nat).
Proof.
  induction remaining as [|r IH]; intros attempt σ.
  { exists O. cbn. rewrite app_nil_r. auto. }
  cbn [run_agent_attempts]. unfold mbind, M_bind, invoke.
  set (σ1 := set_calls (calls σ ++ [(n, i)]) σ).
  assert (Hσ1 : ∃ k : nat, (k ≤ S r)%nat ∧
            calls (run_agent_attempts E n a i (attempt + 1) r σ1).2
            = (calls σ ++ replicate k (n, i))%list ∧
            ((run_agent_attempts E n a i (attempt + 1) r σ1).1 = Ok Finished ∨ (1 ≤ k)%nat)).
  { destruct (IH (attempt + 1) σ1) as (k & Hk & -> & _). exists (S k).
    split; [lia|]. unfold σ1. cbn [calls set_calls].
    rewrite <- app_assoc. split; [done | right; lia]. }
  destruct (a (length (calls σ)) i) as [result| |msg].
  - destruct (save_intermediate_spec E n result σ1) as (σ2 & -> & _ & _ & Hcalls & _).
    exists 1%nat. split; [lia|]. cbn [snd mret M_ret]. rewrite Hcalls. auto.
  - destruct (attempt =? max_retries (config E) - 1); [|done].
    exists 1%nat. split; [lia | auto].
  - destruct (attempt =? max_retries (config E) - 1); [|done].
    exists 1%nat. split; [lia | auto].
Qed.

(** A call of [run_agent]: the invocations it adds, all of the one agent
    with the one argument, and what it leaves alone. *)
Lemma run_agent_effect (E : env) (n : string) (i : gmap string value)
    (σ σ' : orchestrator) (r : res (option AgentOutput)) :
  run_agent E n i σ = (r, σ') →
  ∃ k : nat, Z.of_nat k ≤ Z.max 0 (max_retries (config E)) ∧
             calls σ' = (calls σ ++ replicate k (n, i))%list ∧
             ticks σ' = ticks σ ∧ stdin σ' = stdin σ ∧
             current_workflow σ' = current_workflow σ ∧
             (∀ o, r = Ok (Some o) → (1 ≤ k)%nat).
Proof.
  unfold run_agent. destruct (agents E !! n) as [a|].
  - unfold mbind, M_bind.
    destruct (run_agent_attempts_trace E n a i (Z.to_nat (max_retries (config E))) 0 σ)
      as (k & Hk & Hcalls & Hone).
    destruct (run_agent_attempts_frame E n a i (Z.to_nat (max_retries (config E))) 0 σ)
      as (Hw & Ht & Hs & _).
    destruct (run_agent_attempts_returns E n a i (Z.to_nat (max_retries (config E))) 0 σ)
      as (x & σ1 & Hrun).
    rewrite Hrun in *. cbn [fst snd] in *.
    destruct x; intros [= <- <-]; exists k;
      (split; [lia|]); do 4 (split; [done|]); intros o [=];
      destruct Hone as [[=]|]; done.
  - intros [= <- <-]. exists O. split; [lia|]. rewrite app_nil_r.
    do 4 (split; [done|]). intros o [=].
Qed.

(** The output that a stage goes on with came out of at least one
    invocation. *)
Lemma the_output_inv (result : option AgentOutput) (o : AgentOutput) (σ σ' : orchestrator) :
  the_output result σ = (Ok o, σ') → result = Some o ∧ σ' = σ.
Proof. destruct result; intros [=]; by subst. Qed.

Lemma now_spec (X : externals) (σ : orchestrator) :
  now X σ = (Ok (isoformat X (ticks σ)), set_ticks (S (ticks σ)) σ).
Proof. reflexivity. Qed.

(** X16: whenever [workflow_mvp_only] returns on an input with the three
    required payloads, the idea was parsed and the only collaborator invoked
    is the MVP planner, at least once and at most [max_retries] times, always
    with the idea and the three payloads as the input holds them.  Either the
    planner failed: the report is exactly
    [{"error": "MVP planning failed", "success": False}], without the idea and
    without a timestamp, and the clock was not read; or the report is exactly
    the idea, the plan and a timestamp, checkpointed under
    ["mvp_only_report"], after one reading of the clock. *)
Theorem mvp_only_outcomes (E : env) (X : externals) (input_data report : gmap string value)
    (σ σ' : orchestrator) :
  workflow_mvp_only E X input_data σ = (Ok report, σ') →
  missing_keys input_data = [] →
  ∃ (startup_idea : StartupIdea) (market_data competitor_data persona_data : value)
    (k : nat),
    _parse_startup_idea X input_data = Ok startup_idea ∧
    input_data !! "market_data" = Some market_data ∧
    input_data !! "competitor_data" = Some competitor_data ∧
    input_data !! "customer_personas" = Some persona_data ∧
    calls σ'
    = (calls σ ++ replicate k
         ("mvp_planner",
          {[ "idea" := VDict (StartupIdea_dict startup_idea);
             "market_data" := market_data;
             "competitor_data" := competitor_data;
             "customer_personas" := persona_data ]}))%list ∧
    (1 ≤ k)%nat ∧ Z.of_nat k ≤ max_retries (config E) ∧
    ((report = {[ "error" := VStr "MVP planning failed"; "success" := VBool false ]} ∧
      ticks σ' = ticks σ) ∨
     (∃ mvp_data : gmap string value,
        report = {[ "idea" := VDict (StartupIdea_dict startup_idea);
                    "mvp_plan" := VDict mvp_data;
                    "timestamp" := VStr (isoformat X (ticks σ)) ]} ∧
        ticks σ' = S (ticks σ) ∧
        results_store σ' !! "mvp_only_report" = Some (ObjDict report))).
Proof.
  intros Hrun Hmissing. revert Hrun.
  unfold workflow_mvp_only. rewrite Hmissing.
  step startup_idea σ0. step market_data σ0a. step competitor_data σ0b.
  step persona_data σ0c. step mvp_result σ1. step mvp_output σ1'.
  repeat match goal with
  | H : lift ?r _ = _ |- _ => unfold lift in H; injection H as ? <-
  end.
  repeat match goal with
  | H : match input_data !! ?key with _ => _ end = Ok ?v |- _ =>
      destruct (input_data !! key); [injection H as -> | discriminate]
  end.
  match goal with
  | H : the_output _ _ = _ |- _ => apply the_output_inv in H as [-> ->]
  end.
  match goal with
  | H : run_agent _ _ _ _ = _ |- _ =>
      apply run_agent_effect in H as (k & Hk & Hcalls & Hticks & _ & _ & Hone)
  end.
  specialize (Hone _ eq_refl).
  intros Hrest. exists startup_idea, market_data, competitor_data, persona_data, k.
  do 4 (split; [done|]). revert Hrest.
  destruct (success mvp_output); cbn [negb].
  - step ts σ2. step u σ3. intros [= <- <-].
    match goal with
    | H : now _ _ = _ |- _ => rewrite now_spec in H; injection H as <- <-
    end.
    match goal with
    | H : _save_result E ?key ?r ?s = _ |- _ =>
        destruct (_save_result_spec E key r s) as (σ4 & Hsave & Hstore & _ & Hc & Ht & _);
        rewrite Hsave in H; injection H as _ <-
    end.
    rewrite Hc, Ht. cbn [calls ticks set_ticks]. split; [done|]. split; [done|].
    split; [lia|]. right. eexists. split; [by rewrite Hticks|].
    split; [by rewrite Hticks|]. rewrite Hstore, lookup_insert_eq. by rewrite Hticks.
  - intros [= <- <-]. split; [done|]. split; [done|]. split; [lia|]. by left.
Qed.

Lemma mvp_only_outcomes_witness :
  ∃ (startup_idea : StartupIdea) (market_data competitor_data persona_data : value)
    (k : nat),
    _parse_startup_idea sample_externals mvp_input = Ok startup_idea ∧
    mvp_input !! "market_data" = Some market_data ∧
    mvp_input !! "competitor_data" = Some competitor_data ∧
    mvp_input !! "customer_personas" = Some persona_data ∧
    calls (workflow_mvp_only (pipeline_env (ObjDict example_mvp)) sample_externals
             mvp_input init).2
    = (calls init ++ replicate k
         ("mvp_planner",
          {[ "idea" := VDict (StartupIdea_dict startup_idea);
             "market_data" := market_data;
             "competitor_data" := competitor_data;
             "customer_personas" := persona_data ]}))%list ∧
    (1 ≤ k)%nat ∧
    Z.of_nat k ≤ max_retries (config (pipeline_env (ObjDict example_mvp))) ∧
    ((mvp_only_sample_report = {[ "error" := VStr "MVP planning failed"; "success" := VBool false ]} ∧
      ticks (workflow_mvp_only (pipeline_env (ObjDict example_mvp)) sample_externals
               mvp_input init).2 = ticks init) ∨
     (∃ mvp_data : gmap string value,
        mvp_only_sample_report = {[ "idea" := VDict (StartupIdea_dict startup_idea);
             "mvp_plan" := VDict mvp_data;
             "timestamp" := VStr (isoformat sample_externals (ticks init)) ]} ∧
        ticks (workflow_mvp_only (pipeline_env (ObjDict example_mvp)) sample_externals
                 mvp_input init).2 = S (ticks init) ∧
        results_store (workflow_mvp_only (pipeline_env (ObjDict example_mvp)) sample_externals
                         mvp_input init).2 !! "mvp_only_report"
        = Some (ObjDict mvp_only_sample_report))).
Proof.
  apply (mvp_only_outcomes (pipeline_env (ObjDict example_mvp)) sample_externals mvp_input
           mvp_only_sample_report
           init
           (workflow_mvp_only (pipeline_env (ObjDict example_mvp)) sample_externals
              mvp_input init).2).
  - vm_compute. reflexivity.
  - vm_compute. reflexivity.
Defined.

(** X17: an input whose idea does not parse stops each of the three
    workflows before anything else happens: the exception of
    [_parse_startup_idea] is the workflow's, and the orchestrator is left
    exactly as it was (no collaborator invoked, nothing checkpointed, the
    clock not read).  Unless the input holds a mapping under ["idea"], that
    exception is [ValueError("Invalid startup idea format")], whatever the
    validation of the model raised. *)
Theorem unparsed_idea_stops_every_workflow (E : env) (X : externals)
    (input_data : gmap string value) (e : exn) (σ : orchestrator) :
  _parse_startup_idea X input_data = Raise e →
  workflow_full_validation E X input_data σ = (Raise e, σ) ∧
  workflow_market_only E X input_data σ = (Raise e, σ) ∧
  workflow_mvp_only E X input_data σ = (Raise e, σ) ∧
  ((∀ idea_data, input_data !! "idea" ≠ Some (VDict idea_data)) →
   e = ValueError "Invalid startup idea format").
Proof.
  intros Hparse.
  unfold workflow_full_validation, workflow_market_only, workflow_mvp_only.
  unfold mbind at 1. unfold M_bind at 1.
  split; [|split; [|split]].
  - unfold lift. by rewrite Hparse.
  - unfold mbind at 1. unfold M_bind at 1. unfold lift. by rewrite Hparse.
  - unfold mbind at 1. unfold M_bind at 1. unfold lift. by rewrite Hparse.
  - intros Hidea. unfold _parse_startup_idea in Hparse.
    destruct (input_data !! "idea") as [[| | | | | |idea_data]|];
      try (destruct (StartupIdea_new X input_data); congruence).
    by destruct (Hidea idea_data).
Qed.

Lemma unparsed_idea_stops_every_workflow_witness :
  workflow_full_validation (pipeline_env (ObjDict ∅)) sample_externals
    {[ "idea" := VStr "an app" ]} init
  = (Raise (ValueError "Invalid startup idea format"), init) ∧
  workflow_market_only (pipeline_env (ObjDict ∅)) sample_externals
    {[ "idea" := VStr "an app" ]} init
  = (Raise (ValueError "Invalid startup idea format"), init) ∧
  workflow_mvp_only (pipeline_env (ObjDict ∅)) sample_externals
    {[ "idea" := VStr "an app" ]} init
  = (Raise (ValueError "Invalid startup idea format"), init) ∧
  ((∀ idea_data,
      ({[ "idea" := VStr "an app" ]} : gmap string value) !! "idea" ≠ Some (VDict idea_data)) →
   ValueError "Invalid startup idea format" = ValueError "Invalid startup idea format").
Proof.
  apply (unparsed_idea_stops_every_workflow (pipeline_env (ObjDict ∅)) sample_externals
           {[ "idea" := VStr "an app" ]} (ValueError "Invalid startup idea format") init).
  vm_compute. reflexivity.
Defined.

(** ** The full pipeline *)

Lemma get_human_feedback_frame (E : env) (message : string) (options : option (list string))
    (σ σ' : orchestrator) (r : res string) :
  get_human_feedback E message options σ = (r, σ') →
  calls σ' = calls σ ∧ ticks σ' = ticks σ ∧ results_store σ' = results_store σ ∧
  current_workflow σ' = current_workflow σ.
Proof.
  unfold get_human_feedback.
  destruct (human_in_the_loop (config E)); cbn [negb]; [|by intros [= _ <-]].
  destruct options as [[|o os]|].
  - destruct (stdin σ); by intros [= _ <-].
  - destruct (read_choice E (o :: os) (stdin σ)). by intros [= _ <-].
  - destruct (stdin σ); by intros [= _ <-].
Qed.

Lemma _generate_interim_report_spec (E : env) (X : externals) (i : StartupIdea)
    (m c p : gmap string value) (σ : orchestrator) :
  ∃ report σ',
    _generate_interim_report E X i m c p σ = (Ok report, σ') ∧
    report !! "success" = Some (VBool true) ∧
    report !! "status" = Some (VStr "interim") ∧
    report !! "error" = None ∧
    report !! "mvp_plan" = None ∧
    report !! "validation_score" = None ∧
    report !! "recommendations" = None ∧
    report !! "market_analysis" = Some (VDict m) ∧
    report !! "competitor_analysis" = Some (VDict c) ∧
    results_store σ' !! "interim_report" = Some (ObjDict report) ∧
    calls σ' = calls σ ∧ ticks σ' = S (ticks σ).
Proof.
  unfold _generate_interim_report. unfold mbind at 1. unfold M_bind at 1.
  rewrite now_spec. unfold mbind, M_bind.
  match goal with
  | |- context [_save_result E ?k ?r ?s] =>
      destruct (_save_result_spec E k r s) as (σ2 & -> & Hstore & _ & Hc & Ht & _)
  end.
  eexists _, _. split; [reflexivity|].
  rewrite Hstore, Hc, Ht.
  repeat split; try (by vm_compute). by rewrite lookup_insert_eq.
Qed.

Lemma _generate_validation_report_inv (X : externals) (i : StartupIdea)
    (m c p v : gmap string value) (σ σ' : orchestrator) (final : StartupValidationReport) :
  _generate_validation_report X i m c p v σ = (Ok final, σ') →
  ∃ recs s ps,
    _generate_recommendations X m c p v = Ok recs ∧
    _calculate_validation_score m c p v = Ok s ∧
    validate_personas X (default (VList []) (p !! "personas")) = Ok ps ∧
    final = {| idea := i; market_analysis := m; competitor_analysis := c;
               customer_personas := ps; mvp_plan := v; recommendations := recs;
               validation_score := Some (float_of_int s);
               timestamp := isoformat X (ticks σ) |} ∧
    σ' = set_ticks (S (ticks σ)) σ.
Proof.
  unfold _generate_validation_report, mbind, M_bind, lift, now, get, modify, mret, M_ret.
  destruct (_generate_recommendations X m c p v) as [recs|]; [|discriminate].
  destruct (_calculate_validation_score m c p v) as [s|]; [|discriminate].
  simpl. destruct (validate_personas X _) as [ps|]; [|discriminate].
  intros [= <- <-]. by eexists _, _, _.
Qed.

Lemma StartupValidationReport_dict_lookup (final : StartupValidationReport) :
  StartupValidationReport_dict final !! "success" = None ∧
  StartupValidationReport_dict final !! "error" = None ∧
  StartupValidationReport_dict final !! "status" = None ∧
  StartupValidationReport_dict final !! "market_analysis"
  = Some (VDict (market_analysis final)) ∧
  StartupValidationReport_dict final !! "competitor_analysis"
  = Some (VDict (competitor_analysis final)) ∧
  StartupValidationReport_dict final !! "mvp_plan" = Some (VDict (mvp_plan final)) ∧
  StartupValidationReport_dict final !! "recommendations"
  = Some (VList (VStr <$> recommendations final)).
Proof. repeat split; by vm_compute. Qed.

(** The stages of [workflow_full_validation], one tactic per kind of step. *)
Ltac parsed :=
  match goal with
  | H : lift _ _ = _ |- _ => unfold lift in H; injection H as ? <-
  end.
Ltac stage_ran k :=
  match goal with
  | H : the_output _ _ = _ |- _ => apply the_output_inv in H as [-> ->]
  end;
  match goal with
  | H : run_agent _ _ _ _ = _ |- _ =>
      let Hone := fresh "Hone" in
      apply run_agent_effect in H as (k & ? & ? & ? & _ & _ & Hone);
      specialize (Hone _ eq_refl)
  end.
Ltac saved :=
  match goal with
  | H : _save_result ?E ?key ?r ?s = _ |- _ =>
      let Hsave := fresh "Hsave" in
      destruct (_save_result_spec E key r s) as (? & Hsave & ? & _ & ? & ? & _);
      rewrite Hsave in H; injection H as _ <-; clear Hsave
  end.
Ltac stage_failed msg :=
  let Hreport := fresh "Hreport" in
  intros Hreport;
  match type of Hreport with
  | _generate_error_report ?X msg ?i ?m ?c ?p ?s = _ =>
      destruct (_generate_error_report_spec X msg i m c p s)
        as (? & Hrep & ? & ? & ? & ? & ? & ? & ? & ? & ? & ?);
      rewrite Hrep in Hreport; injection Hreport as <- <-; clear Hrep
  end.

(** X18: a report that [workflow_full_validation] returns is of exactly
    one of three kinds, told apart by its ["success"] entry.  A failure report
    has [success] false and one of the four stage errors, and holds no plan,
    score or recommendations.  An interim report has [success] true and
    status ["interim"], again without plan, score or recommendations; it
    arises only with the human gate enabled and is checkpointed under
    ["interim_report"].  A completed report has no ["success"] entry at all:
    it is the dictionary of a validation report whose score is the score of
    the market, competitor and plan payloads that the same report holds, and
    lies between 0 and 100. *)
Theorem full_validation_report_kinds (E : env) (X : externals)
    (input_data report : gmap string value) (σ σ' : orchestrator) :
  workflow_full_validation E X input_data σ = (Ok report, σ') →
  (report !! "success" = Some (VBool false) ∧
   (∃ msg, msg ∈ stage_errors ∧ report !! "error" = Some (VStr msg)) ∧
   report !! "mvp_plan" = None ∧
   report !! "validation_score" = None ∧
   report !! "recommendations" = None ∧
   report !! "status" = None) ∨
  (report !! "success" = Some (VBool true) ∧
   report !! "status" = Some (VStr "interim") ∧
   report !! "error" = None ∧
   report !! "mvp_plan" = None ∧
   report !! "validation_score" = None ∧
   report !! "recommendations" = None ∧
   human_in_the_loop (config E) = true ∧
   results_store σ' !! "interim_report" = Some (ObjDict report)) ∨
  (report !! "success" = None ∧
   report !! "error" = None ∧
   report !! "status" = None ∧
   ∃ (final : StartupValidationReport) (persona_data : gmap string value) (score : Z),
     report = StartupValidationReport_dict final ∧
     _calculate_validation_score (market_analysis final) (competitor_analysis final)
       persona_data (mvp_plan final) = Ok score ∧
     report !! "validation_score" = Some (VFloat (float_of_int score)) ∧
     0 ≤ score ≤ 100).
Proof.
  assert (Hin : ∀ msg, msg ∈ stage_errors
                       ↔ msg = "Market research failed" ∨ msg = "Competitor analysis failed" ∨
                         msg = "Customer persona generation failed" ∨
                         msg = "MVP planning failed").
  { intros msg. unfold stage_errors. rewrite !elem_of_cons, elem_of_nil. tauto. }
  unfold workflow_full_validation.
  step startup_idea σ0. step market_result σ1. step market_output σ1'.
  destruct (success market_output); cbn [negb];
    [|stage_failed "Market research failed"; left; split; [done|];
      split; [exists "Market research failed"; split; [apply Hin; tauto | done] | done]].
  step u1 σ2. step competitor_result σ3. step competitor_output σ3'.
  destruct (success competitor_output); cbn [negb];
    [|stage_failed "Competitor analysis failed"; left; split; [done|];
      split; [exists "Competitor analysis failed"; split; [apply Hin; tauto | done] | done]].
  step u2 σ4. step persona_result σ5. step persona_output σ5'.
  destruct (success persona_output); cbn [negb];
    [|stage_failed "Customer persona generation failed"; left; split; [done|];
      split; [exists "Customer persona generation failed"; split; [apply Hin; tauto | done] | done]].
  step u3 σ6. step approval σ7.
  destruct (String.eqb approval "proceed") eqn:Happroval; cbn [negb].
  - step mvp_result σ8. step mvp_output σ8'.
    destruct (success mvp_output); cbn [negb];
      [|stage_failed "MVP planning failed"; left; split; [done|];
        split; [exists "MVP planning failed"; split; [apply Hin; tauto | done] | done]].
    step u4 σ9. step final σ10. step path σ11. intros [= <- _].
    match goal with
    | H : _generate_validation_report _ _ _ _ _ _ _ = _ |- _ =>
        apply _generate_validation_report_inv in H
          as (recs & s & ps & _ & Hscore & _ & Hfinal & _)
    end.
    destruct (StartupValidationReport_dict_lookup final) as (Hs & He & Hst & _).
    right; right. do 3 (split; [done|]).
    exists final, (content persona_output), s.
    split; [done|]. split; [by rewrite Hfinal|].
    split; [apply StartupValidationReport_dict_score; by rewrite Hfinal|].
    by apply (_calculate_validation_score_range _ _ _ _ _ Hscore).
  - intros Hreport.
    destruct (_generate_interim_report_spec E X startup_idea (content market_output)
                (content competitor_output) (content persona_output) σ7)
      as (rep & σ8 & Hrep & Hs & Hst & He & Hp & Hv & Hr & _ & _ & Hstore & _).
    rewrite Hrep in Hreport. injection Hreport as <- <-.
    right; left. do 6 (split; [done|]). split; [|done].
    destruct (human_in_the_loop (config E)); [done|].
    match goal with
    | H : mret "proceed" _ = _ |- _ => injection H as <- _
    end.
    discriminate.
Qed.

Lemma full_validation_report_kinds_witness :
  (competitor_failed_sample_report !! "success" = Some (VBool false) ∧
   (∃ msg, msg ∈ stage_errors ∧
           competitor_failed_sample_report !! "error" = Some (VStr msg)) ∧
   competitor_failed_sample_report !! "mvp_plan" = None ∧
   competitor_failed_sample_report !! "validation_score" = None ∧
   competitor_failed_sample_report !! "recommendations" = None ∧
   competitor_failed_sample_report !! "status" = None) ∨
  (competitor_failed_sample_report !! "success" = Some (VBool true) ∧
   competitor_failed_sample_report !! "status" = Some (VStr "interim") ∧
   competitor_failed_sample_report !! "error" = None ∧
   competitor_failed_sample_report !! "mvp_plan" = None ∧
   competitor_failed_sample_report !! "validation_score" = None ∧
   competitor_failed_sample_report !! "recommendations" = None ∧
   human_in_the_loop (config (competitor_fails_env example_market)) = true ∧
   results_store
     (workflow_full_validation (competitor_fails_env example_market) sample_externals
        sample_input init).2 !! "interim_report"
   = Some (ObjDict competitor_failed_sample_report)) ∨
  (competitor_failed_sample_report !! "success" = None ∧
   competitor_failed_sample_report !! "error" = None ∧
   competitor_failed_sample_report !! "status" = None ∧
   ∃ (final : StartupValidationReport) (persona_data : gmap string value) (score : Z),
     competitor_failed_sample_report = StartupValidationReport_dict final ∧
     _calculate_validation_score (market_analysis final) (competitor_analysis final)
       persona_data (mvp_plan final) = Ok score ∧
     competitor_failed_sample_report !! "validation_score" = Some (VFloat (float_of_int score)) ∧
     0 ≤ score ≤ 100).
Proof.
  apply (full_validation_report_kinds (competitor_fails_env example_market) sample_externals
           sample_input
           competitor_failed_sample_report
           init
           (workflow_full_validation (competitor_fails_env example_market) sample_externals
              sample_input init).2).
  vm_compute. reflexivity.
Defined.

(** A successful output of [run_agent] is the answer of the agent's last
    invocation. *)
Lemma run_agent_success_inv (E : env) (n : string) (i : gmap string value)
    (σ σ' : orchestrator) (o : AgentOutput) :
  run_agent E n i σ = (Ok (Some o), σ') → success o = true →
  ∃ (a : collaborator) (k : nat) (result : pyobj),
    agents E !! n = Some a ∧
    Z.of_nat (S k) ≤ max_retries (config E) ∧
    calls σ' = (calls σ ++ replicate (S k) (n, i))%list ∧
    a (length (calls σ) + k)%nat i = Returns result ∧
    o = as_AgentOutput n result.
Proof.
  intros Hrun Hsuccess.
  destruct (agents E !! n) as [a|] eqn:Ha;
    [|unfold run_agent in Hrun; rewrite Ha in Hrun; discriminate].
  destruct (Z.le_gt_cases (max_retries (config E)) 0) as [Hmax|Hmax].
  { rewrite (run_agent_no_attempt E n a i σ Hmax Ha) in Hrun. discriminate. }
  rewrite (run_agent_spec E n a i σ Ha) in Hrun by lia.
  destruct (first_return a i (length (calls σ)) (Z.to_nat (max_retries (config E))))
    as [[k result]|] eqn:Hfirst.
  - injection Hrun as <- <-.
    apply first_return_Some in Hfirst as (Hk & Hat & _).
    exists a, k, result. split; [done|]. split; [lia|]. split; [|done].
    match goal with
    | |- context [save_intermediate E n result ?s] =>
        destruct (save_intermediate_spec E n result s) as (σ2 & -> & _ & _ & Hcalls & _)
    end.
    cbn [snd]. by rewrite Hcalls.
  - injection Hrun as <- <-. discriminate.
Qed.

(** The invocations of a run, collected from its steps. *)
Ltac trace_done :=
  cbn [calls set_ticks];
  repeat match goal with
  | H : calls _ = _ |- _ => rewrite H; clear H; cbn [calls set_ticks]
  end;
  rewrite <- ?app_assoc, ?app_nil_r; reflexivity.

(** The number of an invocation, counted from the start of the run. *)
Ltac count_calls :=
  cbn [calls set_ticks];
  repeat match goal with
  | H : calls _ = _ |- _ => rewrite H; cbn [calls set_ticks]
  end;
  rewrite ?length_app, ?length_replicate; lia.

Ltac fed agent result Hanswer :=
  unfold returned_by; exists agent, result;
  split_and!; [assumption | | assumption | reflexivity];
  rewrite <- Hanswer; f_equal; count_calls.

(** A stage that failed, and a stage whose output the run goes on with. *)
Ltac stage_entered :=
  match goal with
  | H : the_output _ _ = _ |- _ => apply the_output_inv in H as [-> ->]
  end.
Ltac stage_lost k :=
  match goal with
  | H : run_agent _ _ _ _ = _ |- _ =>
      let Hone := fresh "Hone" in
      apply run_agent_effect in H as (k & ? & ? & ? & _ & _ & Hone);
      specialize (Hone _ eq_refl)
  end.
Ltac stage_won agent k result Hanswer :=
  match goal with
  | H : run_agent _ _ _ _ = _, Hs : success _ = true |- _ =>
      destruct (run_agent_success_inv _ _ _ _ _ _ H Hs)
        as (agent & k & result & ? & ? & ? & Hanswer & ->);
      clear H
  end.

Ltac leaf :=
  cbv zeta; split_and!;
  first [ done | lia | trace_done | assumption
        | (let H := fresh in intros H; exfalso; first [lia | congruence])
        | (intros [?|?]; exfalso; first [lia | congruence])
        | (intros _; assumption)
        | (intros _; split_and!; first [done | lia]) ].

(** X19: the stages of [workflow_full_validation] run in order and feed
    each other.  Whenever the workflow returns a report, and saving a final
    report invokes no collaborator, the invocations of the run are those of
    the market researcher, then the competitor analyzer, then the persona
    generator, then the MVP planner, each between zero and [max_retries]
    times and every one of a stage with the same argument: the idea and the
    payloads of the stages before it.  These payloads are what the agents
    returned: when a stage is invoked at all, the payload it receives from the
    stage before is the content of the answer to that stage's last
    invocation.  The market researcher is invoked at least once and no stage
    runs unless the one before it did.  A stage error in the report means
    that no later stage was invoked; an interim report means that the planner
    was never invoked; in a completed report all four stages ran, the report
    holds the payloads that the later stages received, and its plan is the
    content of the planner's last answer. *)
Theorem full_validation_stage_order (E : env) (X : externals)
    (input_data report : gmap string value) (σ σ' : orchestrator) :
  (∀ final s, calls (_save_validation_report X final s).2 = calls s) →
  workflow_full_validation E X input_data σ = (Ok report, σ') →
  ∃ (startup_idea : StartupIdea) (market_data competitor_data persona_data : gmap string value)
    (k1 k2 k3 k4 : nat),
    let to_researcher : gmap string value :=
      {[ "idea" := VDict (StartupIdea_dict startup_idea);
         "search_terms" := default (VList []) (input_data !! "search_terms") ]} in
    let to_analyzer : gmap string value :=
      {[ "idea" := VDict (StartupIdea_dict startup_idea);
         "market_data" := VDict market_data ]} in
    let to_generator : gmap string value :=
      {[ "idea" := VDict (StartupIdea_dict startup_idea);
         "market_data" := VDict market_data;
         "competitor_data" := VDict competitor_data ]} in
    let to_planner : gmap string value :=
      {[ "idea" := VDict (StartupIdea_dict startup_idea);
         "market_data" := VDict market_data;
         "competitor_data" := VDict competitor_data;
         "customer_personas" := VDict persona_data ]} in
    let n := length (calls σ) in
    _parse_startup_idea X input_data = Ok startup_idea ∧
    calls σ'
    = (calls σ ++
       replicate k1 ("market_researcher", to_researcher) ++
       replicate k2 ("competitor_analyzer", to_analyzer) ++
       replicate k3 ("customer_persona_generator", to_generator) ++
       replicate k4 ("mvp_planner", to_planner))%list ∧
    (1 ≤ k1)%nat ∧
    Z.of_nat k1 ≤ max_retries (config E) ∧ Z.of_nat k2 ≤ max_retries (config E) ∧
    Z.of_nat k3 ≤ max_retries (config E) ∧ Z.of_nat k4 ≤ max_retries (config E) ∧
    (k3 = 0%nat ∨ (1 ≤ k2)%nat) ∧
    (k4 = 0%nat ∨ (1 ≤ k3)%nat) ∧
    ((1 ≤ k2)%nat →
     returned_by E "market_researcher" (n + k1 - 1) to_researcher market_data) ∧
    ((1 ≤ k3)%nat →
     returned_by E "competitor_analyzer" (n + k1 + k2 - 1) to_analyzer competitor_data) ∧
    ((1 ≤ k4)%nat ∨ report !! "status" = Some (VStr "interim") →
     returned_by E "customer_persona_generator" (n + k1 + k2 + k3 - 1) to_generator
       persona_data) ∧
    (report !! "error" = Some (VStr "Market research failed") →
     k2 = 0%nat ∧ k3 = 0%nat ∧ k4 = 0%nat) ∧
    (report !! "error" = Some (VStr "Competitor analysis failed") →
     (1 ≤ k2)%nat ∧ k3 = 0%nat ∧ k4 = 0%nat) ∧
    (report !! "error" = Some (VStr "Customer persona generation failed") →
     (1 ≤ k3)%nat ∧ k4 = 0%nat) ∧
    (report !! "status" = Some (VStr "interim") → (1 ≤ k3)%nat ∧ k4 = 0%nat) ∧
    (report !! "success" = None →
     (1 ≤ k4)%nat ∧
     report !! "market_analysis" = Some (VDict market_data) ∧
     report !! "competitor_analysis" = Some (VDict competitor_data) ∧
     ∃ mvp_data : gmap string value,
       returned_by E "mvp_planner" (n + k1 + k2 + k3 + k4 - 1) to_planner mvp_data ∧
       report !! "mvp_plan" = Some (VDict mvp_data)).
Proof.
  intros Hwriter. unfold workflow_full_validation.
  step startup_idea σ0. step market_result σ1. step market_output σ1'.
  parsed. stage_entered.
  destruct (success market_output) eqn:Hsuccess1; cbn [negb];
    [|stage_lost k1; stage_failed "Market research failed";
      exists startup_idea, ∅, ∅, ∅, k1, O, O, O; leaf].
  stage_won agent1 k1 result1 Hanswer1.
  assert (Hfed1 : returned_by E "market_researcher" (length (calls σ) + S k1 - 1)
            {[ "idea" := VDict (StartupIdea_dict startup_idea);
               "search_terms" := default (VList []) (input_data !! "search_terms") ]}
            (content (as_AgentOutput "market_researcher" result1))) by fed agent1 result1 Hanswer1.
  step u1 σ2. step competitor_result σ3. step competitor_output σ3'.
  saved. stage_entered.
  destruct (success competitor_output) eqn:Hsuccess2; cbn [negb];
    [|stage_lost k2; stage_failed "Competitor analysis failed";
      exists startup_idea, (content (as_AgentOutput "market_researcher" result1)), ∅, ∅,
        (S k1), k2, O, O; leaf].
  stage_won agent2 k2 result2 Hanswer2.
  assert (Hfed2 : returned_by E "competitor_analyzer"
            (length (calls σ) + S k1 + S k2 - 1)
            {[ "idea" := VDict (StartupIdea_dict startup_idea);
               "market_data" := VDict (content (as_AgentOutput "market_researcher" result1)) ]}
            (content (as_AgentOutput "competitor_analyzer" result2))) by fed agent2 result2 Hanswer2.
  step u2 σ4. step persona_result σ5. step persona_output σ5'.
  saved. stage_entered.
  destruct (success persona_output) eqn:Hsuccess3; cbn [negb];
    [|stage_lost k3; stage_failed "Customer persona generation failed";
      exists startup_idea, (content (as_AgentOutput "market_researcher" result1)),
        (content (as_AgentOutput "competitor_analyzer" result2)), ∅,
        (S k1), (S k2), k3, O; leaf].
  stage_won agent3 k3 result3 Hanswer3.
  assert (Hfed3 : returned_by E "customer_persona_generator"
            (length (calls σ) + S k1 + S k2 + S k3 - 1)
            {[ "idea" := VDict (StartupIdea_dict startup_idea);
               "market_data" := VDict (content (as_AgentOutput "market_researcher" result1));
               "competitor_data"
               := VDict (content (as_AgentOutput "competitor_analyzer" result2)) ]}
            (content (as_AgentOutput "customer_persona_generator" result3)))
    by fed agent3 result3 Hanswer3.
  step u3 σ6. step approval σ7.
  saved.
  match goal with
  | H : (if human_in_the_loop (config E) then _ else _) _ = (_, ?s),
    Hsaved : calls ?s0 = calls σ5 |- _ =>
      assert (calls s = calls s0)
        by (destruct (human_in_the_loop (config E));
            [by apply get_human_feedback_frame in H as (-> & _) | by injection H as _ <-]);
      clear H
  end.
  destruct (String.eqb approval "proceed"); cbn [negb].
  - step mvp_result σ8. step mvp_output σ8'. stage_entered.
    destruct (success mvp_output) eqn:Hsuccess4; cbn [negb];
      [|stage_lost k4; stage_failed "MVP planning failed";
        exists startup_idea, (content (as_AgentOutput "market_researcher" result1)),
          (content (as_AgentOutput "competitor_analyzer" result2)),
          (content (as_AgentOutput "customer_persona_generator" result3)),
          (S k1), (S k2), (S k3), k4; leaf].
    stage_won agent4 k4 result4 Hanswer4.
    assert (Hfed4 : returned_by E "mvp_planner"
              (length (calls σ) + S k1 + S k2 + S k3 + S k4 - 1)
              {[ "idea" := VDict (StartupIdea_dict startup_idea);
                 "market_data"
                 := VDict (content (as_AgentOutput "market_researcher" result1));
                 "competitor_data"
                 := VDict (content (as_AgentOutput "competitor_analyzer" result2));
                 "customer_personas"
                 := VDict (content (as_AgentOutput "customer_persona_generator" result3)) ]}
              (content (as_AgentOutput "mvp_planner" result4))) by fed agent4 result4 Hanswer4.
    step u4 σ9. step final σ10. step path σ11. intros [= <- <-].
    saved.
    match goal with
    | H : _generate_validation_report _ _ _ _ _ _ _ = _ |- _ =>
        apply _generate_validation_report_inv in H
          as (recs & s & ps & _ & _ & _ & Hfinal & ->)
    end.
    match goal with
    | H : _save_validation_report X final ?s = (_, ?s') |- _ =>
        assert (calls s' = calls s) by (by rewrite <- (Hwriter final s), H); clear H
    end.
    destruct (StartupValidationReport_dict_lookup final)
      as (Hs & He & Hst & Hm & Hc & Hplan & _).
    exists startup_idea, (content (as_AgentOutput "market_researcher" result1)),
      (content (as_AgentOutput "competitor_analyzer" result2)),
      (content (as_AgentOutput "customer_persona_generator" result3)),
      (S k1), (S k2), (S k3), (S k4).
    cbv zeta. split_and!;
      first [ done | lia | trace_done | assumption
            | (let H := fresh in intros H; exfalso; first [lia | congruence])
            | (intros [?|?]; exfalso; first [lia | congruence])
            | (intros _; assumption) | idtac ].
    intros _. rewrite Hm, Hc, Hplan, Hfinal. split_and!; [lia | done | done |].
    by eexists.
  - intros Hreport.
    destruct (_generate_interim_report_spec E X startup_idea
                (content (as_AgentOutput "market_researcher" result1))
                (content (as_AgentOutput "competitor_analyzer" result2))
                (content (as_AgentOutput "customer_persona_generator" result3)) σ7)
      as (rep & σ8 & Hrep & Hs & Hst & He & _ & _ & _ & _ & _ & _ & Hcalls & _).
    rewrite Hrep in Hreport. injection Hreport as <- <-.
    exists startup_idea, (content (as_AgentOutput "market_researcher" result1)),
      (content (as_AgentOutput "competitor_analyzer" result2)),
      (content (as_AgentOutput "customer_persona_generator" result3)),
      (S k1), (S k2), (S k3), O.
    leaf.
Qed.

Lemma full_validation_stage_order_witness :
  ∃ (startup_idea : StartupIdea) (market_data competitor_data persona_data : gmap string value)
    (k1 k2 k3 k4 : nat),
    let to_researcher : gmap string value :=
      {[ "idea" := VDict (StartupIdea_dict startup_idea);
         "search_terms" := default (VList []) (sample_input !! "search_terms") ]} in
    let to_analyzer : gmap string value :=
      {[ "idea" := VDict (StartupIdea_dict startup_idea);
         "market_data" := VDict market_data ]} in
    let to_generator : gmap string value :=
      {[ "idea" := VDict (StartupIdea_dict startup_idea);
         "market_data" := VDict market_data;
         "competitor_data" := VDict competitor_data ]} in
    let to_planner : gmap string value :=
      {[ "idea" := VDict (StartupIdea_dict startup_idea);
         "market_data" := VDict market_data;
         "competitor_data" := VDict competitor_data;
         "customer_personas" := VDict persona_data ]} in
    let n := length (calls init) in
    _parse_startup_idea sample_externals sample_input = Ok startup_idea ∧
    calls (workflow_full_validation (competitor_fails_env example_market) sample_externals
             sample_input init).2
    = (calls init ++
       replicate k1 ("market_researcher", to_researcher) ++
       replicate k2 ("competitor_analyzer", to_analyzer) ++
       replicate k3 ("customer_persona_generator", to_generator) ++
       replicate k4 ("mvp_planner", to_planner))%list ∧
    (1 ≤ k1)%nat ∧
    Z.of_nat k1 ≤ max_retries (config (competitor_fails_env example_market)) ∧
    Z.of_nat k2 ≤ max_retries (config (competitor_fails_env example_market)) ∧
    Z.of_nat k3 ≤ max_retries (config (competitor_fails_env example_market)) ∧
    Z.of_nat k4 ≤ max_retries (config (competitor_fails_env example_market)) ∧
    (k3 = 0%nat ∨ (1 ≤ k2)%nat) ∧
    (k4 = 0%nat ∨ (1 ≤ k3)%nat) ∧
    ((1 ≤ k2)%nat →
     returned_by (competitor_fails_env example_market) "market_researcher" (n + k1 - 1)
       to_researcher market_data) ∧
    ((1 ≤ k3)%nat →
     returned_by (competitor_fails_env example_market) "competitor_analyzer"
       (n + k1 + k2 - 1) to_analyzer competitor_data) ∧
    ((1 ≤ k4)%nat ∨ competitor_failed_sample_report !! "status" = Some (VStr "interim") →
     returned_by (competitor_fails_env example_market) "customer_persona_generator"
       (n + k1 + k2 + k3 - 1) to_generator persona_data) ∧
    (competitor_failed_sample_report !! "error" = Some (VStr "Market research failed") →
     k2 = 0%nat ∧ k3 = 0%nat ∧ k4 = 0%nat) ∧
    (competitor_failed_sample_report !! "error" = Some (VStr "Competitor analysis failed") →
     (1 ≤ k2)%nat ∧ k3 = 0%nat ∧ k4 = 0%nat) ∧
    (competitor_failed_sample_report !! "error"
     = Some (VStr "Customer persona generation failed") →
     (1 ≤ k3)%nat ∧ k4 = 0%nat) ∧
    (competitor_failed_sample_report !! "status" = Some (VStr "interim") →
     (1 ≤ k3)%nat ∧ k4 = 0%nat) ∧
    (competitor_failed_sample_report !! "success" = None →
     (1 ≤ k4)%nat ∧
     competitor_failed_sample_report !! "market_analysis" = Some (VDict market_data) ∧
     competitor_failed_sample_report !! "competitor_analysis" = Some (VDict competitor_data) ∧
     ∃ mvp_data : gmap string value,
       returned_by (competitor_fails_env example_market) "mvp_planner"
         (n + k1 + k2 + k3 + k4 - 1) to_planner mvp_data ∧
       competitor_failed_sample_report !! "mvp_plan" = Some (VDict mvp_data)).
Proof.
  apply (full_validation_stage_order (competitor_fails_env example_market) sample_externals
           sample_input competitor_failed_sample_report init
           (workflow_full_validation (competitor_fails_env example_market) sample_externals
              sample_input init).2).
  - intros final s. reflexivity.
  - vm_compute. reflexivity.
Defined.

(** ** The pipeline on the agents of the repository *)

Lemma M_bind_Ok {A B} (m : M A) (f : A → M B) (a : A) (σ σ' : orchestrator) :
  m σ = (Ok a, σ') → (m ≫= f) σ = f a σ'.
Proof. intros H. unfold mbind, M_bind. by rewrite H. Qed.

Lemma the_output_Some {B} (o : AgentOutput) (f : AgentOutput → M B) (σ : orchestrator) :
  (the_output (Some o) ≫= f) σ = f o σ.
Proof. reflexivity. Qed.

Lemma M_ret_bind {A B} (a : A) (f : A → M B) (σ : orchestrator) :
  (mret a ≫= f) σ = f a σ.
Proof. reflexivity. Qed.

(** [run_agent] on an agent whose first answer is a mapping. *)
Lemma run_agent_first_answer (E : env) (n : string) (a : collaborator)
    (i d : gmap string value) (σ : orchestrator) :
  agents E !! n = Some a → 1 ≤ max_retries (config E) →
  a (length (calls σ)) i = Returns (ObjDict d) →
  ∃ σ', run_agent E n i σ
        = (Ok (Some {| agent_name := n; message_type := "result"; content := d;
                       success := true; metadata := None |}), σ').
Proof.
  intros Ha Hmax Hd. unfold run_agent. rewrite Ha.
  destruct (Z.to_nat (max_retries (config E))) as [|r] eqn:Hr; [lia|].
  cbn [run_agent_attempts]. unfold mbind, M_bind, invoke. rewrite Hd.
  destruct (save_intermediate_spec E n (ObjDict d) (set_calls (calls σ ++ [(n, i)]) σ))
    as (σ' & -> & _).
  by eexists.
Qed.

Ltac agent_answers Ha Hlike s m d σx :=
  let Hanswer := fresh "Hanswer" in
  let Hrun := fresh "Hrun" in
  match goal with
  | |- context [mbind _ (run_agent ?E ?n ?i) ?σ] =>
      destruct (Hlike (length (calls σ)) i) as (s & m & d & Hanswer);
      destruct (run_agent_first_answer E n _ i _ σ Ha ltac:(done) Hanswer) as (σx & Hrun)
  end;
  rewrite (M_bind_Ok _ _ _ _ _ Hrun);
  rewrite the_output_Some;
  cbn [success content negb].

Ltac result_saved σx :=
  let Hsaved := fresh "Hsaved" in
  match goal with
  | |- context [mbind _ (_save_result ?E ?k ?r) ?σ] =>
      destruct (_save_result_spec E k r σ) as (σx & Hsaved & _)
  end;
  rewrite (M_bind_Ok _ _ _ _ _ Hsaved).

(** X20: the whole pipeline on agents that answer as the agents of the
    repository do.  With at least one attempt configured, the human gate
    disabled, a valid idea, the recommendations of [_generate_recommendations]
    and a report writer that returns, [workflow_full_validation] returns a
    completed report, and whatever the agents put under ["data"] the report
    has the baseline score 50, exactly the two general recommendations and no
    personas: the workflow reads the entries of the payloads themselves, and
    the agents wrap theirs under ["data"]. *)
Theorem repository_agents_report (E : env) (X : externals) (P : python)
    (input_data : gmap string value) (startup_idea : StartupIdea)
    (a1 a2 a3 a4 : collaborator) (σ : orchestrator) :
  1 ≤ max_retries (config E) →
  human_in_the_loop (config E) = false →
  agents E !! "market_researcher" = Some a1 → answers_like_an_agent a1 →
  agents E !! "competitor_analyzer" = Some a2 → answers_like_an_agent a2 →
  agents E !! "customer_persona_generator" = Some a3 → answers_like_an_agent a3 →
  agents E !! "mvp_planner" = Some a4 → answers_like_an_agent a4 →
  _parse_startup_idea X input_data = Ok startup_idea →
  _generate_recommendations X = generate_recommendations P →
  validate_personas X (VList []) = Ok [] →
  (∀ final s, ∃ path s', _save_validation_report X final s = (Ok path, s')) →
  ∃ report σ',
    workflow_full_validation E X input_data σ = (Ok report, σ') ∧
    report !! "validation_score" = Some (VFloat (float_of_int 50)) ∧
    report !! "recommendations" = Some (VList (VStr <$> general_recommendations)) ∧
    report !! "customer_personas" = Some (VList []) ∧
    report !! "idea" = Some (VDict (StartupIdea_dict startup_idea)) ∧
    report !! "success" = None.
Proof.
  intros Hmax Hgate Ha1 Hlike1 Ha2 Hlike2 Ha3 Hlike3 Ha4 Hlike4 Hparse Hrecs Hpersonas
    Hwriter.
  unfold workflow_full_validation.
  rewrite (M_bind_Ok (lift _) _ startup_idea σ σ) by (unfold lift; by rewrite Hparse).
  cbv zeta.
  agent_answers Ha1 Hlike1 s1 m1 d1 σ1. result_saved σ2.
  agent_answers Ha2 Hlike2 s2 m2 d2 σ3. result_saved σ4.
  agent_answers Ha3 Hlike3 s3 m3 d3 σ5. result_saved σ6.
  rewrite Hgate. rewrite M_ret_bind.
  cbn [String.eqb Ascii.eqb Bool.eqb negb].
  agent_answers Ha4 Hlike4 s4 m4 d4 σ7. result_saved σ8.
  assert (Hfinal : ∃ final,
            _generate_validation_report X startup_idea (agent_result s1 m1 d1)
              (agent_result s2 m2 d2) (agent_result s3 m3 d3) (agent_result s4 m4 d4) σ8
            = (Ok final, set_ticks (S (ticks σ8)) σ8) ∧
            validation_score final = Some (float_of_int 50) ∧
            recommendations final = general_recommendations ∧
            customer_personas final = [] ∧
            idea final = startup_idea).
  { unfold _generate_validation_report, mbind, M_bind, lift, now, get, modify, mret, M_ret.
    rewrite Hrecs, agent_result_recommendations, agent_result_score.
    rewrite agent_result_lookup by done. cbn [default from_option id].
    rewrite Hpersonas. by eexists. }
  destruct Hfinal as (final & Hfinal & Hscore & Hrec & Hper & Hidea).
  rewrite (M_bind_Ok _ _ _ _ _ Hfinal).
  destruct (Hwriter final (set_ticks (S (ticks σ8)) σ8)) as (path & σ9 & Hpath).
  rewrite (M_bind_Ok _ _ _ _ _ Hpath).
  eexists _, _. split; [reflexivity|].
  split; [by apply StartupValidationReport_dict_score|].
  replace (StartupValidationReport_dict final !! "recommendations")
    with (Some (VList (VStr <$> recommendations final))) by (by vm_compute).
  replace (StartupValidationReport_dict final !! "customer_personas")
    with (Some (VList (VDict <$> customer_personas final))) by (by vm_compute).
  replace (StartupValidationReport_dict final !! "idea")
    with (Some (VDict (StartupIdea_dict (idea final)))) by (by vm_compute).
  rewrite Hrec, Hper, Hidea. by split_and!.
Qed.

Lemma repository_agents_report_witness :
  ∃ report σ',
    workflow_full_validation
      (pipeline_env (ObjDict (agent_result "success" "Market research completed"
                                (VDict example_market))))
      (repository_externals python_3_11) sample_input init = (Ok report, σ') ∧
    report !! "validation_score" = Some (VFloat (float_of_int 50)) ∧
    report !! "recommendations" = Some (VList (VStr <$> general_recommendations)) ∧
    report !! "customer_personas" = Some (VList []) ∧
    report !! "idea" = Some (VDict (StartupIdea_dict sample_idea)) ∧
    report !! "success" = None.
Proof.
  apply (repository_agents_report
           (pipeline_env (ObjDict (agent_result "success" "Market research completed"
                                     (VDict example_market))))
           (repository_externals python_3_11) python_3_11 sample_input sample_idea
           (always (Returns (ObjDict (agent_result "success" "Market research completed"
                                        (VDict example_market)))))
           (always (Returns (ObjDict (agent_result "success" "Market research completed"
                                        (VDict example_market)))))
           (always (Returns (ObjDict (agent_result "success" "Market research completed"
                                        (VDict example_market)))))
           (always (Returns (ObjDict (agent_result "success" "Market research completed"
                                        (VDict example_market)))))
           init).
  - vm_compute. discriminate.
  - reflexivity.
  - vm_compute. reflexivity.
  - intros n i. by eexists _, _, _.
  - vm_compute. reflexivity.
  - intros n i. by eexists _, _, _.
  - vm_compute. reflexivity.
  - intros n i. by eexists _, _, _.
  - vm_compute. reflexivity.
  - intros n i. by eexists _, _, _.
  - vm_compute. reflexivity.
  - reflexivity.
  - reflexivity.
  - intros final s. by eexists _, _.
Defined.
